(** * btsnoop_parser.py: a shallow embedding of the capture decoder

    The development follows [src/btsnoop_parser.py].  Python integers are
    [Z]; a [bytes] object is a [list byte]; a [str] is a [string]; the parser
    object ([self]) together with the process's standard output is the state
    of a small state-and-exception monad, because Python keeps every mutation
    made before an exception propagates. *)

From Stdlib Require Import ZArith List Bool String Ascii Lia.
From Stdlib Require Import Strings.Byte DecimalString.
Import ListNotations.

Open Scope string_scope.
Open Scope list_scope.
Open Scope Z_scope.

(** ** Python values *)

Definition bytes := list byte.

(** [len(x)] *)
Definition len {A : Type} (l : list A) : Z := Z.of_nat (List.length l).

(** The integer an element of a [bytes] object is read as. *)
Definition u8 (b : byte) : Z := Z.of_N (Byte.to_N b).

(** Bounds of a slice are clamped the way CPython's [PySlice_AdjustIndices]
    does it for step 1: a negative bound counts from the end. *)
Definition clamp (i n : Z) : Z :=
  if i <? 0 then Z.max 0 (i + n) else Z.min i n.

(** [l[a:b]]; never raises. *)
Definition slice {A : Type} (l : list A) (a b : Z) : list A :=
  let lo := clamp a (len l) in
  let hi := clamp b (len l) in
  firstn (Z.to_nat (hi - lo)) (skipn (Z.to_nat lo) l).

(** [l[a:]] *)
Definition slice_from {A : Type} (l : list A) (a : Z) : list A :=
  skipn (Z.to_nat (clamp a (len l))) l.

(** Equality of two [bytes] objects. *)
Fixpoint bytes_eqb (x y : bytes) : bool :=
  match x, y with
  | [], [] => true
  | a :: x', b :: y' => Byte.eqb a b && bytes_eqb x' y'
  | _, _ => false
  end.

(** Big-endian unsigned integer held by a byte string ([struct] formats
    [>I] and [>Q]). *)
Definition be_uint (bs : bytes) : Z :=
  fold_left (fun acc b => acc * 256 + u8 b) bs 0.

(** Little-endian unsigned 16-bit integer ([struct] format [<H]). *)
Definition le_uint16 (lo hi : byte) : Z := u8 lo + 256 * u8 hi.

(** ** Formatting *)

Definition hex_digit_upper (d : Z) : ascii :=
  match d with
  | 0 => "0" | 1 => "1" | 2 => "2" | 3 => "3"
  | 4 => "4" | 5 => "5" | 6 => "6" | 7 => "7"
  | 8 => "8" | 9 => "9" | 10 => "A" | 11 => "B"
  | 12 => "C" | 13 => "D" | 14 => "E" | _ => "F"
  end%char.

Fixpoint hex_upper_of_uint (u : Hexadecimal.uint) : string :=
  match u with
  | Hexadecimal.Nil => ""
  | Hexadecimal.D0 u' => String "0" (hex_upper_of_uint u')
  | Hexadecimal.D1 u' => String "1" (hex_upper_of_uint u')
  | Hexadecimal.D2 u' => String "2" (hex_upper_of_uint u')
  | Hexadecimal.D3 u' => String "3" (hex_upper_of_uint u')
  | Hexadecimal.D4 u' => String "4" (hex_upper_of_uint u')
  | Hexadecimal.D5 u' => String "5" (hex_upper_of_uint u')
  | Hexadecimal.D6 u' => String "6" (hex_upper_of_uint u')
  | Hexadecimal.D7 u' => String "7" (hex_upper_of_uint u')
  | Hexadecimal.D8 u' => String "8" (hex_upper_of_uint u')
  | Hexadecimal.D9 u' => String "9" (hex_upper_of_uint u')
  | Hexadecimal.Da u' => String "A" (hex_upper_of_uint u')
  | Hexadecimal.Db u' => String "B" (hex_upper_of_uint u')
  | Hexadecimal.Dc u' => String "C" (hex_upper_of_uint u')
  | Hexadecimal.Dd u' => String "D" (hex_upper_of_uint u')
  | Hexadecimal.De u' => String "E" (hex_upper_of_uint u')
  | Hexadecimal.Df u' => String "F" (hex_upper_of_uint u')
  end.

Fixpoint zeros (n : nat) : string :=
  match n with
  | O => ""
  | S n' => String "0" (zeros n')
  end.

(** [f'{n:0wX}'] for a non-negative [n]: uppercase hexadecimal, padded with
    zeros on the left to at least [w] characters. *)
Definition fmt_0wX (w : nat) (n : Z) : string :=
  let digits := hex_upper_of_uint (N.to_hex_uint (Z.to_N n)) in
  (zeros (w - String.length digits) ++ digits)%string.

Definition fmt_02X : Z -> string := fmt_0wX 2.
Definition fmt_04X : Z -> string := fmt_0wX 4.

(** [f'{n}'] for a non-negative [n]. *)
Definition fmt_int (n : Z) : string :=
  NilZero.string_of_uint (N.to_uint (Z.to_N n)).

(** [sep.join(parts)] *)
Definition join (sep : string) (parts : list string) : string :=
  String.concat sep parts.

(** [d.get(key, default)] on a dictionary with integer keys. *)
Fixpoint dict_lookup {V : Type} (d : list (Z * V)) (key : Z) : option V :=
  match d with
  | [] => None
  | (k, v) :: d' => if k =? key then Some v else dict_lookup d' key
  end.

Definition dict_get {V : Type} (d : list (Z * V)) (key : Z) (default : V) : V :=
  match dict_lookup d key with
  | Some v => v
  | None => default
  end.

(** ** Dates

    A [datetime] is counted in microseconds from 0001-01-01 00:00:00, the
    smallest value the type holds; the largest is 9999-12-31 23:59:59.999999.
    A [timedelta] is a number of microseconds of magnitude below
    1_000_000_000 days. *)

Definition datetime := Z.
Definition timedelta := Z.

Definition DATETIME_MAX : datetime := 3652059 * 86400 * 1000000 - 1.
Definition TIMEDELTA_LIMIT : Z := 1000000000 * 86400 * 1000000.

(** [timedelta(microseconds=us)]; [None] stands for [OverflowError]. *)
Definition timedelta_microseconds (us : Z) : option timedelta :=
  if (- TIMEDELTA_LIMIT <? us) && (us <? TIMEDELTA_LIMIT) then Some us else None.

(** [d + td]; [None] stands for [OverflowError]. *)
Definition datetime_add (d : datetime) (td : timedelta) : option datetime :=
  if (0 <=? d + td) && (d + td <=? DATETIME_MAX) then Some (d + td) else None.

(** ** Constants of the module *)

Definition BTSNOOP_MAGIC : bytes := [x62; x74; x73; x6e; x6f; x6f; x70; x00].
Definition BTSNOOP_VERSION : Z := 1.
Definition DATALINK_HCI : Z := 1002.

Definition HCI_COMMAND : Z := 0x01.
Definition HCI_ACL_DATA : Z := 0x02.
Definition HCI_SCO_DATA : Z := 0x03.
Definition HCI_EVENT : Z := 0x04.

Definition EVT_CONNECTION_COMPLETE : Z := 0x03.
Definition EVT_CONNECTION_REQUEST : Z := 0x04.
Definition EVT_DISCONNECTION_COMPLETE : Z := 0x05.
Definition EVT_LE_META : Z := 0x3E.

Definition LE_CONNECTION_COMPLETE : Z := 0x01.
Definition LE_ADV_REPORT : Z := 0x02.
Definition LE_CONNECTION_UPDATE_COMPLETE : Z := 0x03.
Definition LE_ENHANCED_CONNECTION_COMPLETE : Z := 0x0A.
Definition LE_EXT_ADV_REPORT : Z := 0x0D.

Definition CMD_CREATE_CONNECTION : Z := 0x0405.
Definition CMD_DISCONNECT : Z := 0x0406.
Definition CMD_LE_CREATE_CONNECTION : Z := 0x200D.

Definition ATT_READ_REQ : Z := 0x0A.
Definition ATT_READ_RSP : Z := 0x0B.
Definition ATT_READ_BY_TYPE_REQ : Z := 0x08.
Definition ATT_READ_BY_TYPE_RSP : Z := 0x09.
Definition ATT_READ_BY_GROUP_REQ : Z := 0x10.
Definition ATT_READ_BY_GROUP_RSP : Z := 0x11.
Definition ATT_WRITE_REQ : Z := 0x12.
Definition ATT_WRITE_RSP : Z := 0x13.
Definition ATT_WRITE_CMD : Z := 0x52.
Definition ATT_PREPARE_WRITE_REQ : Z := 0x16.
Definition ATT_PREPARE_WRITE_RSP : Z := 0x17.
Definition ATT_EXECUTE_WRITE_REQ : Z := 0x18.
Definition ATT_EXECUTE_WRITE_RSP : Z := 0x19.

Definition L2CAP_CID_ATT : Z := 0x0004.

Definition BTSNOOP_EPOCH : datetime := 0.

Definition DISCONNECT_REASONS : list (Z * string) :=
  [ (0x00, "Success");
    (0x05, "Authentication Failure");
    (0x06, "PIN or Key Missing");
    (0x07, "Memory Capacity Exceeded");
    (0x08, "Connection Timeout");
    (0x09, "Connection Limit Exceeded");
    (0x0C, "Command Disallowed");
    (0x13, "Remote User Terminated Connection");
    (0x14, "Remote Device Terminated due to Low Resources");
    (0x15, "Remote Device Terminated due to Power Off");
    (0x16, "Connection Terminated by Local Host");
    (0x1A, "Unsupported Remote Feature");
    (0x22, "LMP Response Timeout");
    (0x3E, "Connection Failed to be Established") ].

Definition ADDR_TYPES : list (Z * string) :=
  [ (0x00, "Public");
    (0x01, "Random");
    (0x02, "Public Identity");
    (0x03, "Random Identity") ].

Definition ATT_OPCODES : list (Z * string) :=
  [ (ATT_READ_REQ, "Read Request");
    (ATT_READ_RSP, "Read Response");
    (ATT_READ_BY_TYPE_REQ, "Read By Type Request");
    (ATT_READ_BY_TYPE_RSP, "Read By Type Response");
    (ATT_READ_BY_GROUP_REQ, "Read By Group Type Request");
    (ATT_READ_BY_GROUP_RSP, "Read By Group Type Response");
    (ATT_WRITE_REQ, "Write Request");
    (ATT_WRITE_RSP, "Write Response");
    (ATT_WRITE_CMD, "Write Command");
    (ATT_PREPARE_WRITE_REQ, "Prepare Write Request");
    (ATT_PREPARE_WRITE_RSP, "Prepare Write Response");
    (ATT_EXECUTE_WRITE_REQ, "Execute Write Request");
    (ATT_EXECUTE_WRITE_RSP, "Execute Write Response") ].

(** ** The dataclasses *)

Record BtsnoopPacket := mkBtsnoopPacket {
  pkt_timestamp : datetime;
  pkt_direction : string;
  pkt_packet_type : Z;
  pkt_data : bytes
}.

Record ConnectionRequest := mkConnectionRequest {
  conn_timestamp : datetime;
  conn_direction : string;
  conn_bd_addr : string;
  conn_link_type : string;
  conn_event_type : string
}.

Record DisconnectionEvent := mkDisconnectionEvent {
  disc_timestamp : datetime;
  disc_handle : Z;
  disc_reason : Z;
  disc_reason_str : string
}.

Record AdvertisementPacket := mkAdvertisementPacket {
  adv_timestamp : datetime;
  adv_event_type : Z;
  adv_addr_type : string;
  adv_bd_addr : string;
  adv_rssi : Z;
  adv_data : bytes
}.

Record GattOperation := mkGattOperation {
  gatt_timestamp : datetime;
  gatt_direction : string;
  gatt_operation : string;
  gatt_handle : option Z;
  gatt_data : bytes
}.

(** ** The parser object and the monad

    [Parser] holds the five lists of a [BtsnoopParser] instance and the lines
    printed so far.  [__init__] is [init]. *)

Record Parser := mkParser {
  packets : list BtsnoopPacket;
  connections : list ConnectionRequest;
  disconnections : list DisconnectionEvent;
  advertisements : list AdvertisementPacket;
  gatt_operations : list GattOperation;
  stdout : list string
}.

Definition init : Parser := mkParser [] [] [] [] [] [].

(** The exceptions the modelled code can raise.  The text of the two
    [ValueError]s of [parse] is kept as a constructor, the second with the
    offending magic bytes.  [MemoryError] is what [f.read(n)] raises where
    the buffer of [n] bytes it asks for cannot be had. *)
Inductive value_error :=
| FileTooSmall
| InvalidMagic (magic : bytes).

Inductive exn :=
| ValueError (what : value_error)
| IndexError
| StructError
| MemoryError.

(** How a call ends: it returns, it raises, or the model's loop budget ran
    out (shown below never to happen for [parse]). *)
Inductive outcome (A : Type) :=
| Ok (a : A)
| Raise (e : exn)
| OutOfFuel.
Arguments Ok {A} a.
Arguments Raise {A} e.
Arguments OutOfFuel {A}.

Definition M (A : Type) : Type := Parser -> outcome A * Parser.

Definition ret {A : Type} (a : A) : M A := fun st => (Ok a, st).
Definition raise {A : Type} (e : exn) : M A := fun st => (Raise e, st).
Definition out_of_fuel {A : Type} : M A := fun st => (OutOfFuel, st).

Definition bind {A B : Type} (c : M A) (k : A -> M B) : M B :=
  fun st =>
    match c st with
    | (Ok a, st') => k a st'
    | (Raise e, st') => (Raise e, st')
    | (OutOfFuel, st') => (OutOfFuel, st')
    end.

Notation "x <- c ;; k" := (bind c (fun x => k))
  (at level 61, c at next level, right associativity).
Notation "c ;;; k" := (bind c (fun _ => k))
  (at level 61, right associativity).

Definition modify (f : Parser -> Parser) : M unit := fun st => (Ok tt, f st).

(** [l[i]] on a [bytes] object: the element as an integer, [IndexError]
    outside the object; a negative index counts from the end. *)
Definition getitem (l : bytes) (i : Z) : M Z :=
  let j := if i <? 0 then i + len l else i in
  if (j <? 0) || (len l <=? j) then raise IndexError
  else ret (u8 (nth (Z.to_nat j) l x00)).

(** [struct.unpack('<H', bs)[0]] *)
Definition unpack_le_H (bs : bytes) : M Z :=
  match bs with
  | [lo; hi] => ret (le_uint16 lo hi)
  | _ => raise StructError
  end.

(** [struct.unpack('>II', bs)] *)
Definition unpack_be_II (bs : bytes) : M (Z * Z) :=
  if len bs =? 8 then ret (be_uint (slice bs 0 4), be_uint (slice bs 4 8))
  else raise StructError.

(** [struct.unpack('>IIIIQ', bs)] *)
Definition unpack_be_IIIIQ (bs : bytes) : M (Z * Z * Z * Z * Z) :=
  if len bs =? 24 then
    ret (be_uint (slice bs 0 4), be_uint (slice bs 4 8),
         be_uint (slice bs 8 12), be_uint (slice bs 12 16),
         be_uint (slice bs 16 24))
  else raise StructError.

(** [print(line)] *)
Definition print (line : string) : M unit :=
  modify (fun st => mkParser (packets st) (connections st) (disconnections st)
                             (advertisements st) (gatt_operations st)
                             (stdout st ++ [line])).

Definition append_packet (p : BtsnoopPacket) : M unit :=
  modify (fun st => mkParser (packets st ++ [p]) (connections st)
                             (disconnections st) (advertisements st)
                             (gatt_operations st) (stdout st)).

Definition append_connection (c : ConnectionRequest) : M unit :=
  modify (fun st => mkParser (packets st) (connections st ++ [c])
                             (disconnections st) (advertisements st)
                             (gatt_operations st) (stdout st)).

Definition append_disconnection (d : DisconnectionEvent) : M unit :=
  modify (fun st => mkParser (packets st) (connections st)
                             (disconnections st ++ [d]) (advertisements st)
                             (gatt_operations st) (stdout st)).

Definition append_advertisement (a : AdvertisementPacket) : M unit :=
  modify (fun st => mkParser (packets st) (connections st)
                             (disconnections st) (advertisements st ++ [a])
                             (gatt_operations st) (stdout st)).

Definition append_gatt_operation (g : GattOperation) : M unit :=
  modify (fun st => mkParser (packets st) (connections st)
                             (disconnections st) (advertisements st)
                             (gatt_operations st ++ [g]) (stdout st)).

(** ** The decoders *)

(** The expression [':'.join(f'{b:02X}' for b in reversed(bs))], which the
    source repeats wherever it renders a hardware address. *)
Definition format_bd_addr (bs : bytes) : string :=
  join ":" (map (fun b => fmt_02X (u8 b)) (rev bs)).

(** The body of [for _ in range(num_reports)] in [_process_le_meta_event],
    by recursion on the iterations that are left; [ret tt] in the middle of
    the body is [break]. *)
Fixpoint adv_report_loop (pkt : BtsnoopPacket) (params : bytes) (n : nat)
    (offset : Z) : M unit :=
  match n with
  | O => ret tt
  | S n' =>
      if offset + 9 >? len params then ret tt
      else
        event_type <- getitem params offset ;;
        addr_type <- getitem params (offset + 1) ;;
        let bd_addr := format_bd_addr (slice params (offset + 2) (offset + 8)) in
        data_len <- getitem params (offset + 8) ;;
        let offset := offset + 9 in
        if offset + data_len >? len params then ret tt
        else
          let adv_data := slice params offset (offset + data_len) in
          let offset := offset + data_len in
          rssi <- (if offset <? len params then getitem params offset else ret 0) ;;
          let rssi := if rssi >? 127 then rssi - 256 else rssi in
          let offset := offset + 1 in
          append_advertisement
            (mkAdvertisementPacket
               (pkt_timestamp pkt)
               event_type
               (dict_get ADDR_TYPES addr_type
                  ("Unknown(" ++ fmt_int addr_type ++ ")")%string)
               bd_addr
               rssi
               adv_data) ;;;
          adv_report_loop pkt params n' offset
  end.

Definition _process_le_meta_event (pkt : BtsnoopPacket) (params : bytes) : M unit :=
  if len params <? 1 then ret tt
  else
    subevent <- getitem params 0 ;;
    if subevent =? LE_CONNECTION_COMPLETE then
      if len params >=? 19 then
        status <- getitem params 1 ;;
        h <- unpack_le_H (slice params 2 4) ;;
        let handle := Z.land h 0x0FFF in
        p4 <- getitem params 4 ;;
        let role := if p4 =? 0 then "Master" else "Slave" in
        p5 <- getitem params 5 ;;
        let addr_type :=
          dict_get ADDR_TYPES p5 ("Unknown(" ++ fmt_int p5 ++ ")")%string in
        let bd_addr := format_bd_addr (slice params 6 12) in
        append_connection
          (mkConnectionRequest
             (pkt_timestamp pkt)
             (pkt_direction pkt)
             bd_addr
             ("LE (" ++ role ++ ", " ++ addr_type ++ ")")%string
             ("le_connection_complete (status=" ++ fmt_int status
                ++ ", handle=0x" ++ fmt_04X handle ++ ")")%string)
      else ret tt
    else if subevent =? LE_ENHANCED_CONNECTION_COMPLETE then
      if len params >=? 31 then
        status <- getitem params 1 ;;
        h <- unpack_le_H (slice params 2 4) ;;
        let handle := Z.land h 0x0FFF in
        p4 <- getitem params 4 ;;
        let role := if p4 =? 0 then "Master" else "Slave" in
        p5 <- getitem params 5 ;;
        let addr_type :=
          dict_get ADDR_TYPES p5 ("Unknown(" ++ fmt_int p5 ++ ")")%string in
        let bd_addr := format_bd_addr (slice params 6 12) in
        append_connection
          (mkConnectionRequest
             (pkt_timestamp pkt)
             (pkt_direction pkt)
             bd_addr
             ("LE Enhanced (" ++ role ++ ", " ++ addr_type ++ ")")%string
             ("le_enhanced_connection_complete (status=" ++ fmt_int status
                ++ ", handle=0x" ++ fmt_04X handle ++ ")")%string)
      else ret tt
    else if subevent =? LE_ADV_REPORT then
      if len params <? 2 then ret tt
      else
        num_reports <- getitem params 1 ;;
        let offset := 2 in
        adv_report_loop pkt params (Z.to_nat num_reports) offset
    else ret tt.

Definition _process_hci_event (pkt : BtsnoopPacket) : M unit :=
  if len (pkt_data pkt) <? 2 then ret tt
  else
    event_code <- getitem (pkt_data pkt) 0 ;;
    param_len <- getitem (pkt_data pkt) 1 ;;
    let params := slice (pkt_data pkt) 2 (2 + param_len) in
    if event_code =? EVT_CONNECTION_REQUEST then
      if len params >=? 10 then
        let bd_addr := format_bd_addr (slice params 0 6) in
        p9 <- getitem params 9 ;;
        let link_type := if p9 =? 0x00 then "SCO" else "ACL" in
        append_connection
          (mkConnectionRequest (pkt_timestamp pkt) (pkt_direction pkt)
             bd_addr link_type "request")
      else ret tt
    else if event_code =? EVT_CONNECTION_COMPLETE then
      if len params >=? 11 then
        status <- getitem params 0 ;;
        let bd_addr := format_bd_addr (slice params 3 9) in
        p9 <- getitem params 9 ;;
        let link_type := if p9 =? 0x00 then "SCO" else "ACL" in
        append_connection
          (mkConnectionRequest (pkt_timestamp pkt) (pkt_direction pkt)
             bd_addr link_type
             ("complete (status=" ++ fmt_int status ++ ")")%string)
      else ret tt
    else if event_code =? EVT_DISCONNECTION_COMPLETE then
      if len params >=? 4 then
        status <- getitem params 0 ;;
        h <- unpack_le_H (slice params 1 3) ;;
        let handle := Z.land h 0x0FFF in
        reason <- getitem params 3 ;;
        let reason_str :=
          dict_get DISCONNECT_REASONS reason
            ("Unknown (0x" ++ fmt_02X reason ++ ")")%string in
        append_disconnection
          (mkDisconnectionEvent (pkt_timestamp pkt) handle reason reason_str)
      else ret tt
    else if event_code =? EVT_LE_META then
      _process_le_meta_event pkt params
    else ret tt.

Definition _process_hci_command (pkt : BtsnoopPacket) : M unit :=
  if len (pkt_data pkt) <? 3 then ret tt
  else
    opcode <- unpack_le_H (slice (pkt_data pkt) 0 2) ;;
    param_len <- getitem (pkt_data pkt) 2 ;;
    let params := slice (pkt_data pkt) 3 (3 + param_len) in
    if opcode =? CMD_CREATE_CONNECTION then
      if len params >=? 6 then
        let bd_addr := format_bd_addr (slice params 0 6) in
        append_connection
          (mkConnectionRequest (pkt_timestamp pkt) (pkt_direction pkt)
             bd_addr "ACL" "create_connection_cmd")
      else ret tt
    else if opcode =? CMD_LE_CREATE_CONNECTION then
      if len params >=? 8 then
        let bd_addr := format_bd_addr (slice params 2 8) in
        append_connection
          (mkConnectionRequest (pkt_timestamp pkt) (pkt_direction pkt)
             bd_addr "LE" "le_create_connection_cmd")
      else ret tt
    else if opcode =? CMD_DISCONNECT then
      if len params >=? 3 then
        h <- unpack_le_H (slice params 0 2) ;;
        let handle := Z.land h 0x0FFF in
        reason <- getitem params 2 ;;
        let reason_str :=
          dict_get DISCONNECT_REASONS reason
            ("Unknown (0x" ++ fmt_02X reason ++ ")")%string in
        append_disconnection
          (mkDisconnectionEvent (pkt_timestamp pkt) handle reason
             ("Disconnect Command: " ++ reason_str)%string)
      else ret tt
    else ret tt.

(** [opcode in (ATT_READ_REQ, ATT_WRITE_REQ, ATT_WRITE_CMD,
    ATT_PREPARE_WRITE_REQ)] *)
Definition att_opcode_has_handle (opcode : Z) : bool :=
  (opcode =? ATT_READ_REQ) || (opcode =? ATT_WRITE_REQ)
  || (opcode =? ATT_WRITE_CMD) || (opcode =? ATT_PREPARE_WRITE_REQ).

Definition _process_att (pkt : BtsnoopPacket) (att_data : bytes) : M unit :=
  if len att_data <? 1 then ret tt
  else
    opcode <- getitem att_data 0 ;;
    match dict_lookup ATT_OPCODES opcode with
    | Some operation =>
        handle <-
          (if att_opcode_has_handle opcode && (len att_data >=? 3) then
             h <- unpack_le_H (slice att_data 1 3) ;; ret (Some h)
           else ret None) ;;
        append_gatt_operation
          (mkGattOperation (pkt_timestamp pkt) (pkt_direction pkt)
             operation handle (slice_from att_data 1))
    | None => ret tt
    end.

Definition _process_acl_data (pkt : BtsnoopPacket) : M unit :=
  if len (pkt_data pkt) <? 4 then ret tt
  else
    acl_len <- unpack_le_H (slice (pkt_data pkt) 2 4) ;;
    let acl_data := slice (pkt_data pkt) 4 (4 + acl_len) in
    if len acl_data <? 4 then ret tt
    else
      l2cap_len <- unpack_le_H (slice acl_data 0 2) ;;
      cid <- unpack_le_H (slice acl_data 2 4) ;;
      let l2cap_data := slice acl_data 4 (4 + l2cap_len) in
      if (cid =? L2CAP_CID_ATT) && (len l2cap_data >? 0) then
        _process_att pkt l2cap_data
      else ret tt.

Definition _process_packet (pkt : BtsnoopPacket) : M unit :=
  if pkt_packet_type pkt =? HCI_EVENT then _process_hci_event pkt
  else if pkt_packet_type pkt =? HCI_COMMAND then _process_hci_command pkt
  else if pkt_packet_type pkt =? HCI_ACL_DATA then _process_acl_data pkt
  else ret tt.

(** ** Reading the capture *)

(** [f.read(n)] on the bytes that are left in the file, where the buffer of
    [n] bytes the call asks for before it reads is had: what is read and
    what is left after it.  The call as a whole, which raises [MemoryError]
    where that buffer cannot be had, is [f_read] below. *)
Definition read (f : bytes) (n : Z) : bytes * bytes :=
  (firstn (Z.to_nat n) f, skipn (Z.to_nat n) f).

(** The [try]/[except] around the timestamp: the epoch plus [ts]
    microseconds, and the reading [wall] of the clock ([datetime.now()])
    when that sum cannot be made. *)
Definition record_timestamp (wall : datetime) (ts : Z) : datetime :=
  match timedelta_microseconds ts with
  | Some td =>
      match datetime_add BTSNOOP_EPOCH td with
      | Some t => t
      | None => wall
      end
  | None => wall
  end.

(** The [while True] loop of [parse].  [f] is what is left of the file,
    [k] counts the records read so far and [now k] is what [datetime.now()]
    answers while record [k] is handled.  The loop's budget is the fuel. *)
Fixpoint read_packets (now : nat -> datetime) (fuel : nat) (k : nat)
    (f : bytes) : M unit :=
  match fuel with
  | O => out_of_fuel
  | S fuel' =>
      let (record_header, f1) := read f 24 in
      if len record_header <? 24 then ret tt
      else
        fields <- unpack_be_IIIIQ record_header ;;
        let '(_, incl_len, flags, _, ts) := fields in
        let (packet_data, f2) := read f1 incl_len in
        if len packet_data <? incl_len then ret tt
        else
          let timestamp := record_timestamp (now k) ts in
          let direction := if negb (Z.land flags 0x01 =? 0) then "received" else "sent" in
          (if len packet_data >? 0 then
             pkt_type <- getitem packet_data 0 ;;
             let pkt :=
               mkBtsnoopPacket timestamp direction pkt_type
                 (slice_from packet_data 1) in
             append_packet pkt ;;;
             _process_packet pkt
           else ret tt) ;;;
          read_packets now fuel' (S k) f2
  end.

(** [parse], on the content [file] of [self.filepath]; that the file can be
    opened is taken for granted, and so is, here, that every [f.read] gets
    its buffer: [parse_mem] below is [parse] without the latter. *)
Definition parse (now : nat -> datetime) (file : bytes) : M unit :=
  let (header, f) := read file 16 in
  if len header <? 16 then raise (ValueError FileTooSmall)
  else
    let magic := slice header 0 8 in
    if negb (bytes_eqb magic BTSNOOP_MAGIC) then
      raise (ValueError (InvalidMagic magic))
    else
      vd <- unpack_be_II (slice header 8 16) ;;
      let (version, datalink) := vd in
      (if negb (version =? BTSNOOP_VERSION) then
         print ("Warning: Unexpected version " ++ fmt_int version
                  ++ ", expected " ++ fmt_int BTSNOOP_VERSION)%string
       else ret tt) ;;;
      (if negb (datalink =? DATALINK_HCI) then
         print ("Warning: Unexpected datalink type " ++ fmt_int datalink
                  ++ ", expected " ++ fmt_int DATALINK_HCI)%string
       else ret tt) ;;;
      read_packets now (S (List.length f)) 0 f.

(** ** The sub-record walk with a log

    [adv_report_loop_traced] is [adv_report_loop] with a log added: every
    element read ([params[i]]) and every slice taken ([params[a:b]]) is
    written down before it is made, and every pass through the body of the
    loop is counted. *)

Inductive access :=
| Index (i : Z)
| Slice (a b : Z).

Record walk_trace := mkTrace {
  accesses : list access;
  iterations : nat
}.

Definition log (a : access) (t : walk_trace) : walk_trace :=
  mkTrace (accesses t ++ [a]) (iterations t).

Definition tick (t : walk_trace) : walk_trace :=
  mkTrace (accesses t) (S (iterations t)).

Fixpoint adv_report_loop_traced (pkt : BtsnoopPacket) (params : bytes) (n : nat)
    (offset : Z) (t : walk_trace) : M walk_trace :=
  match n with
  | O => ret t
  | S n' =>
      let t := tick t in
      if offset + 9 >? len params then ret t
      else
        let t := log (Index offset) t in
        event_type <- getitem params offset ;;
        let t := log (Index (offset + 1)) t in
        addr_type <- getitem params (offset + 1) ;;
        let t := log (Slice (offset + 2) (offset + 8)) t in
        let bd_addr := format_bd_addr (slice params (offset + 2) (offset + 8)) in
        let t := log (Index (offset + 8)) t in
        data_len <- getitem params (offset + 8) ;;
        let offset := offset + 9 in
        if offset + data_len >? len params then ret t
        else
          let t := log (Slice offset (offset + data_len)) t in
          let adv_data := slice params offset (offset + data_len) in
          let offset := offset + data_len in
          let t := if offset <? len params then log (Index offset) t else t in
          rssi <- (if offset <? len params then getitem params offset else ret 0) ;;
          let rssi := if rssi >? 127 then rssi - 256 else rssi in
          let offset := offset + 1 in
          append_advertisement
            (mkAdvertisementPacket
               (pkt_timestamp pkt)
               event_type
               (dict_get ADDR_TYPES addr_type
                  ("Unknown(" ++ fmt_int addr_type ++ ")")%string)
               bd_addr
               rssi
               adv_data) ;;;
          adv_report_loop_traced pkt params n' offset t
  end.

(** An access that stays inside the buffer: an index below its length, a
    slice whose bounds need no clamping. *)
Definition in_bounds (params : bytes) (a : access) : Prop :=
  match a with
  | Index i => 0 <= i < len params
  | Slice lo hi => 0 <= lo /\ lo <= hi /\ hi <= len params
  end.

(** ** Vocabulary of the statements *)

(** What one parser state holds after another: the lists of both, in order. *)
Definition app_parser (s d : Parser) : Parser :=
  mkParser (packets s ++ packets d) (connections s ++ connections d)
           (disconnections s ++ disconnections d)
           (advertisements s ++ advertisements d)
           (gatt_operations s ++ gatt_operations d)
           (stdout s ++ stdout d).

(** [c] returns, and all it does to the parser is to append the lists of
    some [d] that satisfies [I]; [d] is the same whatever the parser held
    before. *)
Definition Emits (c : M unit) (I : Parser -> Prop) : Prop :=
  exists d, I d /\ forall st, c st = (Ok tt, app_parser st d).

(** The two characters [f'{b:02X}'] makes of a byte, as the specification
    words them: the uppercase hexadecimal digits of its high and low half. *)
Definition two_hex_digits (b : byte) : string :=
  String (hex_digit_upper (u8 b / 16))
    (String (hex_digit_upper (u8 b mod 16)) "").

(** The display form of a hardware address as the specification words it:
    the six bytes in reversed order, two uppercase hexadecimal digits each,
    separated by colons. *)
Definition render_address (b0 b1 b2 b3 b4 b5 : byte) : string :=
  (two_hex_digits b5 ++ ":" ++ two_hex_digits b4 ++ ":" ++ two_hex_digits b3
   ++ ":" ++ two_hex_digits b2 ++ ":" ++ two_hex_digits b1 ++ ":"
   ++ two_hex_digits b0)%string.

(** [s] is the display form of six consecutive bytes of [src]. *)
Definition address_of (src : bytes) (s : string) : Prop :=
  exists i b0 b1 b2 b3 b4 b5,
    0 <= i /\ slice src i (i + 6) = [b0; b1; b2; b3; b4; b5]
    /\ s = render_address b0 b1 b2 b3 b4 b5.

(** [h] is the little-endian 16-bit field at bytes 3 and 4 of a packet body
    with its top four bits masked off.  The field sits there in both packets
    that carry it: after the code, the length and the status of a
    disconnection-complete event, and after the two opcode bytes and the
    length of a disconnect command. *)
Definition masked_handle_of (body : bytes) (h : Z) : Prop :=
  exists lo hi, slice body 3 5 = [lo; hi] /\ h = Z.land (le_uint16 lo hi) 0x0FFF.

(** The signed reading of a byte value. *)
Definition signed_byte (v : Z) : Z := if v >? 127 then v - 256 else v.

(** What the events a packet with timestamp [t] and body [src] gives rise to
    have in common. *)
Definition events_ok (t : datetime) (src : bytes) (d : Parser) : Prop :=
  packets d = [] /\ stdout d = []
  /\ Forall (fun e => conn_timestamp e = t /\ address_of src (conn_bd_addr e))
       (connections d)
  /\ Forall (fun e => disc_timestamp e = t /\ masked_handle_of src (disc_handle e)
                      /\ 0 <= disc_handle e < 0x1000)
       (disconnections d)
  /\ Forall (fun e => adv_timestamp e = t /\ address_of src (adv_bd_addr e)
                      /\ -128 <= adv_rssi e <= 127)
       (advertisements d)
  /\ Forall (fun e => gatt_timestamp e = t) (gatt_operations d).

(** ** Capture records *)

(** A capture record as it lies in the file: its 24-byte header and its
    payload. *)
Record RawRecord := mkRawRecord {
  rec_header : bytes;
  rec_payload : bytes
}.

(** The fields of a record header that [parse] uses. *)
Definition header_incl_len (rh : bytes) : Z := be_uint (slice rh 4 8).
Definition header_flags (rh : bytes) : Z := be_uint (slice rh 8 12).
Definition header_ts (rh : bytes) : Z := be_uint (slice rh 16 24).

Definition record_bytes (r : RawRecord) : bytes := rec_header r ++ rec_payload r.

(** A record all of whose bytes are in the file. *)
Definition complete_record (r : RawRecord) : Prop :=
  len (rec_header r) = 24 /\ header_incl_len (rec_header r) = len (rec_payload r).

(** What is left of a file where the next record is cut short: no room for
    a record header, or a header that declares more payload than follows. *)
Definition truncated (tail : bytes) : Prop :=
  len tail < 24 \/ len tail - 24 < header_incl_len (firstn 24 tail).

(** What the body of the loop of [parse] does with record number [k] once
    its header and its payload are read in full. *)
Definition handle_record (now : nat -> datetime) (k : nat) (r : RawRecord) : M unit :=
  let timestamp := record_timestamp (now k) (header_ts (rec_header r)) in
  let direction :=
    if negb (Z.land (header_flags (rec_header r)) 0x01 =? 0) then "received" else "sent" in
  if len (rec_payload r) >? 0 then
    pkt_type <- getitem (rec_payload r) 0 ;;
    let pkt :=
      mkBtsnoopPacket timestamp direction pkt_type (slice_from (rec_payload r) 1) in
    append_packet pkt ;;;
    _process_packet pkt
  else ret tt.

(** What the events of a record whose timestamp is decoded as [t] have in
    common. *)
Definition record_ok (t : datetime) (d : Parser) : Prop :=
  stdout d = []
  /\ Forall (fun p => pkt_timestamp p = t) (packets d)
  /\ Forall (fun e => conn_timestamp e = t) (connections d)
  /\ Forall (fun e => disc_timestamp e = t /\ 0 <= disc_handle e < 0x1000)
       (disconnections d)
  /\ Forall (fun e => adv_timestamp e = t) (advertisements d)
  /\ Forall (fun e => gatt_timestamp e = t) (gatt_operations d).

(** What record number [k] gives rise to: what the loop of [parse] appends
    when the record is all that is left of the file. *)
Definition record_events (now : nat -> datetime) (k : nat) (r : RawRecord) : Parser :=
  snd (read_packets now 2 k (record_bytes r) init).

(** What the records [recs], numbered from [k], give rise to, in order. *)
Fixpoint records_events (now : nat -> datetime) (k : nat) (recs : list RawRecord)
    : Parser :=
  match recs with
  | [] => init
  | r :: recs' => app_parser (record_events now k r) (records_events now (S k) recs')
  end.

(** What [parse] prints about the header of the file. *)
Definition header_warnings (header : bytes) : list string :=
  (if negb (be_uint (slice header 8 12) =? BTSNOOP_VERSION) then
     [("Warning: Unexpected version " ++ fmt_int (be_uint (slice header 8 12))
         ++ ", expected " ++ fmt_int BTSNOOP_VERSION)%string]
   else [])
  ++
  (if negb (be_uint (slice header 12 16) =? DATALINK_HCI) then
     [("Warning: Unexpected datalink type " ++ fmt_int (be_uint (slice header 12 16))
         ++ ", expected " ++ fmt_int DATALINK_HCI)%string]
   else []).

(** A file header that [parse] accepts. *)
Definition valid_header (file : bytes) : Prop :=
  16 <= len file /\ firstn 8 file = BTSNOOP_MAGIC.

(** A parser that holds nothing but printed lines. *)
Definition printed (lines : list string) : Parser := mkParser [] [] [] [] [] lines.

(** The advertisement the specification reads off the sub-record that
    starts at [offset]: report kind (1 byte), address kind (1), address (6),
    data length (1), that many bytes of data, and one byte of RSSI, read as
    signed, or 0 where the buffer ends before it. *)
Definition report_at (t : datetime) (params : bytes) (offset : Z)
    : AdvertisementPacket :=
  let byte_at := fun i => u8 (nth (Z.to_nat i) params x00) in
  let data_len := byte_at (offset + 8) in
  mkAdvertisementPacket t
    (byte_at offset)
    (dict_get ADDR_TYPES (byte_at (offset + 1))
       ("Unknown(" ++ fmt_int (byte_at (offset + 1)) ++ ")")%string)
    (format_bd_addr (slice params (offset + 2) (offset + 8)))
    (if offset + 9 + data_len <? len params
     then signed_byte (byte_at (offset + 9 + data_len))
     else 0)
    (slice params (offset + 9) (offset + 9 + data_len)).

(** A parser that holds nothing but advertisements. *)
Definition only_advertisements (l : list AdvertisementPacket) : Parser :=
  mkParser [] [] [] l [] [].

(** A parser that holds nothing but one disconnection. *)
Definition only_disconnection (e : DisconnectionEvent) : Parser :=
  mkParser [] [] [e] [] [] [].

(** A parser that holds nothing but one connection. *)
Definition only_connection (c : ConnectionRequest) : Parser :=
  mkParser [] [c] [] [] [] [].

(** What a walk of at most [n] passes that starts with the log [t0] leaves
    in the log [t]: accesses inside the buffer, if those of [t0] were, and
    at most [n] more passes. *)
Definition trace_ok (params : bytes) (n : nat) (t0 t : walk_trace) : Prop :=
  (Forall (in_bounds params) (accesses t0) -> Forall (in_bounds params) (accesses t))
  /\ (iterations t <= iterations t0 + n)%nat.

(** The records of a file with their numbers, from [k] on. *)
Definition numbered (k : nat) (recs : list RawRecord) : list (nat * RawRecord) :=
  combine (seq k (List.length recs)) recs.

(** One of the collections as the records of the file fill it: the events of
    the first record, then those of the second, and so on. *)
Definition in_file_order {E : Type} (field : Parser -> list E)
    (now : nat -> datetime) (recs : list RawRecord) : list E :=
  flat_map (fun kr => field (record_events now (fst kr) (snd kr))) (numbered 0 recs).

(** The timestamp the specification gives a record: the epoch plus the
    offset of the header. *)
Definition header_timestamp (rh : bytes) : Z := BTSNOOP_EPOCH + header_ts rh.

(** The reason text the specification words for a code that is not in the
    table, without a space before the parenthesis. *)
Definition unknown_reason_spec (reason : byte) : string :=
  ("Unknown(0x" ++ two_hex_digits reason ++ ")")%string.

(** The reason text of the code for a code that is not in the table. *)
Definition unknown_reason (reason : byte) : string :=
  ("Unknown (0x" ++ two_hex_digits reason ++ ")")%string.

(** ** Sample captures *)

(** A file header with version 1 and link type 1002. *)
Definition sample_header : bytes :=
  BTSNOOP_MAGIC ++ [x00; x00; x00; x01; x00; x00; x03; xea].

(** A file header with the right magic and with version 7 and link type 5. *)
Definition sample_odd_header : bytes :=
  BTSNOOP_MAGIC ++ [x00; x00; x00; x07; x00; x00; x00; x05].

(** A record header: both lengths [n], the flags, no drops, the timestamp. *)
Definition sample_record_header (n flags : byte) (ts : bytes) : bytes :=
  [x00; x00; x00; n; x00; x00; x00; n; x00; x00; x00; flags; x00; x00; x00; x00] ++ ts.

(** 0x00E2_8D3A_5C00_0000 microseconds, a moment in the year 2021. *)
Definition sample_ts : bytes := [x00; xe2; x8d; x3a; x5c; x00; x00; x00].

(** 2^63 microseconds, far beyond the year 9999. *)
Definition sample_far_ts : bytes := [x80; x00; x00; x00; x00; x00; x00; x00].

(** A disconnection-complete event with handle bytes 34 12 and the reason
    0x1F, which the table of reasons does not hold. *)
Definition sample_disconnection_body : bytes := [x05; x04; x00; x34; x12; x1f].

(** A disconnect command with handle bytes 34 12 and the reason 0x1F. *)
Definition sample_disconnect_command_body : bytes := [x06; x04; x03; x34; x12; x1f].

(** A connection-request event from the address bytes 01 .. 06. *)
Definition sample_connection_body : bytes :=
  [x04; x0a; x01; x02; x03; x04; x05; x06; x00; x00; x00; x01].

Definition sample_disconnection_record : RawRecord :=
  mkRawRecord (sample_record_header x07 x01 sample_ts) (x04 :: sample_disconnection_body).

Definition sample_connection_record : RawRecord :=
  mkRawRecord (sample_record_header x0d x01 sample_ts) (x04 :: sample_connection_body).

Definition sample_far_record : RawRecord :=
  mkRawRecord (sample_record_header x07 x01 sample_far_ts) (x04 :: sample_disconnection_body).

(** A record header that declares 7 bytes of payload, and 3 bytes after it. *)
Definition sample_cut_tail : bytes :=
  sample_record_header x07 x01 sample_ts ++ [x04; x05; x04].

(** A wall clock that stands at noon of 2026-11-03. *)
Definition sample_now : nat -> datetime := fun _ => 63929304000000000.

(** The parameters of an advertising report with one sub-record without
    data whose RSSI byte is [rssi]. *)
Definition sample_report_params (rssi : byte) : bytes :=
  [x02; x01; x00; x01; x01; x02; x03; x04; x05; x06; x00; rssi].

(** The same with the RSSI byte missing. *)
Definition sample_report_params_short : bytes :=
  [x02; x01; x00; x01; x01; x02; x03; x04; x05; x06; x00].

(** The parameters of an advertising report that declares two sub-records
    and holds the first, with one byte of data, and four bytes of the
    second. *)
Definition sample_two_reports_params : bytes :=
  [x02; x02; x00; x01; x01; x02; x03; x04; x05; x06; x01; xaa; xc8;
   x00; x00; x0a; x0b].

Definition sample_packet (body : bytes) : BtsnoopPacket :=
  mkBtsnoopPacket 0 "received" HCI_EVENT body.

(** ** More vocabulary of the statements *)

(** The direction of a record as its flags say it: "received" where bit 0
    of the flags is set, that is where the flags are odd. *)
Definition record_direction (rh : bytes) : string :=
  if Z.odd (header_flags rh) then "received" else "sent".

(** The packet a record stands for: none where the payload is empty, and
    otherwise the packet whose type is the first byte of the payload and
    whose body is the rest. *)
Definition record_packet (now : nat -> datetime) (k : nat) (r : RawRecord)
    : list BtsnoopPacket :=
  match rec_payload r with
  | [] => []
  | tag :: body =>
      [mkBtsnoopPacket (record_timestamp (now k) (header_ts (rec_header r)))
         (record_direction (rec_header r)) (u8 tag) body]
  end.

(** What a packet can give rise to. *)
Inductive emitted :=
| NoEvent
| OneConnection (c : ConnectionRequest)
| OneDisconnection (e : DisconnectionEvent)
| Advertisements (l : list AdvertisementPacket)
| OneGattOperation (g : GattOperation).

Definition parser_of (ev : emitted) : Parser :=
  match ev with
  | NoEvent => init
  | OneConnection c => only_connection c
  | OneDisconnection e => only_disconnection e
  | Advertisements l => only_advertisements l
  | OneGattOperation g => mkParser [] [] [] [] [g] []
  end.

(** Which packets give rise to what: connections and disconnections come
    from events and commands, advertisements from events, GATT operations
    from ACL data; a connection and a GATT operation carry the direction of
    the packet. *)
Definition kind_allowed (pkt : BtsnoopPacket) (ev : emitted) : Prop :=
  match ev with
  | NoEvent => True
  | OneConnection c =>
      (pkt_packet_type pkt = HCI_EVENT \/ pkt_packet_type pkt = HCI_COMMAND)
      /\ conn_direction c = pkt_direction pkt
  | OneDisconnection e =>
      pkt_packet_type pkt = HCI_EVENT \/ pkt_packet_type pkt = HCI_COMMAND
  | Advertisements l =>
      pkt_packet_type pkt = HCI_EVENT /\ (List.length l <= 255)%nat
  | OneGattOperation g =>
      pkt_packet_type pkt = HCI_ACL_DATA /\ gatt_direction g = pkt_direction pkt
  end.

(** The advertisements of the sub-records of a parameter buffer, read one
    after the other from [offset], at most [n] of them, up to the first
    whose prefix or data do not fit. *)
Fixpoint walk_reports (t : datetime) (params : bytes) (n : nat) (offset : Z)
    : list AdvertisementPacket :=
  match n with
  | O => []
  | S n' =>
      let data_len := u8 (nth (Z.to_nat (offset + 8)) params x00) in
      if (offset + 9 <=? len params) && (offset + 9 + data_len <=? len params)
      then report_at t params offset
             :: walk_reports t params n' (offset + 9 + data_len + 1)
      else []
  end.

(** [n] sub-records from [offset] on whose prefix and data all fit in the
    buffer. *)
Fixpoint subrecords_fit (params : bytes) (n : nat) (offset : Z) : Prop :=
  match n with
  | O => True
  | S n' =>
      offset + 9 <= len params
      /\ offset + 9 + u8 (nth (Z.to_nat (offset + 8)) params x00) <= len params
      /\ subrecords_fit params n'
           (offset + 9 + u8 (nth (Z.to_nat (offset + 8)) params x00) + 1)
  end.

(** The value of an uppercase hexadecimal digit, and of two of them. *)
Definition hex_digit_value (c : ascii) : Z :=
  match c with
  | "0" => 0 | "1" => 1 | "2" => 2 | "3" => 3
  | "4" => 4 | "5" => 5 | "6" => 6 | "7" => 7
  | "8" => 8 | "9" => 9 | "A" => 10 | "B" => 11
  | "C" => 12 | "D" => 13 | "E" => 14 | "F" => 15
  | _ => 0
  end%char.

Definition hex2_value (s : string) : Z :=
  match s with
  | String hi (String lo _) => 16 * hex_digit_value hi + hex_digit_value lo
  | _ => 0
  end.

(** The attribute handle of an ATT PDU with opcode byte [op] followed by
    [rest]: the little-endian 16-bit field after the opcode, for the four
    opcodes that carry one and where two bytes follow the opcode. *)
Definition att_handle (op : byte) (rest : bytes) : option Z :=
  match rest with
  | lo :: hi :: _ =>
      if existsb (Z.eqb (u8 op)) [0x0A; 0x12; 0x52; 0x16]
      then Some (le_uint16 lo hi)
      else None
  | _ => None
  end.

(** The two lengths and the channel of an ACL packet: bytes 2-3, 4-5 and
    6-7 of its body, little-endian. *)
Definition acl_length (body : bytes) : Z :=
  le_uint16 (nth 2 body x00) (nth 3 body x00).
Definition l2cap_length (body : bytes) : Z :=
  le_uint16 (nth 4 body x00) (nth 5 body x00).
Definition l2cap_cid (body : bytes) : Z :=
  le_uint16 (nth 6 body x00) (nth 7 body x00).

(** The parameter bytes of an event that are there to decode: as many as
    the length byte declares, or as many as follow it where they are
    fewer. *)
Definition event_params_available (body : bytes) : Z :=
  Z.min (u8 (nth 1 body x00)) (len body - 2).

(** The same for a command, whose length byte is the third. *)
Definition command_params_available (body : bytes) : Z :=
  Z.min (u8 (nth 2 body x00)) (len body - 3).

(** What the decoder of events, that of commands and that of ACL data can
    give rise to, for a packet of direction [dir]. *)
Definition event_kinds (dir : string) (ev : emitted) : Prop :=
  match ev with
  | NoEvent => True
  | OneConnection c => conn_direction c = dir
  | OneDisconnection _ => True
  | Advertisements l => (List.length l <= 255)%nat
  | OneGattOperation _ => False
  end.

Definition command_kinds (dir : string) (ev : emitted) : Prop :=
  match ev with
  | NoEvent => True
  | OneConnection c => conn_direction c = dir
  | OneDisconnection _ => True
  | Advertisements _ => False
  | OneGattOperation _ => False
  end.

Definition acl_kinds (dir : string) (ev : emitted) : Prop :=
  match ev with
  | NoEvent => True
  | OneGattOperation g => gatt_direction g = dir
  | _ => False
  end.

(** [c] returns and appends one of the things [K] allows. *)
Definition EmitsKind (c : M unit) (K : emitted -> Prop) : Prop :=
  Emits c (fun d => exists ev, d = parser_of ev /\ K ev).

(** ** The memory the reads ask for

    [f.read(n)] on the buffered file of [open(..., 'rb')] makes the [bytes]
    object of [n] bytes it is to fill before it reads, and raises
    [MemoryError] where the process cannot have it, however few bytes are
    left in the file.  On line 197 [n] is the included length the record
    header declares: any number below 2^32, whatever the size of the file.
    [alloc n] says whether a buffer of [n] bytes can be had. *)








(** * Properties *)

(** ** Bytes, lengths and slices *)

Lemma u8_range (b : byte) : 0 <= u8 b < 256.
Proof.
  unfold u8. pose proof (Byte.to_N_bounded b) as H. lia.
Qed.

Lemma len_nonneg {A : Type} (l : list A) : 0 <= len l.
Proof. unfold len. lia. Qed.

Lemma len_cons {A : Type} (a : A) (l : list A) : len (a :: l) = 1 + len l.
Proof. unfold len. simpl List.length. lia. Qed.

Lemma len_app {A : Type} (l1 l2 : list A) : len (l1 ++ l2) = len l1 + len l2.
Proof. unfold len. rewrite length_app. lia. Qed.

Lemma len_firstn {A : Type} (n : nat) (l : list A) :
  len (firstn n l) = Z.min (Z.of_nat n) (len l).
Proof. unfold len. rewrite length_firstn. lia. Qed.

Lemma len_skipn {A : Type} (n : nat) (l : list A) :
  len (skipn n l) = Z.max 0 (len l - Z.of_nat n).
Proof. unfold len. rewrite length_skipn. lia. Qed.

Lemma clamp_nonneg (i n : Z) : 0 <= i -> clamp i n = Z.min i n.
Proof.
  intros H. unfold clamp. destruct (i <? 0) eqn:E; [apply Z.ltb_lt in E; lia | reflexivity].
Qed.

Lemma len_slice {A : Type} (l : list A) (a b : Z) :
  0 <= a -> 0 <= b ->
  len (slice l a b) = Z.max 0 (Z.min b (len l) - Z.min a (len l)).
Proof.
  intros Ha Hb. unfold slice. rewrite !clamp_nonneg by assumption.
  rewrite len_firstn, len_skipn. pose proof (len_nonneg l). lia.
Qed.

Lemma nth_slice (l : bytes) (a b : Z) (i : nat) :
  0 <= a -> a + Z.of_nat i < b -> a + Z.of_nat i < len l ->
  nth i (slice l a b) x00 = nth (Z.to_nat a + i) l x00.
Proof.
  intros Ha Hb Hl. unfold slice. rewrite !clamp_nonneg by lia.
  rewrite nth_firstn.
  destruct (Nat.ltb_spec i (Z.to_nat (Z.min b (len l) - Z.min a (len l)))) as [_|H]; [|lia].
  rewrite nth_skipn. f_equal. lia.
Qed.

(** A slice of a slice is a slice of the whole, as long as the inner bounds
    stay inside the outer slice. *)
Lemma slice_slice {A : Type} (l : list A) (a b c d : Z) :
  0 <= a -> 0 <= c -> c <= d -> a + d <= b -> 
  slice (slice l a b) c d = slice l (a + c) (a + d).
Proof.
  intros Ha Hc Hcd Hdb.
  assert (Hlen : len (slice l a b) = Z.max 0 (Z.min b (len l) - Z.min a (len l)))
    by (apply len_slice; lia).
  unfold slice at 1. rewrite Hlen. unfold slice.
  rewrite !clamp_nonneg by lia.
  pose proof (len_nonneg l) as Hl.
  rewrite skipn_firstn_comm, firstn_firstn, skipn_skipn.
  destruct (Z_le_gt_dec (len l) a) as [Hge|Hlt].
  - (* everything is empty *)
    rewrite (skipn_all2 l) by (unfold len in *; lia).
    rewrite (skipn_all2 l) by (unfold len in *; lia).
    now rewrite !firstn_nil.
  - f_equal; [lia|]. f_equal. lia.
Qed.

Lemma slice_exact6 (l : bytes) (i : Z) :
  0 <= i -> i + 6 <= len l ->
  exists b0 b1 b2 b3 b4 b5, slice l i (i + 6) = [b0; b1; b2; b3; b4; b5].
Proof.
  intros Hi Hl.
  assert (H : len (slice l i (i + 6)) = 6) by (rewrite len_slice; lia).
  destruct (slice l i (i + 6)) as [|b0 [|b1 [|b2 [|b3 [|b4 [|b5 [|b6 t]]]]]]];
    unfold len in H; simpl in H; try lia.
  now exists b0, b1, b2, b3, b4, b5.
Qed.

Lemma slice_exact2 (l : bytes) (i : Z) :
  0 <= i -> i + 2 <= len l ->
  slice l i (i + 2) = [nth (Z.to_nat i) l x00; nth (Z.to_nat i + 1) l x00].
Proof.
  intros Hi Hl.
  assert (H : len (slice l i (i + 2)) = 2) by (rewrite len_slice; lia).
  assert (H0 : nth 0 (slice l i (i + 2)) x00 = nth (Z.to_nat i + 0) l x00)
    by (apply nth_slice; lia).
  assert (H1 : nth 1 (slice l i (i + 2)) x00 = nth (Z.to_nat i + 1) l x00)
    by (apply nth_slice; lia).
  rewrite Nat.add_0_r in H0.
  destruct (slice l i (i + 2)) as [|b0 [|b1 [|b2 t]]];
    unfold len in H; simpl in H; try lia.
  simpl in H0, H1. now subst.
Qed.

(** ** The monad *)

Lemma bind_ret {A B : Type} (a : A) (k : A -> M B) : bind (ret a) k = k a.
Proof. reflexivity. Qed.

Lemma getitem_ok (l : bytes) (i : Z) :
  0 <= i < len l -> getitem l i = ret (u8 (nth (Z.to_nat i) l x00)).
Proof.
  intros H. unfold getitem.
  replace (i <? 0) with false by (symmetry; apply Z.ltb_ge; lia).
  replace (i <? 0) with false by (symmetry; apply Z.ltb_ge; lia).
  replace (len l <=? i) with false by (symmetry; apply Z.leb_gt; lia).
  reflexivity.
Qed.

Lemma bind_getitem {B : Type} (l : bytes) (i : Z) (k : Z -> M B) :
  0 <= i < len l -> bind (getitem l i) k = k (u8 (nth (Z.to_nat i) l x00)).
Proof. intros H. now rewrite getitem_ok. Qed.

Lemma bind_unpack_le_H {B : Type} (l : bytes) (i j : Z) (k : Z -> M B) :
  0 <= i -> j = i + 2 -> j <= len l ->
  bind (unpack_le_H (slice l i j)) k
  = k (le_uint16 (nth (Z.to_nat i) l x00) (nth (Z.to_nat i + 1) l x00)).
Proof.
  intros Hi -> Hl. now rewrite slice_exact2.
Qed.

Lemma app_parser_init_r (st : Parser) : app_parser st init = st.
Proof. destruct st. unfold app_parser. simpl. now rewrite !app_nil_r. Qed.

Lemma app_parser_init_l (st : Parser) : app_parser init st = st.
Proof. now destruct st. Qed.

Lemma app_parser_assoc (a b c : Parser) :
  app_parser (app_parser a b) c = app_parser a (app_parser b c).
Proof. unfold app_parser. simpl. now rewrite !app_assoc. Qed.

(** ** Rules for [Emits] *)

Lemma emits_ret (I : Parser -> Prop) : I init -> Emits (ret tt) I.
Proof.
  intros H. exists init. split; [assumption|].
  intros st. now rewrite app_parser_init_r.
Qed.

Lemma emits_weaken (c : M unit) (I J : Parser -> Prop) :
  Emits c I -> (forall d, I d -> J d) -> Emits c J.
Proof.
  intros (d & Hd & Hc) HIJ. exists d. auto.
Qed.

Lemma emits_seq (c1 c2 : M unit) (I1 I2 I : Parser -> Prop) :
  Emits c1 I1 -> Emits c2 I2 ->
  (forall d1 d2, I1 d1 -> I2 d2 -> I (app_parser d1 d2)) ->
  Emits (c1 ;;; c2) I.
Proof.
  intros (d1 & H1 & Hc1) (d2 & H2 & Hc2) HI.
  exists (app_parser d1 d2). split; [auto|].
  intros st. unfold bind. rewrite Hc1, Hc2. now rewrite app_parser_assoc.
Qed.

Lemma emits_append_packet (p : BtsnoopPacket) (I : Parser -> Prop) :
  I (mkParser [p] [] [] [] [] []) -> Emits (append_packet p) I.
Proof.
  intros H. eexists. split; [exact H|].
  intros st. unfold append_packet, modify, app_parser. simpl.
  now rewrite !app_nil_r.
Qed.

Lemma emits_append_connection (c : ConnectionRequest) (I : Parser -> Prop) :
  I (mkParser [] [c] [] [] [] []) -> Emits (append_connection c) I.
Proof.
  intros H. eexists. split; [exact H|].
  intros st. unfold append_connection, modify, app_parser. simpl.
  now rewrite !app_nil_r.
Qed.

Lemma emits_append_disconnection (e : DisconnectionEvent) (I : Parser -> Prop) :
  I (mkParser [] [] [e] [] [] []) -> Emits (append_disconnection e) I.
Proof.
  intros H. eexists. split; [exact H|].
  intros st. unfold append_disconnection, modify, app_parser. simpl.
  now rewrite !app_nil_r.
Qed.

Lemma emits_append_advertisement (a : AdvertisementPacket) (I : Parser -> Prop) :
  I (mkParser [] [] [] [a] [] []) -> Emits (append_advertisement a) I.
Proof.
  intros H. eexists. split; [exact H|].
  intros st. unfold append_advertisement, modify, app_parser. simpl.
  now rewrite !app_nil_r.
Qed.

Lemma emits_append_gatt_operation (g : GattOperation) (I : Parser -> Prop) :
  I (mkParser [] [] [] [] [g] []) -> Emits (append_gatt_operation g) I.
Proof.
  intros H. eexists. split; [exact H|].
  intros st. unfold append_gatt_operation, modify, app_parser. simpl.
  now rewrite !app_nil_r.
Qed.

(** What a computation that [Emits] appends is what it leaves in a parser
    that was empty. *)
Lemma emits_run (c : M unit) (I : Parser -> Prop) :
  Emits c I ->
  I (snd (c init)) /\ forall st, c st = (Ok tt, app_parser st (snd (c init))).
Proof.
  intros (d & Hd & Hc).
  assert (E : snd (c init) = d) by (rewrite Hc; simpl; apply app_parser_init_l).
  rewrite E. auto.
Qed.

(** ** Formatting *)

Lemma fmt_02X_byte (b : byte) : fmt_02X (u8 b) = two_hex_digits b.
Proof. destruct b; reflexivity. Qed.

Lemma format_bd_addr_six (b0 b1 b2 b3 b4 b5 : byte) :
  format_bd_addr [b0; b1; b2; b3; b4; b5] = render_address b0 b1 b2 b3 b4 b5.
Proof.
  unfold format_bd_addr, join, render_address. simpl.
  rewrite !fmt_02X_byte. unfold two_hex_digits. reflexivity.
Qed.

Lemma address_of_format (src : bytes) (i j : Z) :
  0 <= i -> j = i + 6 -> j <= len src ->
  address_of src (format_bd_addr (slice src i j)).
Proof.
  intros Hi -> Hl.
  destruct (slice_exact6 src i Hi Hl) as (b0 & b1 & b2 & b3 & b4 & b5 & E).
  exists i, b0, b1, b2, b3, b4, b5. rewrite E.
  split; [assumption|]. split; [reflexivity|]. apply format_bd_addr_six.
Qed.

Lemma address_of_slice (l : bytes) (a b : Z) (s : string) :
  0 <= a -> 0 <= b -> address_of (slice l a b) s -> address_of l s.
Proof.
  intros Ha Hb (i & b0 & b1 & b2 & b3 & b4 & b5 & Hi & E & Hs).
  exists (a + i), b0, b1, b2, b3, b4, b5.
  split; [lia|]. split; [|assumption].
  assert (L : len (slice (slice l a b) i (i + 6)) = 6) by now rewrite E.
  rewrite len_slice in L by lia.
  rewrite len_slice in L by lia.
  rewrite <- E, slice_slice by lia. f_equal. lia.
Qed.

Lemma masked_handle_range (h : Z) : 0 <= Z.land h 0x0FFF < 0x1000.
Proof.
  change 0x0FFF with (Z.ones 12). rewrite Z.land_ones by lia.
  change 0x1000 with (2 ^ 12). apply Z.mod_pos_bound. lia.
Qed.

Lemma signed_byte_range (b : byte) : -128 <= signed_byte (u8 b) <= 127.
Proof.
  pose proof (u8_range b). unfold signed_byte.
  destruct (u8 b >? 127) eqn:E.
  - apply Z.gtb_lt in E. lia.
  - rewrite Z.gtb_ltb in E. apply Z.ltb_ge in E. lia.
Qed.

(** ** What a packet gives rise to *)

Lemma events_ok_init (t : datetime) (src : bytes) : events_ok t src init.
Proof. unfold events_ok. simpl. repeat split; constructor. Qed.

Lemma events_ok_app (t : datetime) (src : bytes) (d1 d2 : Parser) :
  events_ok t src d1 -> events_ok t src d2 -> events_ok t src (app_parser d1 d2).
Proof.
  intros (P1 & O1 & C1 & D1 & A1 & G1) (P2 & O2 & C2 & D2 & A2 & G2).
  unfold events_ok, app_parser. simpl. rewrite P1, P2, O1, O2.
  repeat split; try reflexivity; apply Forall_app; auto.
Qed.

(** Events decoded from a slice of the body are events of the body, as long
    as no disconnection is among them (the handle of a disconnection is
    found by its place in the body). *)
Lemma events_ok_slice (t : datetime) (l : bytes) (a b : Z) (d : Parser) :
  0 <= a -> 0 <= b ->
  events_ok t (slice l a b) d /\ disconnections d = [] ->
  events_ok t l d.
Proof.
  intros Ha Hb ((P & O & C & D & A & G) & E).
  unfold events_ok. rewrite E. repeat split; try assumption.
  - eapply Forall_impl; [|exact C]. intros e (T & H). split; [exact T|].
    now apply address_of_slice with a b.
  - constructor.
  - eapply Forall_impl; [|exact A]. intros e (T & H & R). split; [exact T|].
    split; [|exact R]. now apply address_of_slice with a b.
Qed.

Ltac cmp_to_prop :=
  repeat match goal with
  | H : (_ <? _) = true |- _ => apply Z.ltb_lt in H
  | H : (_ <? _) = false |- _ => apply Z.ltb_ge in H
  | H : (_ <=? _) = true |- _ => apply Z.leb_le in H
  | H : (_ <=? _) = false |- _ => apply Z.leb_gt in H
  | H : (_ >? _) = true |- _ => apply Z.gtb_lt in H
  | H : (_ >? _) = false |- _ => rewrite Z.gtb_ltb in H
  | H : (_ >=? _) = true |- _ => apply Z.geb_le in H
  | H : (_ >=? _) = false |- _ => rewrite Z.geb_leb in H
  | H : (_ =? _) = true |- _ => apply Z.eqb_eq in H
  | H : (_ =? _) = false |- _ => apply Z.eqb_neq in H
  end.

(** Facts about lengths that the side conditions of the reads need: the
    length of every slice in sight, stated once. *)
Ltac len_fact l a b :=
  lazymatch goal with
  | _ : len (slice l a b) = _ |- _ => fail
  | _ =>
      assert (len (slice l a b) = Z.max 0 (Z.min b (len l) - Z.min a (len l)))
        by (apply len_slice; lia)
  end.

Ltac len_facts :=
  repeat match goal with
  | |- context [len (slice ?l ?a ?b)] => len_fact l a b
  | _ : context [len (slice ?l ?a ?b)] |- _ => len_fact l a b
  end.

Ltac side := cmp_to_prop; len_facts; lia.

(** One step of running a decoder by hand: take the branch of a test, make
    a read whose index is in range, unfold a [let]. *)
Ltac run_step :=
  match goal with
  | |- Emits (if ?b then _ else _) _ => destruct b eqn:?
  | |- Emits (bind (getitem ?l ?i) _) _ =>
      rewrite (bind_getitem l i) by side
  | |- Emits (bind (unpack_le_H (slice ?l ?i ?j)) _) _ =>
      rewrite (bind_unpack_le_H l i j) by side
  | |- Emits (bind (if ?b then _ else _) _) _ => destruct b eqn:?
  | |- Emits (bind (ret _) _) _ => rewrite bind_ret
  | |- Emits (let _ := _ in _) _ => cbv zeta
  | |- Emits (ret tt) _ => apply emits_ret
  end.

Lemma events_ok_conn (t : datetime) (src : bytes) (c : ConnectionRequest) :
  conn_timestamp c = t -> address_of src (conn_bd_addr c) ->
  events_ok t src (mkParser [] [c] [] [] [] []).
Proof.
  intros. unfold events_ok. simpl. repeat split; repeat constructor; assumption.
Qed.

Lemma events_ok_adv (t : datetime) (src : bytes) (a : AdvertisementPacket) :
  adv_timestamp a = t -> address_of src (adv_bd_addr a) ->
  -128 <= adv_rssi a <= 127 ->
  events_ok t src (mkParser [] [] [] [a] [] []).
Proof.
  intros. unfold events_ok. simpl. repeat split; repeat constructor; try assumption; lia.
Qed.

Lemma events_ok_disc (t : datetime) (src : bytes) (e : DisconnectionEvent) :
  disc_timestamp e = t -> masked_handle_of src (disc_handle e) ->
  events_ok t src (mkParser [] [] [e] [] [] []).
Proof.
  intros T (lo & hi & E & H). unfold events_ok. simpl.
  repeat split; repeat constructor; try assumption.
  - now exists lo, hi.
  - rewrite H. apply masked_handle_range.
  - rewrite H. apply masked_handle_range.
Qed.

Lemma events_ok_gatt (t : datetime) (src : bytes) (g : GattOperation) :
  gatt_timestamp g = t ->
  events_ok t src (mkParser [] [] [] [] [g] []).
Proof.
  intros. unfold events_ok. simpl. repeat split; repeat constructor; assumption.
Qed.

Lemma adv_report_loop_emits (pkt : BtsnoopPacket) (params : bytes) (n : nat) :
  forall offset, 0 <= offset ->
  Emits (adv_report_loop pkt params n offset)
        (fun d => events_ok (pkt_timestamp pkt) params d /\ disconnections d = []).
Proof.
  induction n as [|n IH]; intros offset Hoff; cbn [adv_report_loop].
  - apply emits_ret. split; [apply events_ok_init | reflexivity].
  - run_step; [run_step; split; [apply events_ok_init | reflexivity]|].
    do 3 run_step.
    pose proof (u8_range (nth (Z.to_nat (offset + 8)) params x00)) as Hdl.
    run_step; [run_step; split; [apply events_ok_init | reflexivity]|].
    run_step; run_step.
    + eapply emits_seq; [apply emits_append_advertisement | apply IH; lia |].
      * instantiate (1 := fun d => events_ok (pkt_timestamp pkt) params d
                                   /\ disconnections d = []).
        split; [|reflexivity].
        apply events_ok_adv; simpl; [reflexivity | | apply signed_byte_range].
        apply address_of_format; side.
      * intros d1 d2 (H1 & E1) (H2 & E2). split; [now apply events_ok_app|].
        simpl. now rewrite E1, E2.
    + eapply emits_seq; [apply emits_append_advertisement | apply IH; lia |].
      * instantiate (1 := fun d => events_ok (pkt_timestamp pkt) params d
                                   /\ disconnections d = []).
        split; [|reflexivity].
        apply events_ok_adv; simpl; [reflexivity | | lia].
        apply address_of_format; side.
      * intros d1 d2 (H1 & E1) (H2 & E2). split; [now apply events_ok_app|].
        simpl. now rewrite E1, E2.
Qed.

Ltac fields :=
  cbn [conn_timestamp conn_bd_addr disc_timestamp disc_handle adv_timestamp
       adv_bd_addr adv_rssi gatt_timestamp].

Ltac no_events := apply emits_ret; first [apply events_ok_init | split; [apply events_ok_init | reflexivity]].

Lemma _process_le_meta_event_emits (pkt : BtsnoopPacket) (params : bytes) :
  Emits (_process_le_meta_event pkt params)
        (fun d => events_ok (pkt_timestamp pkt) params d /\ disconnections d = []).
Proof.
  unfold _process_le_meta_event.
  run_step; [no_events|]. run_step.
  run_step; [run_step; [|no_events]|].
  { do 4 run_step.
    apply emits_append_connection. split; [|reflexivity].
    apply events_ok_conn; fields; [reflexivity|]. apply address_of_format; side. }
  run_step; [run_step; [|no_events]|].
  { do 4 run_step.
    apply emits_append_connection. split; [|reflexivity].
    apply events_ok_conn; fields; [reflexivity|]. apply address_of_format; side. }
  run_step; [|no_events].
  run_step; [no_events|]. run_step.
  apply adv_report_loop_emits. lia.
Qed.

Lemma _process_hci_event_emits (pkt : BtsnoopPacket) :
  Emits (_process_hci_event pkt) (events_ok (pkt_timestamp pkt) (pkt_data pkt)).
Proof.
  unfold _process_hci_event.
  run_step; [no_events|]. do 2 run_step.
  pose proof (u8_range (nth (Z.to_nat 1) (pkt_data pkt) x00)) as Hpl.
  set (param_len := u8 (nth (Z.to_nat 1) (pkt_data pkt) x00)) in *.
  run_step; [run_step; [|no_events]|].
  { run_step. apply emits_append_connection.
    apply events_ok_conn; fields; [reflexivity|].
    apply address_of_slice with 2 (2 + param_len); [lia | lia |].
    apply address_of_format; side. }
  run_step; [run_step; [|no_events]|].
  { do 2 run_step. apply emits_append_connection.
    apply events_ok_conn; fields; [reflexivity|].
    apply address_of_slice with 2 (2 + param_len); [lia | lia |].
    apply address_of_format; side. }
  run_step; [run_step; [|no_events]|].
  { do 3 run_step. apply emits_append_disconnection.
    apply events_ok_disc; fields; [reflexivity|].
    exists (nth (Z.to_nat 1) (slice (pkt_data pkt) 2 (2 + param_len)) x00),
           (nth (Z.to_nat 1 + 1) (slice (pkt_data pkt) 2 (2 + param_len)) x00).
    split; [|reflexivity].
    rewrite <- (slice_exact2 (slice (pkt_data pkt) 2 (2 + param_len)) 1) by side.
    rewrite slice_slice by side. reflexivity. }
  run_step; [|no_events].
  eapply emits_weaken; [apply _process_le_meta_event_emits|].
  intros d H. apply events_ok_slice with 2 (2 + param_len); [lia | lia | exact H].
Qed.

Lemma _process_hci_command_emits (pkt : BtsnoopPacket) :
  Emits (_process_hci_command pkt) (events_ok (pkt_timestamp pkt) (pkt_data pkt)).
Proof.
  unfold _process_hci_command.
  run_step; [no_events|]. do 2 run_step.
  pose proof (u8_range (nth (Z.to_nat 2) (pkt_data pkt) x00)) as Hpl.
  set (param_len := u8 (nth (Z.to_nat 2) (pkt_data pkt) x00)) in *.
  run_step; [run_step; [|no_events]|].
  { apply emits_append_connection.
    apply events_ok_conn; fields; [reflexivity|].
    apply address_of_slice with 3 (3 + param_len); [lia | lia |].
    apply address_of_format; side. }
  run_step; [run_step; [|no_events]|].
  { apply emits_append_connection.
    apply events_ok_conn; fields; [reflexivity|].
    apply address_of_slice with 3 (3 + param_len); [lia | lia |].
    apply address_of_format; side. }
  run_step; [run_step; [|no_events]|no_events].
  do 2 run_step. apply emits_append_disconnection.
  apply events_ok_disc; fields; [reflexivity|].
  exists (nth (Z.to_nat 0) (slice (pkt_data pkt) 3 (3 + param_len)) x00),
         (nth (Z.to_nat 0 + 1) (slice (pkt_data pkt) 3 (3 + param_len)) x00).
  split; [|reflexivity].
  rewrite <- (slice_exact2 (slice (pkt_data pkt) 3 (3 + param_len)) 0) by side.
  rewrite slice_slice by side. reflexivity.
Qed.

Lemma _process_att_emits (pkt : BtsnoopPacket) (att_data : bytes) (src : bytes) :
  Emits (_process_att pkt att_data)
        (fun d => events_ok (pkt_timestamp pkt) src d).
Proof.
  unfold _process_att.
  run_step; [no_events|]. run_step.
  destruct (dict_lookup ATT_OPCODES _) as [operation|]; [|no_events].
  run_step.
  - apply andb_prop in Heqb0. destruct Heqb0 as [_ H3].
    rewrite (bind_unpack_le_H att_data 1 3) by side. rewrite !bind_ret.
    apply emits_append_gatt_operation. now apply events_ok_gatt.
  - rewrite bind_ret. apply emits_append_gatt_operation. now apply events_ok_gatt.
Qed.

Lemma le_uint16_range (lo hi : byte) : 0 <= le_uint16 lo hi < 65536.
Proof.
  unfold le_uint16. pose proof (u8_range lo). pose proof (u8_range hi). lia.
Qed.

Lemma _process_acl_data_emits (pkt : BtsnoopPacket) :
  Emits (_process_acl_data pkt) (events_ok (pkt_timestamp pkt) (pkt_data pkt)).
Proof.
  unfold _process_acl_data.
  run_step; [no_events|]. run_step.
  match goal with |- context [slice _ 4 (4 + ?h)] =>
    pose proof (le_uint16_range (nth (Z.to_nat 2) (pkt_data pkt) x00)
                                (nth (Z.to_nat 2 + 1) (pkt_data pkt) x00)) as Hacl;
    set (acl_len := h) in *
  end.
  run_step; [no_events|].
  do 2 run_step.
  run_step; [|no_events].
  apply _process_att_emits.
Qed.

Lemma _process_packet_emits (pkt : BtsnoopPacket) :
  Emits (_process_packet pkt) (events_ok (pkt_timestamp pkt) (pkt_data pkt)).
Proof.
  unfold _process_packet.
  run_step; [apply _process_hci_event_emits|].
  run_step; [apply _process_hci_command_emits|].
  run_step; [apply _process_acl_data_emits|no_events].
Qed.

(** ** The loop over the records *)

Lemma fold_be_nonneg (bs : bytes) (acc : Z) :
  0 <= acc -> 0 <= fold_left (fun a b => a * 256 + u8 b) bs acc.
Proof.
  revert acc. induction bs as [|b bs IH]; intros a Ha; simpl; [assumption|].
  apply IH. pose proof (u8_range b). lia.
Qed.

Lemma be_uint_nonneg (bs : bytes) : 0 <= be_uint bs.
Proof. unfold be_uint. apply fold_be_nonneg. lia. Qed.

Lemma firstn_len_app {A : Type} (l1 l2 : list A) (n : Z) :
  n = len l1 -> firstn (Z.to_nat n) (l1 ++ l2) = l1.
Proof.
  intros ->. unfold len. rewrite Nat2Z.id.
  rewrite firstn_app, Nat.sub_diag, firstn_all. simpl. apply app_nil_r.
Qed.

Lemma skipn_len_app {A : Type} (l1 l2 : list A) (n : Z) :
  n = len l1 -> skipn (Z.to_nat n) (l1 ++ l2) = l2.
Proof.
  intros ->. unfold len. rewrite Nat2Z.id.
  rewrite skipn_app, Nat.sub_diag, skipn_all. reflexivity.
Qed.

Lemma record_ok_init (t : datetime) : record_ok t init.
Proof. unfold record_ok. simpl. repeat split; constructor. Qed.

Lemma handle_record_emits (now : nat -> datetime) (k : nat) (r : RawRecord) :
  Emits (handle_record now k r)
        (record_ok (record_timestamp (now k) (header_ts (rec_header r)))).
Proof.
  unfold handle_record. cbv zeta.
  run_step; [|apply emits_ret, record_ok_init].
  run_step.
  eapply emits_seq.
  - match goal with |- Emits (append_packet ?p) _ =>
      apply (emits_append_packet p (eq (mkParser [p] [] [] [] [] [])))
    end. reflexivity.
  - apply _process_packet_emits.
  - intros d1 d2 <- (P & O & C & D & A & G).
    cbn [pkt_timestamp pkt_data] in *.
    unfold record_ok, app_parser.
    cbn [packets connections disconnections advertisements gatt_operations stdout].
    rewrite P, O. cbn [app].
    repeat split; try reflexivity.
    + repeat constructor.
    + eapply Forall_impl; [|exact C]. now intros e (T & _).
    + eapply Forall_impl; [|exact D]. now intros e (T & _ & R).
    + eapply Forall_impl; [|exact A]. now intros e (T & _).
    + exact G.
Qed.

(** The body of the loop on a record that is in the file in full. *)
Lemma read_packets_step (now : nat -> datetime) (fuel k : nat) (r : RawRecord)
    (rest : bytes) :
  complete_record r ->
  read_packets now (S fuel) k (record_bytes r ++ rest)
  = (handle_record now k r ;;; read_packets now fuel (S k) rest).
Proof.
  intros (H24 & Hincl). destruct r as [rh payload]. unfold record_bytes in *.
  cbn [rec_header rec_payload] in *.
  cbn [read_packets read]. rewrite <- app_assoc.
  rewrite (firstn_len_app rh) by (symmetry; exact H24).
  rewrite (skipn_len_app rh) by (symmetry; exact H24).
  replace (len rh <? 24) with false by (symmetry; apply Z.ltb_ge; lia).
  unfold unpack_be_IIIIQ. replace (len rh =? 24) with true by (symmetry; apply Z.eqb_eq; lia).
  rewrite bind_ret.
  fold (header_incl_len rh). fold (header_flags rh). fold (header_ts rh).
  rewrite (firstn_len_app payload) by exact Hincl.
  rewrite (skipn_len_app payload) by exact Hincl.
  replace (len payload <? header_incl_len rh) with false
    by (symmetry; apply Z.ltb_ge; lia).
  unfold handle_record. cbn [rec_header rec_payload]. reflexivity.
Qed.

(** The loop where the next record is cut short. *)
Lemma read_packets_end (now : nat -> datetime) (fuel k : nat) (tail : bytes) :
  truncated tail -> read_packets now (S fuel) k tail = ret tt.
Proof.
  intros H. cbn [read_packets read].
  destruct (len (firstn (Z.to_nat 24) tail) <? 24) eqn:E; [reflexivity|].
  apply Z.ltb_ge in E. rewrite len_firstn in E.
  destruct H as [H|H]; [lia|].
  unfold unpack_be_IIIIQ.
  replace (len (firstn (Z.to_nat 24) tail) =? 24) with true
    by (symmetry; apply Z.eqb_eq; rewrite len_firstn; lia).
  rewrite bind_ret.
  fold (header_incl_len (firstn (Z.to_nat 24) tail)).
  change (Z.to_nat 24) with 24%nat in *.
  pose proof (be_uint_nonneg (slice (firstn 24 tail) 4 8)) as Hn.
  fold (header_incl_len (firstn 24 tail)) in Hn.
  set (incl := header_incl_len (firstn 24 tail)) in *.
  replace (len (firstn (Z.to_nat incl) (skipn 24 tail)) <? incl) with true; [reflexivity|].
  symmetry. apply Z.ltb_lt. rewrite len_firstn, len_skipn. lia.
Qed.

Lemma record_events_handle (now : nat -> datetime) (k : nat) (r : RawRecord) :
  complete_record r ->
  record_events now k r = snd (handle_record now k r init).
Proof.
  intros H. unfold record_events.
  rewrite <- (app_nil_r (record_bytes r)).
  rewrite read_packets_step by assumption.
  rewrite read_packets_end by (left; reflexivity).
  destruct (handle_record_emits now k r) as (d & _ & Hd).
  unfold bind. rewrite Hd. reflexivity.
Qed.

Lemma record_events_ok (now : nat -> datetime) (k : nat) (r : RawRecord) :
  complete_record r ->
  record_ok (record_timestamp (now k) (header_ts (rec_header r)))
            (record_events now k r)
  /\ forall st, handle_record now k r st = (Ok tt, app_parser st (record_events now k r)).
Proof.
  intros H. rewrite record_events_handle by assumption.
  apply emits_run, handle_record_emits.
Qed.

(** The loop on a file made of records in full and a remainder that is cut
    short: it returns, having appended what the records give rise to, in
    the order of the file. *)
Lemma read_packets_records (now : nat -> datetime) (recs : list RawRecord)
    (tail : bytes) :
  Forall complete_record recs -> truncated tail ->
  forall fuel k st,
    (List.length recs < fuel)%nat ->
    read_packets now fuel k (flat_map record_bytes recs ++ tail) st
    = (Ok tt, app_parser st (records_events now k recs)).
Proof.
  intros Hrecs Htail. induction Hrecs as [|r recs Hr Hrecs IH]; intros fuel k st Hfuel.
  - destruct fuel as [|fuel]; [simpl in Hfuel; lia|].
    cbn [flat_map app records_events]. rewrite read_packets_end by assumption.
    now rewrite app_parser_init_r.
  - destruct fuel as [|fuel]; [simpl in Hfuel; lia|].
    cbn [flat_map records_events]. rewrite <- app_assoc.
    rewrite read_packets_step by assumption.
    unfold bind. rewrite (proj2 (record_events_ok now k r Hr)).
    rewrite IH by (simpl in Hfuel; lia).
    now rewrite app_parser_assoc.
Qed.

(** Every byte string is a run of records in full followed by a remainder
    that is cut short. *)
Lemma records_decomposition (f : bytes) :
  exists recs tail,
    f = flat_map record_bytes recs ++ tail
    /\ Forall complete_record recs /\ truncated tail.
Proof.
  remember (List.length f) as n eqn:Hn. revert f Hn.
  induction n as [n IH] using lt_wf_ind. intros f Hn.
  destruct (Z_lt_ge_dec (len f) 24) as [Hs|Hl].
  - exists [], f. split; [reflexivity|]. split; [constructor|]. now left.
  - set (rh := firstn 24 f).
    destruct (Z_lt_ge_dec (len f - 24) (header_incl_len rh)) as [Ht|Hc].
    + exists [], f. split; [reflexivity|]. split; [constructor|]. now right.
    + pose proof (be_uint_nonneg (slice rh 4 8)) as Hnn.
      fold (header_incl_len rh) in Hnn.
      set (incl := Z.to_nat (header_incl_len rh)) in *.
      set (payload := firstn incl (skipn 24 f)).
      set (rest := skipn incl (skipn 24 f)).
      destruct (IH (List.length rest)) with (f := rest) as (recs & tail & E & Hrecs & Htail).
      { subst rest. rewrite !length_skipn. unfold len in Hl. lia. }
      { reflexivity. }
      exists (mkRawRecord rh payload :: recs), tail.
      split; [|split; [constructor; [|assumption]|assumption]].
      * cbn [flat_map record_bytes rec_header rec_payload].
        rewrite <- (app_assoc (rh ++ payload)), <- E, <- app_assoc.
        subst rh payload rest.
        now rewrite !firstn_skipn.
      * split; cbn [rec_header rec_payload].
        -- subst rh. rewrite len_firstn. lia.
        -- subst payload. rewrite len_firstn, len_skipn. lia.
Qed.

Lemma records_count (recs : list RawRecord) :
  Forall complete_record recs ->
  (List.length recs <= List.length (flat_map record_bytes recs))%nat.
Proof.
  induction 1 as [|r recs (H24 & _) _ IH]; [reflexivity|].
  cbn [flat_map List.length]. rewrite length_app. unfold record_bytes at 1.
  rewrite length_app. unfold len in H24. lia.
Qed.

(** ** The file header and [parse] *)

Lemma bytes_eqb_eq (x y : bytes) : bytes_eqb x y = true <-> x = y.
Proof.
  revert y. induction x as [|a x IH]; intros [|b y]; simpl; split;
    try congruence; try reflexivity.
  - intros H. apply andb_prop in H. destruct H as [H1 H2].
    apply Byte.byte_dec_bl in H1. apply IH in H2. congruence.
  - intros H. injection H as -> ->. apply andb_true_intro. split.
    + now apply Byte.byte_dec_lb.
    + now apply IH.
Qed.

Lemma slice_0 {A : Type} (l : list A) (b : Z) :
  0 <= b -> slice l 0 b = firstn (Z.to_nat b) l.
Proof.
  intros Hb. unfold slice. rewrite !clamp_nonneg by lia.
  pose proof (len_nonneg l) as Hl.
  rewrite (Z.min_l 0 (len l)) by lia. change (Z.to_nat 0) with 0%nat.
  cbn [skipn]. rewrite Z.sub_0_r.
  destruct (Z_le_gt_dec b (len l)) as [H|H].
  - now rewrite Z.min_l by lia.
  - rewrite Z.min_r by lia. unfold len in *. rewrite Nat2Z.id.
    rewrite firstn_all. symmetry. apply firstn_all2. lia.
Qed.

Lemma magic_of_header (file : bytes) :
  slice (firstn (Z.to_nat 16) file) 0 8 = firstn 8 file.
Proof.
  rewrite slice_0 by lia. change (Z.to_nat 16) with 16%nat.
  change (Z.to_nat 8) with 8%nat. now rewrite firstn_firstn.
Qed.

Lemma print_appends (line : string) (st : Parser) :
  print line st = (Ok tt, app_parser st (printed [line])).
Proof.
  unfold print, modify, app_parser, printed. simpl. now rewrite !app_nil_r.
Qed.

Lemma warn_appends (b : bool) (line : string) (st : Parser) :
  (if b then print line else ret tt) st
  = (Ok tt, app_parser st (printed (if b then [line] else []))).
Proof.
  destruct b; [apply print_appends|].
  unfold ret. fold init. now rewrite app_parser_init_r.
Qed.

Lemma printed_app (a b : list string) :
  app_parser (printed a) (printed b) = printed (a ++ b).
Proof. reflexivity. Qed.

Lemma parse_too_small (now : nat -> datetime) (file : bytes) (st : Parser) :
  len file < 16 -> parse now file st = (Raise (ValueError FileTooSmall), st).
Proof.
  intros H. unfold parse. cbn [read].
  replace (len (firstn (Z.to_nat 16) file) <? 16) with true; [reflexivity|].
  symmetry. apply Z.ltb_lt. rewrite len_firstn. lia.
Qed.

Lemma parse_bad_magic (now : nat -> datetime) (file : bytes) (st : Parser) :
  16 <= len file -> firstn 8 file <> BTSNOOP_MAGIC ->
  parse now file st = (Raise (ValueError (InvalidMagic (firstn 8 file))), st).
Proof.
  intros H Hm. unfold parse. cbn [read].
  replace (len (firstn (Z.to_nat 16) file) <? 16) with false
    by (symmetry; apply Z.ltb_ge; rewrite len_firstn; lia).
  cbv zeta. rewrite magic_of_header.
  destruct (bytes_eqb (firstn 8 file) BTSNOOP_MAGIC) eqn:E.
  - apply bytes_eqb_eq in E. contradiction.
  - reflexivity.
Qed.

(** [parse] on a file with a header it accepts: it returns; all it does is
    to print its warnings about the header and to append what the records
    that are in the file in full give rise to, in the order of the file. *)
Lemma parse_valid (now : nat -> datetime) (file : bytes) (recs : list RawRecord)
    (tail : bytes) (st : Parser) :
  valid_header file ->
  skipn 16 file = flat_map record_bytes recs ++ tail ->
  Forall complete_record recs -> truncated tail ->
  parse now file st
  = (Ok tt,
     app_parser st
       (app_parser (printed (header_warnings (firstn 16 file)))
                   (records_events now 0 recs))).
Proof.
  intros (H16 & Hmagic) Hbody Hrecs Htail. unfold parse. cbn [read].
  change (Z.to_nat 16) with 16%nat.
  assert (Hh : len (firstn 16 file) = 16) by (rewrite len_firstn; lia).
  replace (len (firstn 16 file) <? 16) with false by (symmetry; apply Z.ltb_ge; lia).
  cbv zeta. change 16%nat with (Z.to_nat 16) at 1. rewrite magic_of_header.
  change (Z.to_nat 16) with 16%nat.
  replace (bytes_eqb (firstn 8 file) BTSNOOP_MAGIC) with true
    by (symmetry; now apply bytes_eqb_eq).
  cbn [negb]. unfold unpack_be_II.
  replace (len (slice (firstn 16 file) 8 16) =? 8) with true
    by (symmetry; apply Z.eqb_eq; rewrite len_slice; lia).
  rewrite bind_ret.
  rewrite (slice_slice (firstn 16 file) 8 16 0 4) by lia.
  rewrite (slice_slice (firstn 16 file) 8 16 4 8) by lia.
  change (8 + 0) with 8. change (8 + 4) with 12. change (8 + 8) with 16.
  assert (Hloop : forall st',
    read_packets now (S (List.length (skipn 16 file))) 0 (skipn 16 file) st'
    = (Ok tt, app_parser st' (records_events now 0 recs))).
  { intros st'. rewrite Hbody. apply read_packets_records; try assumption.
    rewrite length_app. pose proof (records_count recs Hrecs). lia. }
  unfold header_warnings, bind.
  rewrite !warn_appends. cbv iota beta.
  rewrite Hloop. now rewrite <- printed_app, !app_parser_assoc.
Qed.

(** How [parse] ends, for every file: it raises [ValueError] on a file of
    fewer than 16 bytes and on one whose first 8 bytes are not the magic
    constant, and returns on every other one. *)
Lemma parse_outcome (now : nat -> datetime) (file : bytes) (st : Parser) :
  (len file < 16 /\ parse now file st = (Raise (ValueError FileTooSmall), st))
  \/ (16 <= len file /\ firstn 8 file <> BTSNOOP_MAGIC
      /\ parse now file st = (Raise (ValueError (InvalidMagic (firstn 8 file))), st))
  \/ (valid_header file /\ fst (parse now file st) = Ok tt).
Proof.
  destruct (Z_lt_ge_dec (len file) 16) as [H|H].
  - left. split; [assumption|]. now apply parse_too_small.
  - right. destruct (list_eq_dec Byte.byte_eq_dec (firstn 8 file) BTSNOOP_MAGIC) as [E|E].
    + right. assert (V : valid_header file) by (split; [lia|assumption]).
      split; [assumption|].
      destruct (records_decomposition (skipn 16 file)) as (recs & tail & Hb & Hr & Ht).
      now rewrite (parse_valid now file recs tail st V Hb Hr Ht).
    + left. split; [lia|]. split; [assumption|]. apply parse_bad_magic; [lia|assumption].
Qed.

(** [parse] ends within the budget of its loop on every file. *)
Lemma parse_within_fuel (now : nat -> datetime) (file : bytes) (st : Parser) :
  fst (parse now file st) <> OutOfFuel.
Proof.
  destruct (parse_outcome now file st) as [(_ & E)|[(_ & _ & E)|(_ & E)]];
    rewrite E; discriminate.
Qed.

(** ** The walk over the sub-records, step by step *)

Lemma adv_report_loop_short (pkt : BtsnoopPacket) (params : bytes) (n : nat)
    (offset : Z) :
  len params < offset + 9 ->
  adv_report_loop pkt params (S n) offset = ret tt.
Proof.
  intros H. cbn [adv_report_loop].
  now replace (offset + 9 >? len params) with true by (symmetry; apply Z.gtb_lt; lia).
Qed.

Lemma adv_report_loop_cut (pkt : BtsnoopPacket) (params : bytes) (n : nat)
    (offset : Z) :
  0 <= offset -> offset + 9 <= len params ->
  len params < offset + 9 + u8 (nth (Z.to_nat (offset + 8)) params x00) ->
  adv_report_loop pkt params (S n) offset = ret tt.
Proof.
  intros H0 H9 Hd. cbn [adv_report_loop].
  replace (offset + 9 >? len params) with false
    by (symmetry; rewrite Z.gtb_ltb; apply Z.ltb_ge; lia).
  rewrite !bind_getitem by lia.
  now replace (_ >? len params) with true by (symmetry; apply Z.gtb_lt; lia).
Qed.

Lemma adv_report_loop_step (pkt : BtsnoopPacket) (params : bytes) (n : nat)
    (offset : Z) :
  0 <= offset -> offset + 9 <= len params ->
  offset + 9 + u8 (nth (Z.to_nat (offset + 8)) params x00) <= len params ->
  adv_report_loop pkt params (S n) offset
  = (append_advertisement (report_at (pkt_timestamp pkt) params offset) ;;;
     adv_report_loop pkt params n
       (offset + 9 + u8 (nth (Z.to_nat (offset + 8)) params x00) + 1)).
Proof.
  intros H0 H9 Hd. cbn [adv_report_loop].
  replace (offset + 9 >? len params) with false
    by (symmetry; rewrite Z.gtb_ltb; apply Z.ltb_ge; lia).
  rewrite !bind_getitem by lia.
  replace (_ >? len params) with false
    by (symmetry; rewrite Z.gtb_ltb; apply Z.ltb_ge; lia).
  unfold report_at, signed_byte.
  destruct (_ <? len params) eqn:E.
  - apply Z.ltb_lt in E. pose proof (u8_range (nth (Z.to_nat (offset + 8)) params x00)).
    rewrite bind_getitem by lia. reflexivity.
  - rewrite bind_ret. reflexivity.
Qed.

Lemma append_advertisement_appends (a : AdvertisementPacket) (st : Parser) :
  append_advertisement a st = (Ok tt, app_parser st (only_advertisements [a])).
Proof.
  unfold append_advertisement, modify, app_parser, only_advertisements. simpl.
  now rewrite !app_nil_r.
Qed.

(** ** The walk with its log *)

Lemma adv_report_loop_traced_spec (pkt : BtsnoopPacket) (params : bytes) (n : nat) :
  forall offset t0 st, 0 <= offset ->
  exists t st',
    adv_report_loop_traced pkt params n offset t0 st = (Ok t, st')
    /\ adv_report_loop pkt params n offset st = (Ok tt, st')
    /\ trace_ok params n t0 t.
Proof.
  induction n as [|n IH]; intros offset t0 st Hoff.
  - exists t0, st. repeat split; [auto | simpl; lia].
  - cbn [adv_report_loop_traced adv_report_loop].
    destruct (offset + 9 >? len params) eqn:E9.
    { exists (tick t0), st. repeat split; [auto | simpl; lia]. }
    rewrite Z.gtb_ltb in E9. apply Z.ltb_ge in E9.
    cbv zeta. rewrite !bind_getitem by lia.
    pose proof (u8_range (nth (Z.to_nat (offset + 8)) params x00)) as Hdl.
    set (dl := u8 (nth (Z.to_nat (offset + 8)) params x00)) in *.
    destruct (offset + 9 + dl >? len params) eqn:Ed.
    { eexists _, st. split; [reflexivity|]. split; [reflexivity|].
      split; [|simpl; lia]. simpl. intros H.
      repeat (apply Forall_app; split); try assumption;
        repeat constructor; simpl; lia. }
    rewrite Z.gtb_ltb in Ed. apply Z.ltb_ge in Ed.
    destruct (offset + 9 + dl <? len params) eqn:Er.
    + apply Z.ltb_lt in Er. rewrite !bind_getitem by lia.
      unfold bind. rewrite !append_advertisement_appends.
      match goal with |- context [adv_report_loop_traced pkt params n ?o ?t1 ?s1] =>
        destruct (IH o t1 s1) as (t & st' & Ht & Hl & Hok & Hit); [lia|];
        exists t, st'
      end.
      split; [exact Ht|]. split; [exact Hl|]. split.
      * intros H. apply Hok. simpl.
        repeat (apply Forall_app; split); try assumption;
          repeat constructor; simpl; lia.
      * simpl in Hit. lia.
    + apply Z.ltb_ge in Er. rewrite !bind_ret.
      unfold bind. rewrite !append_advertisement_appends.
      match goal with |- context [adv_report_loop_traced pkt params n ?o ?t1 ?s1] =>
        destruct (IH o t1 s1) as (t & st' & Ht & Hl & Hok & Hit); [lia|];
        exists t, st'
      end.
      split; [exact Ht|]. split; [exact Hl|]. split.
      * intros H. apply Hok. simpl.
        repeat (apply Forall_app; split); try assumption;
          repeat constructor; simpl; lia.
      * simpl in Hit. lia.
Qed.

(** ** The decoders on packets of a known shape *)

Ltac nat_lits :=
  change (Z.to_nat 0) with 0%nat in *; change (Z.to_nat 1) with 1%nat in *;
  change (Z.to_nat 2) with 2%nat in *; change (Z.to_nat 3) with 3%nat in *;
  change (Z.to_nat 9) with 9%nat in *.

Lemma append_disconnection_appends (e : DisconnectionEvent) (st : Parser) :
  append_disconnection e st = (Ok tt, app_parser st (only_disconnection e)).
Proof.
  unfold append_disconnection, modify, app_parser, only_disconnection. simpl.
  now rewrite !app_nil_r.
Qed.

Lemma append_connection_appends (c : ConnectionRequest) (st : Parser) :
  append_connection c st = (Ok tt, app_parser st (only_connection c)).
Proof.
  unfold append_connection, modify, app_parser, only_connection. simpl.
  now rewrite !app_nil_r.
Qed.

(** A disconnection-complete event: code 5, parameter length, status, the
    two bytes of the handle, the reason. *)
Lemma disconnection_complete_decoded (t : datetime) (dir : string) (ptype : Z)
    (plen status lo hi reason : byte) (rest : bytes) (st : Parser) :
  4 <= u8 plen ->
  _process_hci_event
    (mkBtsnoopPacket t dir ptype (x05 :: plen :: status :: lo :: hi :: reason :: rest)) st
  = (Ok tt,
     app_parser st
       (only_disconnection
          (mkDisconnectionEvent t (Z.land (le_uint16 lo hi) 0x0FFF) (u8 reason)
             (dict_get DISCONNECT_REASONS (u8 reason)
                ("Unknown (0x" ++ fmt_02X (u8 reason) ++ ")")%string)))).
Proof.
  intros Hp. pose proof (u8_range plen) as Hr. pose proof (len_nonneg rest) as Hl.
  unfold _process_hci_event. cbn [pkt_data pkt_timestamp].
  set (data := x05 :: plen :: status :: lo :: hi :: reason :: rest).
  assert (Hd : len data = 6 + len rest) by (unfold data; rewrite !len_cons; lia).
  replace (len data <? 2) with false by (symmetry; apply Z.ltb_ge; lia).
  rewrite !bind_getitem by lia. nat_lits.
  change (nth 0 data x00) with x05. change (nth 1 data x00) with plen.
  change (u8 x05 =? EVT_CONNECTION_REQUEST) with false.
  change (u8 x05 =? EVT_CONNECTION_COMPLETE) with false.
  change (u8 x05 =? EVT_DISCONNECTION_COMPLETE) with true.
  cbv iota.
  set (params := slice data 2 (2 + u8 plen)).
  assert (Hlp : len params = Z.min (2 + u8 plen) (len data) - 2)
    by (unfold params; rewrite len_slice; lia).
  replace (len params >=? 4) with true by (symmetry; apply Z.geb_le; lia).
  rewrite (bind_getitem params 0) by lia.
  rewrite (bind_unpack_le_H params 1 3) by lia.
  rewrite (bind_getitem params 3) by lia. nat_lits.
  unfold params.
  rewrite (nth_slice data 2 (2 + u8 plen) 1) by lia.
  rewrite (nth_slice data 2 (2 + u8 plen) (1 + 1)) by lia.
  rewrite (nth_slice data 2 (2 + u8 plen) 3) by lia.
  nat_lits. cbn [Nat.add nth data].
  apply append_disconnection_appends.
Qed.

(** A disconnect command: opcode 0x0406 in little-endian order, parameter
    length, the two bytes of the handle, the reason. *)
Lemma disconnect_command_decoded (t : datetime) (dir : string) (ptype : Z)
    (plen lo hi reason : byte) (rest : bytes) (st : Parser) :
  3 <= u8 plen ->
  _process_hci_command
    (mkBtsnoopPacket t dir ptype (x06 :: x04 :: plen :: lo :: hi :: reason :: rest)) st
  = (Ok tt,
     app_parser st
       (only_disconnection
          (mkDisconnectionEvent t (Z.land (le_uint16 lo hi) 0x0FFF) (u8 reason)
             ("Disconnect Command: " ++
              dict_get DISCONNECT_REASONS (u8 reason)
                ("Unknown (0x" ++ fmt_02X (u8 reason) ++ ")"))%string))).
Proof.
  intros Hp. pose proof (u8_range plen) as Hr. pose proof (len_nonneg rest) as Hl.
  unfold _process_hci_command. cbn [pkt_data pkt_timestamp].
  set (data := x06 :: x04 :: plen :: lo :: hi :: reason :: rest).
  assert (Hd : len data = 6 + len rest) by (unfold data; rewrite !len_cons; lia).
  replace (len data <? 3) with false by (symmetry; apply Z.ltb_ge; lia).
  rewrite (bind_unpack_le_H data 0 2) by lia.
  rewrite (bind_getitem data 2) by lia. nat_lits.
  change (nth 0 data x00) with x06. change (nth (0 + 1) data x00) with x04.
  change (nth 2 data x00) with plen.
  change (le_uint16 x06 x04 =? CMD_CREATE_CONNECTION) with false.
  change (le_uint16 x06 x04 =? CMD_LE_CREATE_CONNECTION) with false.
  change (le_uint16 x06 x04 =? CMD_DISCONNECT) with true.
  cbv iota.
  set (params := slice data 3 (3 + u8 plen)).
  assert (Hlp : len params = Z.min (3 + u8 plen) (len data) - 3)
    by (unfold params; rewrite len_slice; lia).
  replace (len params >=? 3) with true by (symmetry; apply Z.geb_le; lia).
  rewrite (bind_unpack_le_H params 0 2) by lia.
  rewrite (bind_getitem params 2) by lia. nat_lits.
  unfold params.
  rewrite (nth_slice data 3 (3 + u8 plen) 0) by lia.
  rewrite (nth_slice data 3 (3 + u8 plen) (0 + 1)) by lia.
  rewrite (nth_slice data 3 (3 + u8 plen) 2) by lia.
  nat_lits. cbn [Nat.add nth data].
  apply append_disconnection_appends.
Qed.

(** A connection-request event: code 4, parameter length, the six bytes of
    the address, three bytes of device class, the link type. *)
Lemma connection_request_decoded (t : datetime) (dir : string) (ptype : Z)
    (plen b0 b1 b2 b3 b4 b5 c0 c1 c2 link : byte) (rest : bytes) (st : Parser) :
  10 <= u8 plen ->
  _process_hci_event
    (mkBtsnoopPacket t dir ptype
       (x04 :: plen :: b0 :: b1 :: b2 :: b3 :: b4 :: b5 :: c0 :: c1 :: c2 :: link :: rest)) st
  = (Ok tt,
     app_parser st
       (only_connection
          (mkConnectionRequest t dir (render_address b0 b1 b2 b3 b4 b5)
             (if u8 link =? 0 then "SCO" else "ACL") "request"))).
Proof.
  intros Hp. pose proof (u8_range plen) as Hr. pose proof (len_nonneg rest) as Hl.
  unfold _process_hci_event. cbn [pkt_data pkt_timestamp pkt_direction].
  set (data := x04 :: plen :: b0 :: b1 :: b2 :: b3 :: b4 :: b5 :: c0 :: c1 :: c2 :: link :: rest).
  assert (Hd : len data = 12 + len rest) by (unfold data; rewrite !len_cons; lia).
  replace (len data <? 2) with false by (symmetry; apply Z.ltb_ge; lia).
  rewrite !bind_getitem by lia. nat_lits.
  change (nth 0 data x00) with x04. change (nth 1 data x00) with plen.
  change (u8 x04 =? EVT_CONNECTION_REQUEST) with true.
  cbv iota.
  set (params := slice data 2 (2 + u8 plen)).
  assert (Hlp : len params = Z.min (2 + u8 plen) (len data) - 2)
    by (unfold params; rewrite len_slice; lia).
  replace (len params >=? 10) with true by (symmetry; apply Z.geb_le; lia).
  rewrite (bind_getitem params 9) by lia. nat_lits.
  unfold params.
  rewrite (nth_slice data 2 (2 + u8 plen) 9) by lia.
  rewrite (slice_slice data 2 (2 + u8 plen) 0 6) by lia.
  nat_lits. cbn [Nat.add nth data].
  replace (slice data (2 + 0) (2 + 6)) with [b0; b1; b2; b3; b4; b5].
  - rewrite format_bd_addr_six. apply append_connection_appends.
  - unfold slice. rewrite !clamp_nonneg by lia. rewrite Hd.
    replace (Z.to_nat (Z.min (2 + 6) (12 + len rest) - Z.min (2 + 0) (12 + len rest)))
      with 6%nat by lia.
    replace (Z.to_nat (Z.min (2 + 0) (12 + len rest))) with 2%nat by lia.
    reflexivity.
Qed.

(** ** The advertising report of a meta event *)

Lemma nth_error_byte (l : bytes) (i : nat) (b : byte) :
  nth_error l i = Some b -> nth i l x00 = b /\ Z.of_nat i < len l.
Proof.
  intros H. split.
  - now apply nth_error_nth.
  - unfold len. apply Nat2Z.inj_lt. apply nth_error_Some. congruence.
Qed.

(** On an advertising report the meta-event decoder is the walk over the
    sub-records, as many times as the second byte says, from offset 2. *)
Lemma le_meta_adv_report (pkt : BtsnoopPacket) (params : bytes) (count : byte) :
  nth_error params 0 = Some x02 -> nth_error params 1 = Some count ->
  _process_le_meta_event pkt params
  = adv_report_loop pkt params (Z.to_nat (u8 count)) 2.
Proof.
  intros H0 H1.
  apply nth_error_byte in H0. destruct H0 as [H0 _].
  apply nth_error_byte in H1. destruct H1 as [H1 Hl]. 
  unfold _process_le_meta_event.
  replace (len params <? 1) with false by (symmetry; apply Z.ltb_ge; lia).
  rewrite (bind_getitem params 0) by lia. nat_lits. rewrite H0.
  change (u8 x02 =? LE_CONNECTION_COMPLETE) with false.
  change (u8 x02 =? LE_ENHANCED_CONNECTION_COMPLETE) with false.
  change (u8 x02 =? LE_ADV_REPORT) with true. cbv iota.
  replace (len params <? 2) with false by (symmetry; apply Z.ltb_ge; lia).
  rewrite (bind_getitem params 1) by lia. nat_lits. now rewrite H1.
Qed.

(** C1: for every parameter buffer of an advertising report, whatever its
    bytes, its report count and the data lengths of its sub-records, the
    walk over the sub-records returns without an exception, every element
    it reads has an index inside the buffer, every slice it takes has both
    bounds inside the buffer, and it makes at most as many passes as the
    count byte says, which is at most 255. *)
Theorem adv_report_walk_in_bounds (pkt : BtsnoopPacket) (params : bytes)
    (count : byte) (st : Parser) :
  nth_error params 0 = Some x02 -> nth_error params 1 = Some count ->
  exists t st',
    adv_report_loop_traced pkt params (Z.to_nat (u8 count)) 2 (mkTrace [] 0) st
    = (Ok t, st')
    /\ _process_le_meta_event pkt params st = (Ok tt, st')
    /\ Forall (in_bounds params) (accesses t)
    /\ (iterations t <= Z.to_nat (u8 count))%nat
    /\ (Z.to_nat (u8 count) <= 255)%nat.
Proof.
  intros H0 H1.
  destruct (adv_report_loop_traced_spec pkt params (Z.to_nat (u8 count)) 2
              (mkTrace [] 0) st) as (t & st' & Ht & Hl & Hb & Hi); [lia|].
  exists t, st'. rewrite (le_meta_adv_report pkt params count H0 H1).
  repeat split; try assumption.
  - apply Hb. constructor.
  - pose proof (u8_range count). lia.
Qed.

Lemma adv_report_walk_in_bounds_witness :
  nth_error sample_two_reports_params 0 = Some x02
  /\ nth_error sample_two_reports_params 1 = Some x02
  /\ exists t st',
    adv_report_loop_traced (sample_packet []) sample_two_reports_params
      (Z.to_nat (u8 x02)) 2 (mkTrace [] 0) init = (Ok t, st')
    /\ _process_le_meta_event (sample_packet []) sample_two_reports_params init
       = (Ok tt, st')
    /\ Forall (in_bounds sample_two_reports_params) (accesses t)
    /\ (iterations t <= Z.to_nat (u8 x02))%nat
    /\ (Z.to_nat (u8 x02) <= 255)%nat.
Proof.
  split; [reflexivity|]. split; [reflexivity|].
  apply (adv_report_walk_in_bounds (sample_packet []) sample_two_reports_params
           x02 init); reflexivity.
Defined.

(** C2: a parameter buffer of an advertising report that declares two
    sub-records and holds the first in full, while the 9-byte prefix of the
    second or the data it declares do not fit: the decoder returns without
    an exception and appends exactly one advertisement, the one read off
    the first sub-record; what the parser held before is kept. *)
Theorem two_reports_one_complete (pkt : BtsnoopPacket) (params : bytes)
    (st : Parser) :
  nth_error params 0 = Some x02 -> nth_error params 1 = Some x02 ->
  2 + 9 + u8 (nth 10 params x00) <= len params ->
  (len params < 2 + 9 + u8 (nth 10 params x00) + 1 + 9
   \/ len params
      < 2 + 9 + u8 (nth 10 params x00) + 1 + 9
        + u8 (nth (Z.to_nat (2 + 9 + u8 (nth 10 params x00) + 1 + 8)) params x00)) ->
  _process_le_meta_event pkt params st
  = (Ok tt,
     app_parser st (only_advertisements [report_at (pkt_timestamp pkt) params 2]))
  /\ advertisements (snd (_process_le_meta_event pkt params st))
     = advertisements st ++ [report_at (pkt_timestamp pkt) params 2].
Proof.
  intros H0 H1 Hfirst Hsecond.
  pose proof (u8_range (nth 10 params x00)) as Hd.
  assert (E : _process_le_meta_event pkt params st
              = (Ok tt, app_parser st
                   (only_advertisements [report_at (pkt_timestamp pkt) params 2]))).
  { rewrite (le_meta_adv_report pkt params x02 H0 H1).
    change (Z.to_nat (u8 x02)) with 2%nat.
    rewrite adv_report_loop_step; change (Z.to_nat (2 + 8)) with 10%nat; try lia.
    unfold bind. rewrite append_advertisement_appends.
    destruct (Z_lt_ge_dec (len params) (2 + 9 + u8 (nth 10 params x00) + 1 + 9))
      as [Hs|Hl].
    - now rewrite adv_report_loop_short by lia.
    - destruct Hsecond as [Hs|Hc]; [lia|].
      now rewrite adv_report_loop_cut by lia. }
  split; [exact E|]. now rewrite E.
Qed.

Lemma two_reports_one_complete_witness :
  _process_le_meta_event (sample_packet []) sample_two_reports_params init
  = (Ok tt,
     app_parser init
       (only_advertisements [report_at 0 sample_two_reports_params 2]))
  /\ advertisements
       (snd (_process_le_meta_event (sample_packet []) sample_two_reports_params init))
     = advertisements init ++ [report_at 0 sample_two_reports_params 2].
Proof.
  apply (two_reports_one_complete (sample_packet []) sample_two_reports_params init).
  - reflexivity.
  - reflexivity.
  - vm_compute. discriminate.
  - left. vm_compute. reflexivity.
Defined.

(** C8: the RSSI of an advertisement is the signed reading of the byte that
    follows the data of its sub-record, [v - 256] for a byte value [v] above
    127 and [v] otherwise, so a value between -128 and 127, and it is 0
    where the buffer ends before that byte; byte 0xFF gives -1, byte 0x40
    gives 64. *)
Theorem rssi_signed_decoding (pkt : BtsnoopPacket) (params : bytes) (n : nat)
    (offset : Z) (st : Parser) :
  0 <= offset -> offset + 9 <= len params ->
  offset + 9 + u8 (nth (Z.to_nat (offset + 8)) params x00) <= len params ->
  (exists a rest,
     advertisements (snd (adv_report_loop pkt params (S n) offset st))
     = advertisements st ++ a :: rest
     /\ adv_rssi a
        = match nth_error params
                  (Z.to_nat (offset + 9 + u8 (nth (Z.to_nat (offset + 8)) params x00)))
          with
          | Some b => if u8 b >? 127 then u8 b - 256 else u8 b
          | None => 0
          end
     /\ -128 <= adv_rssi a <= 127)
  /\ map adv_rssi
       (advertisements
          (snd (_process_le_meta_event pkt (sample_report_params xff) init)))
     = [-1]
  /\ map adv_rssi
       (advertisements
          (snd (_process_le_meta_event pkt (sample_report_params x40) init)))
     = [64]
  /\ map adv_rssi
       (advertisements
          (snd (_process_le_meta_event pkt sample_report_params_short init)))
     = [0].
Proof.
  intros H0 H9 Hd. split; [|repeat split; reflexivity].
  pose proof (u8_range (nth (Z.to_nat (offset + 8)) params x00)) as Hdl.
  set (dl := u8 (nth (Z.to_nat (offset + 8)) params x00)) in *.
  rewrite adv_report_loop_step by assumption. fold dl.
  unfold bind. rewrite append_advertisement_appends.
  destruct (adv_report_loop_emits pkt params n (offset + 9 + dl + 1))
    as (d & _ & Hrest); [lia|].
  rewrite Hrest.
  exists (report_at (pkt_timestamp pkt) params offset), (advertisements d).
  split; [cbn [snd app_parser advertisements only_advertisements];
          now rewrite <- app_assoc|].
  unfold report_at. cbn [adv_rssi]. fold dl. unfold signed_byte.
  destruct (offset + 9 + dl <? len params) eqn:E.
  - apply Z.ltb_lt in E.
    destruct (nth_error params (Z.to_nat (offset + 9 + dl))) as [b|] eqn:Eb.
    + apply nth_error_byte in Eb. destruct Eb as [-> _].
      split; [reflexivity|]. pose proof (u8_range b).
      destruct (u8 b >? 127) eqn:Eg; [apply Z.gtb_lt in Eg; lia|].
      rewrite Z.gtb_ltb in Eg. apply Z.ltb_ge in Eg. lia.
    + apply nth_error_None in Eb. unfold len in E. lia.
  - apply Z.ltb_ge in E.
    destruct (nth_error params (Z.to_nat (offset + 9 + dl))) as [b|] eqn:Eb.
    + apply nth_error_byte in Eb. lia.
    + split; [reflexivity|lia].
Qed.

Lemma rssi_signed_decoding_witness :
  exists a rest,
    advertisements
      (snd (adv_report_loop (sample_packet []) (sample_report_params xff) 1 2 init))
    = advertisements init ++ a :: rest
    /\ adv_rssi a
       = match nth_error (sample_report_params xff)
                 (Z.to_nat (2 + 9 + u8 (nth (Z.to_nat (2 + 8)) (sample_report_params xff) x00)))
         with
         | Some b => if u8 b >? 127 then u8 b - 256 else u8 b
         | None => 0
         end
    /\ -128 <= adv_rssi a <= 127.
Proof.
  apply (rssi_signed_decoding (sample_packet []) (sample_report_params xff) 0 2 init).
  - vm_compute. discriminate.
  - vm_compute. discriminate.
  - vm_compute. discriminate.
Defined.

(** ** Disconnections *)

Lemma _process_packet_event (t : datetime) (dir : string) (body : bytes) :
  _process_packet (mkBtsnoopPacket t dir HCI_EVENT body)
  = _process_hci_event (mkBtsnoopPacket t dir HCI_EVENT body).
Proof. reflexivity. Qed.

Lemma _process_packet_command (t : datetime) (dir : string) (body : bytes) :
  _process_packet (mkBtsnoopPacket t dir HCI_COMMAND body)
  = _process_hci_command (mkBtsnoopPacket t dir HCI_COMMAND body).
Proof. reflexivity. Qed.

Lemma records_events_ok (now : nat -> datetime) (recs : list RawRecord) :
  Forall complete_record recs ->
  forall k,
    stdout (records_events now k recs) = []
    /\ Forall (fun e => 0 <= disc_handle e < 0x1000)
         (disconnections (records_events now k recs)).
Proof.
  induction 1 as [|r recs Hr _ IH]; intros k.
  - split; [reflexivity|constructor].
  - cbn [records_events]. destruct (IH (S k)) as (O2 & D2).
    destruct (proj1 (record_events_ok now k r Hr)) as (O1 & _ & _ & D1 & _).
    unfold app_parser. cbn [stdout disconnections]. rewrite O1, O2.
    split; [reflexivity|]. apply Forall_app. split; [|assumption].
    eapply Forall_impl; [|exact D1]. now intros e (_ & R).
Qed.

(** C6: the handle of every disconnection is the little-endian 16-bit field
    of its packet with the top four bits masked off, so it is below 0x1000:
    for every packet that is decoded; for a disconnection-complete event and
    for a disconnect command, of which the field is the two bytes named
    [lo] and [hi]; for every disconnection [parse] leaves in the parser; and
    the bytes 34 12 give the handle 0x0234 on both paths. *)
Theorem disconnection_handle_masked :
  (forall pkt st e,
     In e (disconnections (snd (_process_packet pkt st))) ->
     In e (disconnections st)
     \/ (masked_handle_of (pkt_data pkt) (disc_handle e)
         /\ 0 <= disc_handle e < 0x1000))
  /\ (forall t dir plen status lo hi reason rest st,
        4 <= u8 plen ->
        map disc_handle
          (disconnections
             (snd (_process_packet
                     (mkBtsnoopPacket t dir HCI_EVENT
                        (x05 :: plen :: status :: lo :: hi :: reason :: rest)) st)))
        = map disc_handle (disconnections st) ++ [Z.land (le_uint16 lo hi) 0x0FFF])
  /\ (forall t dir plen lo hi reason rest st,
        3 <= u8 plen ->
        map disc_handle
          (disconnections
             (snd (_process_packet
                     (mkBtsnoopPacket t dir HCI_COMMAND
                        (x06 :: x04 :: plen :: lo :: hi :: reason :: rest)) st)))
        = map disc_handle (disconnections st) ++ [Z.land (le_uint16 lo hi) 0x0FFF])
  /\ (forall now file e,
        In e (disconnections (snd (parse now file init))) ->
        0 <= disc_handle e < 0x1000)
  /\ map disc_handle
       (disconnections
          (snd (_process_packet
                  (mkBtsnoopPacket 0 "received" HCI_EVENT sample_disconnection_body)
                  init)))
     = [0x0234]
  /\ map disc_handle
       (disconnections
          (snd (_process_packet
                  (mkBtsnoopPacket 0 "sent" HCI_COMMAND sample_disconnect_command_body)
                  init)))
     = [0x0234].
Proof.
  split; [|split; [|split; [|split; [|split; reflexivity]]]].
  - intros pkt st e Hin.
    destruct (_process_packet_emits pkt) as (d & (_ & _ & _ & D & _) & Hd).
    rewrite Hd in Hin. cbn [snd app_parser disconnections] in Hin.
    apply in_app_or in Hin. destruct Hin as [Hin|Hin]; [now left|right].
    rewrite Forall_forall in D. destruct (D e Hin) as (_ & M & R). now split.
  - intros t dir plen status lo hi reason rest st Hp.
    rewrite _process_packet_event, disconnection_complete_decoded by assumption.
    cbn [snd app_parser disconnections only_disconnection].
    now rewrite map_app.
  - intros t dir plen lo hi reason rest st Hp.
    rewrite _process_packet_command, disconnect_command_decoded by assumption.
    cbn [snd app_parser disconnections only_disconnection].
    now rewrite map_app.
  - intros now file e Hin.
    destruct (parse_outcome now file init) as [(_ & E)|[(_ & _ & E)|(V & _)]].
    + rewrite E in Hin. contradiction.
    + rewrite E in Hin. contradiction.
    + destruct (records_decomposition (skipn 16 file)) as (recs & tail & Hb & Hr & Ht).
      rewrite (parse_valid now file recs tail init V Hb Hr Ht) in Hin.
      cbn [snd app_parser disconnections printed init app] in Hin.
      destruct (records_events_ok now recs Hr 0) as (_ & D).
      rewrite Forall_forall in D. now apply D.
Qed.

Lemma disconnection_handle_masked_witness :
  4 <= u8 x04
  /\ map disc_handle
       (disconnections
          (snd (_process_packet
                  (mkBtsnoopPacket 0 "received" HCI_EVENT
                     (x05 :: x04 :: x00 :: x34 :: x12 :: x1f :: [])) init)))
     = map disc_handle (disconnections init) ++ [Z.land (le_uint16 x34 x12) 0x0FFF].
Proof.
  split; [vm_compute; discriminate|].
  apply (proj1 (proj2 disconnection_handle_masked)). vm_compute. discriminate.
Defined.

(** C7, as the code has it: for a reason code that is not in the table of
    reasons, the reason text of a disconnection-complete event is
    "Unknown (0xNN)", with a space before the parenthesis and with NN the
    two uppercase hexadecimal digits of the code; the reason text of a
    disconnect command is the same text after "Disconnect Command: ". *)
Theorem unknown_reason_text (t : datetime) (dir : string)
    (plen plen' status lo hi reason : byte) (rest : bytes) (st : Parser) :
  dict_lookup DISCONNECT_REASONS (u8 reason) = None ->
  4 <= u8 plen -> 3 <= u8 plen' ->
  map disc_reason_str
    (disconnections
       (snd (_process_packet
               (mkBtsnoopPacket t dir HCI_EVENT
                  (x05 :: plen :: status :: lo :: hi :: reason :: rest)) st)))
  = map disc_reason_str (disconnections st) ++ [unknown_reason reason]
  /\ map disc_reason_str
       (disconnections
          (snd (_process_packet
                  (mkBtsnoopPacket t dir HCI_COMMAND
                     (x06 :: x04 :: plen' :: lo :: hi :: reason :: rest)) st)))
     = map disc_reason_str (disconnections st)
       ++ [("Disconnect Command: " ++ unknown_reason reason)%string].
Proof.
  intros Hnone Hp Hp'. split.
  - rewrite _process_packet_event, disconnection_complete_decoded by assumption.
    cbn [snd app_parser disconnections only_disconnection disc_reason_str].
    rewrite map_app. cbn [map disc_reason_str]. unfold dict_get. rewrite Hnone.
    now rewrite fmt_02X_byte.
  - rewrite _process_packet_command, disconnect_command_decoded by assumption.
    cbn [snd app_parser disconnections only_disconnection disc_reason_str].
    rewrite map_app. cbn [map disc_reason_str]. unfold dict_get. rewrite Hnone.
    now rewrite fmt_02X_byte.
Qed.

Lemma unknown_reason_text_witness :
  map disc_reason_str
    (disconnections
       (snd (_process_packet
               (mkBtsnoopPacket 0 "received" HCI_EVENT
                  (x05 :: x04 :: x00 :: x34 :: x12 :: x1f :: [])) init)))
  = map disc_reason_str (disconnections init) ++ [unknown_reason x1f]
  /\ map disc_reason_str
       (disconnections
          (snd (_process_packet
                  (mkBtsnoopPacket 0 "received" HCI_COMMAND
                     (x06 :: x04 :: x03 :: x34 :: x12 :: x1f :: [])) init)))
     = map disc_reason_str (disconnections init)
       ++ [("Disconnect Command: " ++ unknown_reason x1f)%string].
Proof.
  apply (unknown_reason_text 0 "received" x04 x03 x00 x34 x12 x1f [] init).
  - reflexivity.
  - vm_compute. discriminate.
  - vm_compute. discriminate.
Defined.

(** C7 as the specification words it fails: the reason code 0x1F is not in
    the table, and the reason text the decoder gives it is "Unknown (0x1F)",
    which is not "Unknown(0x1F)". *)
Lemma unknown_reason_text_counterexample :
  dict_lookup DISCONNECT_REASONS (u8 x1f) = None
  /\ unknown_reason_spec x1f = "Unknown(0x1F)"
  /\ map disc_reason_str
       (disconnections
          (snd (_process_packet
                  (mkBtsnoopPacket 0 "received" HCI_EVENT sample_disconnection_body)
                  init)))
     = ["Unknown (0x1F)"]
  /\ "Unknown (0x1F)" <> unknown_reason_spec x1f.
Proof.
  split; [reflexivity|]. split; [reflexivity|]. split; [reflexivity|].
  vm_compute. discriminate.
Qed.

(** ** Hardware addresses *)

(** C9: a hardware address is rendered as the specification words it, the
    six bytes in reversed order, each as two uppercase hexadecimal digits,
    with colons between them: the rendering of the code and that of the
    specification agree on every six bytes; the address of every connection
    and of every advertisement that a packet gives rise to is the rendering
    of six consecutive bytes of the packet; the address of a
    connection-request event is the rendering of the first six bytes of its
    parameters, the address of an advertisement that of bytes 2 to 7 of its
    sub-record; and the bytes 01 02 03 04 05 06 are rendered as
    06:05:04:03:02:01. *)
Theorem address_rendering :
  (forall b0 b1 b2 b3 b4 b5,
     format_bd_addr [b0; b1; b2; b3; b4; b5] = render_address b0 b1 b2 b3 b4 b5)
  /\ (forall pkt st c,
        In c (connections (snd (_process_packet pkt st))) ->
        In c (connections st) \/ address_of (pkt_data pkt) (conn_bd_addr c))
  /\ (forall pkt st a,
        In a (advertisements (snd (_process_packet pkt st))) ->
        In a (advertisements st) \/ address_of (pkt_data pkt) (adv_bd_addr a))
  /\ (forall t dir plen b0 b1 b2 b3 b4 b5 c0 c1 c2 link rest st,
        10 <= u8 plen ->
        map conn_bd_addr
          (connections
             (snd (_process_packet
                     (mkBtsnoopPacket t dir HCI_EVENT
                        (x04 :: plen :: b0 :: b1 :: b2 :: b3 :: b4 :: b5
                             :: c0 :: c1 :: c2 :: link :: rest)) st)))
        = map conn_bd_addr (connections st) ++ [render_address b0 b1 b2 b3 b4 b5])
  /\ (forall pkt params n offset st,
        0 <= offset -> offset + 9 <= len params ->
        offset + 9 + u8 (nth (Z.to_nat (offset + 8)) params x00) <= len params ->
        exists a rest b0 b1 b2 b3 b4 b5,
          advertisements (snd (adv_report_loop pkt params (S n) offset st))
          = advertisements st ++ a :: rest
          /\ slice params (offset + 2) (offset + 8) = [b0; b1; b2; b3; b4; b5]
          /\ adv_bd_addr a = render_address b0 b1 b2 b3 b4 b5)
  /\ render_address x01 x02 x03 x04 x05 x06 = "06:05:04:03:02:01"
  /\ map conn_bd_addr
       (connections
          (snd (_process_packet
                  (mkBtsnoopPacket 0 "received" HCI_EVENT sample_connection_body)
                  init)))
     = ["06:05:04:03:02:01"].
Proof.
  split; [exact format_bd_addr_six|].
  split; [|split; [|split; [|split; [|split; reflexivity]]]].
  - intros pkt st c Hin.
    destruct (_process_packet_emits pkt) as (d & (_ & _ & C & _) & Hd).
    rewrite Hd in Hin. cbn [snd app_parser connections] in Hin.
    apply in_app_or in Hin. destruct Hin as [Hin|Hin]; [now left|right].
    rewrite Forall_forall in C. now destruct (C c Hin).
  - intros pkt st a Hin.
    destruct (_process_packet_emits pkt) as (d & (_ & _ & _ & _ & A & _) & Hd).
    rewrite Hd in Hin. cbn [snd app_parser advertisements] in Hin.
    apply in_app_or in Hin. destruct Hin as [Hin|Hin]; [now left|right].
    rewrite Forall_forall in A. now destruct (A a Hin) as (_ & H & _).
  - intros t dir plen b0 b1 b2 b3 b4 b5 c0 c1 c2 link rest st Hp.
    rewrite _process_packet_event, connection_request_decoded by assumption.
    cbn [snd app_parser connections only_connection]. now rewrite map_app.
  - intros pkt params n offset st H0 H9 Hd.
    pose proof (u8_range (nth (Z.to_nat (offset + 8)) params x00)) as Hdl.
    rewrite adv_report_loop_step by assumption.
    unfold bind. rewrite append_advertisement_appends.
    destruct (adv_report_loop_emits pkt params n
                (offset + 9 + u8 (nth (Z.to_nat (offset + 8)) params x00) + 1))
      as (d & _ & Hrest); [lia|].
    rewrite Hrest.
    destruct (slice_exact6 params (offset + 2)) as (b0 & b1 & b2 & b3 & b4 & b5 & E);
      [lia | lia |].
    replace (offset + 2 + 6) with (offset + 8) in E by lia.
    exists (report_at (pkt_timestamp pkt) params offset), (advertisements d),
           b0, b1, b2, b3, b4, b5.
    split; [cbn [snd app_parser advertisements only_advertisements];
            now rewrite <- app_assoc|].
    split; [exact E|].
    unfold report_at. cbn [adv_bd_addr]. rewrite E. apply format_bd_addr_six.
Qed.

Lemma address_rendering_witness :
  10 <= u8 x0a
  /\ map conn_bd_addr
       (connections
          (snd (_process_packet
                  (mkBtsnoopPacket 0 "received" HCI_EVENT
                     (x04 :: x0a :: x01 :: x02 :: x03 :: x04 :: x05 :: x06
                          :: x00 :: x00 :: x00 :: x01 :: [])) init)))
     = map conn_bd_addr (connections init)
       ++ [render_address x01 x02 x03 x04 x05 x06].
Proof.
  split; [vm_compute; discriminate|].
  apply (proj1 (proj2 (proj2 (proj2 address_rendering)))). vm_compute. discriminate.
Defined.

(** ** The capture as a whole *)

Lemma fold_be_bound (bs : bytes) (acc : Z) :
  0 <= acc ->
  fold_left (fun a b => a * 256 + u8 b) bs acc < (acc + 1) * 256 ^ len bs.
Proof.
  revert acc. induction bs as [|b bs IH]; intros acc Hacc.
  - cbn [fold_left]. change (len (@nil byte)) with 0. lia.
  - cbn [fold_left]. rewrite len_cons.
    pose proof (u8_range b) as Hb. pose proof (len_nonneg bs) as Hl.
    specialize (IH (acc * 256 + u8 b) ltac:(lia)).
    rewrite Z.pow_add_r by lia. change (256 ^ 1) with 256.
    assert (0 < 256 ^ len bs) by (apply Z.pow_pos_nonneg; lia).
    nia.
Qed.

Lemma header_ts_range (rh : bytes) : len rh = 24 -> 0 <= header_ts rh < 2 ^ 64.
Proof.
  intros H. unfold header_ts. split; [apply be_uint_nonneg|].
  pose proof (fold_be_bound (slice rh 16 24) 0 ltac:(lia)) as B.
  rewrite len_slice in B by lia. rewrite H in B.
  change (Z.max 0 (Z.min 24 24 - Z.min 16 24)) with 8 in B. exact B.
Qed.

Lemma record_timestamp_spec (wall : datetime) (ts : Z) :
  0 <= ts ->
  record_timestamp wall ts
  = if ts <=? DATETIME_MAX then BTSNOOP_EPOCH + ts else wall.
Proof.
  intros H. unfold record_timestamp, timedelta_microseconds, datetime_add.
  unfold BTSNOOP_EPOCH.
  assert (HL : DATETIME_MAX < TIMEDELTA_LIMIT) by reflexivity.
  assert (H0 : 0 < TIMEDELTA_LIMIT) by reflexivity.
  destruct (ts <=? DATETIME_MAX) eqn:E.
  - apply Z.leb_le in E.
    replace (- TIMEDELTA_LIMIT <? ts) with true by (symmetry; apply Z.ltb_lt; lia).
    replace (ts <? TIMEDELTA_LIMIT) with true by (symmetry; apply Z.ltb_lt; lia).
    cbn [andb].
    replace (0 <=? 0 + ts) with true by (symmetry; apply Z.leb_le; lia).
    replace (0 + ts <=? DATETIME_MAX) with true by (symmetry; apply Z.leb_le; lia).
    reflexivity.
  - apply Z.leb_gt in E.
    destruct ((- TIMEDELTA_LIMIT <? ts) && (ts <? TIMEDELTA_LIMIT)); [|reflexivity].
    replace (0 + ts <=? DATETIME_MAX) with false by (symmetry; apply Z.leb_gt; lia).
    now rewrite andb_false_r.
Qed.

Lemma numbered_cons (k : nat) (r : RawRecord) (recs : list RawRecord) :
  numbered k (r :: recs) = (k, r) :: numbered (S k) recs.
Proof. reflexivity. Qed.

Lemma records_events_field {E : Type} (field : Parser -> list E)
    (now : nat -> datetime) (recs : list RawRecord) :
  field init = [] ->
  (forall a b, field (app_parser a b) = field a ++ field b) ->
  forall k,
    field (records_events now k recs)
    = flat_map (fun kr => field (record_events now (fst kr) (snd kr))) (numbered k recs).
Proof.
  intros Hinit Happ. induction recs as [|r recs IH]; intros k.
  - exact Hinit.
  - cbn [records_events]. rewrite numbered_cons. cbn [flat_map fst snd].
    now rewrite Happ, IH.
Qed.

Lemma numbered_nth (recs : list RawRecord) (i : nat) (r : RawRecord) :
  forall k, nth_error recs i = Some r -> In (k + i, r)%nat (numbered k recs).
Proof.
  revert i. induction recs as [|r0 recs IH]; intros [|i] k H; try discriminate.
  - injection H as ->. rewrite numbered_cons, Nat.add_0_r. now left.
  - rewrite numbered_cons. right.
    replace (k + S i)%nat with (S k + i)%nat by lia. now apply IH.
Qed.

(** C3, as the code has it: [parse] returns on a file with a header it
    accepts; the file is a run of records in full and a remainder that is
    cut short; each of the four collections is what it held before followed
    by the events of the first record, then those of the second, and so on;
    and every event of a record carries the epoch plus the 64-bit offset of
    the record header when that sum is a date the [datetime] type holds
    (offset up to 315537897599999999), and the reading of the wall clock
    taken while the record is handled when it is not. *)
Theorem events_in_file_order_with_record_timestamp (now : nat -> datetime)
    (file : bytes) (st : Parser) :
  valid_header file ->
  exists recs tail,
    skipn 16 file = flat_map record_bytes recs ++ tail
    /\ Forall complete_record recs /\ truncated tail
    /\ fst (parse now file st) = Ok tt
    /\ connections (snd (parse now file st))
       = connections st ++ in_file_order connections now recs
    /\ disconnections (snd (parse now file st))
       = disconnections st ++ in_file_order disconnections now recs
    /\ advertisements (snd (parse now file st))
       = advertisements st ++ in_file_order advertisements now recs
    /\ gatt_operations (snd (parse now file st))
       = gatt_operations st ++ in_file_order gatt_operations now recs
    /\ forall k r,
         nth_error recs k = Some r ->
         0 <= header_ts (rec_header r) < 2 ^ 64
         /\ forall t,
              t = (if header_ts (rec_header r) <=? DATETIME_MAX
                   then header_timestamp (rec_header r)
                   else now k) ->
              (forall e, In e (connections (record_events now k r)) ->
                         conn_timestamp e = t)
              /\ (forall e, In e (disconnections (record_events now k r)) ->
                            disc_timestamp e = t)
              /\ (forall e, In e (advertisements (record_events now k r)) ->
                            adv_timestamp e = t)
              /\ (forall e, In e (gatt_operations (record_events now k r)) ->
                            gatt_timestamp e = t).
Proof.
  intros V.
  destruct (records_decomposition (skipn 16 file)) as (recs & tail & Hb & Hr & Ht).
  exists recs, tail. split; [exact Hb|]. split; [exact Hr|]. split; [exact Ht|].
  rewrite (parse_valid now file recs tail st V Hb Hr Ht).
  cbn [fst snd app_parser connections disconnections advertisements
       gatt_operations printed app].
  unfold in_file_order.
  split; [reflexivity|].
  split; [f_equal; now apply records_events_field|].
  split; [f_equal; now apply records_events_field|].
  split; [f_equal; now apply records_events_field|].
  split; [f_equal; now apply records_events_field|].
  intros k r Hk.
  assert (Hc : complete_record r).
  { rewrite Forall_forall in Hr. apply Hr. eapply nth_error_In; eassumption. }
  pose proof (header_ts_range (rec_header r) (proj1 Hc)) as Hts.
  split; [exact Hts|]. intros t ->.
  destruct (proj1 (record_events_ok now k r Hc)) as (_ & _ & C & D & A & G).
  unfold header_timestamp. rewrite <- record_timestamp_spec by lia.
  rewrite Forall_forall in C, D, A, G.
  repeat split; intros e He; [now apply C | now apply D | now apply A | now apply G].
Qed.

Lemma events_in_file_order_with_record_timestamp_witness :
  valid_header (sample_header ++ record_bytes sample_connection_record
                  ++ record_bytes sample_far_record ++ sample_cut_tail)
  /\ exists recs tail,
       skipn 16 (sample_header ++ record_bytes sample_connection_record
                   ++ record_bytes sample_far_record ++ sample_cut_tail)
       = flat_map record_bytes recs ++ tail
       /\ Forall complete_record recs /\ truncated tail.
Proof.
  assert (V : valid_header (sample_header ++ record_bytes sample_connection_record
                              ++ record_bytes sample_far_record ++ sample_cut_tail)).
  { split; [vm_compute; discriminate | reflexivity]. }
  split; [exact V|].
  destruct (events_in_file_order_with_record_timestamp sample_now _ init V)
    as (recs & tail & Hb & Hr & Ht & _).
  exists recs, tail. auto.
Defined.

(** C3 as the specification words it fails: a record in full whose offset is
    2^63 microseconds gives rise to a disconnection whose timestamp is the
    reading of the wall clock, not the epoch plus the offset. *)
Lemma timestamp_beyond_datetime_counterexample :
  complete_record sample_far_record
  /\ header_ts (rec_header sample_far_record) = 2 ^ 63
  /\ fst (parse sample_now (sample_header ++ record_bytes sample_far_record) init)
     = Ok tt
  /\ map disc_timestamp
       (disconnections
          (snd (parse sample_now (sample_header ++ record_bytes sample_far_record)
                  init)))
     = [sample_now 0%nat]
  /\ sample_now 0%nat <> header_timestamp (rec_header sample_far_record).
Proof.
  split; [split; reflexivity|]. split; [reflexivity|].
  split; [vm_compute; reflexivity|]. split; [vm_compute; reflexivity|].
  vm_compute. discriminate.
Qed.

Lemma valid_header_app (header body : bytes) :
  len header = 16 -> firstn 8 header = BTSNOOP_MAGIC ->
  valid_header (header ++ body)
  /\ firstn 16 (header ++ body) = header
  /\ skipn 16 (header ++ body) = body.
Proof.
  intros H16 Hm. pose proof (len_nonneg body) as Hb.
  split; [split|split].
  - rewrite len_app. lia.
  - rewrite firstn_app. unfold len in H16.
    replace (8 - List.length header)%nat with 0%nat by lia.
    cbn [firstn]. now rewrite app_nil_r.
  - change 16%nat with (Z.to_nat 16). now apply firstn_len_app.
  - change 16%nat with (Z.to_nat 16). now apply skipn_len_app.
Qed.

(** C5: [parse] raises [ValueError] exactly on the files of fewer than 16
    bytes and on the files whose first 8 bytes are not the magic constant;
    on every file of at least 16 bytes that begins with the magic constant
    it returns, whatever the version and the link type of the header say,
    and so does not raise. *)
Theorem parse_format_error_iff (now : nat -> datetime) (file : bytes) (st : Parser) :
  ((exists what, fst (parse now file st) = Raise (ValueError what))
   <-> (len file < 16 \/ firstn 8 file <> BTSNOOP_MAGIC))
  /\ (16 <= len file -> firstn 8 file = BTSNOOP_MAGIC ->
      fst (parse now file st) = Ok tt).
Proof.
  destruct (parse_outcome now file st) as [(Hs & E)|[(Hl & Hm & E)|((Hl & Hm) & E)]].
  - split; [split|intros; lia].
    + intros _. now left.
    + intros _. exists FileTooSmall. now rewrite E.
  - split; [split|intros; contradiction].
    + intros _. now right.
    + intros _. exists (InvalidMagic (firstn 8 file)). now rewrite E.
  - split; [split|intros; assumption].
    + intros (what & Hw). rewrite E in Hw. discriminate.
    + intros [H|H]; [lia|contradiction].
Qed.

Lemma parse_format_error_iff_witness :
  (16 <= len (sample_odd_header ++ record_bytes sample_connection_record)
   /\ firstn 8 (sample_odd_header ++ record_bytes sample_connection_record)
      = BTSNOOP_MAGIC)
  /\ fst (parse sample_now (sample_odd_header ++ record_bytes sample_connection_record)
            init)
     = Ok tt.
Proof.
  assert (H : 16 <= len (sample_odd_header ++ record_bytes sample_connection_record)
              /\ firstn 8 (sample_odd_header ++ record_bytes sample_connection_record)
                 = BTSNOOP_MAGIC).
  { split; [vm_compute; discriminate | reflexivity]. }
  split; [exact H|].
  exact (proj2 (parse_format_error_iff sample_now _ init) (proj1 H) (proj2 H)).
Defined.

(** C10: when [parse] raises [ValueError] on a parser fresh from
    [__init__], the packet list and the four collections are still empty,
    nothing is printed, and the parser is as [__init__] left it. *)
Theorem format_error_leaves_parser_empty (now : nat -> datetime) (file : bytes)
    (what : value_error) :
  fst (parse now file init) = Raise (ValueError what) ->
  snd (parse now file init) = init
  /\ packets (snd (parse now file init)) = []
  /\ connections (snd (parse now file init)) = []
  /\ disconnections (snd (parse now file init)) = []
  /\ advertisements (snd (parse now file init)) = []
  /\ gatt_operations (snd (parse now file init)) = [].
Proof.
  intros H.
  assert (E : snd (parse now file init) = init).
  { destruct (parse_outcome now file init) as [(_ & E)|[(_ & _ & E)|(_ & E)]].
    - now rewrite E.
    - now rewrite E.
    - rewrite E in H. discriminate. }
  rewrite E. repeat split; reflexivity.
Qed.

Lemma format_error_leaves_parser_empty_witness :
  fst (parse sample_now (x00 :: sample_header) init)
  = Raise (ValueError (InvalidMagic (firstn 8 (x00 :: sample_header))))
  /\ snd (parse sample_now (x00 :: sample_header) init) = init.
Proof.
  assert (H : fst (parse sample_now (x00 :: sample_header) init)
              = Raise (ValueError (InvalidMagic (firstn 8 (x00 :: sample_header)))))
    by reflexivity.
  split; [exact H|].
  exact (proj1 (format_error_leaves_parser_empty sample_now (x00 :: sample_header) _ H)).
Defined.

(** * Further properties *)

(** ** The packets of a capture *)

Lemma flags_direction (flags : Z) :
  negb (Z.land flags 0x01 =? 0) = Z.odd flags.
Proof.
  change 0x01 with (Z.ones 1). rewrite Z.land_ones by lia.
  change (2 ^ 1) with 2. rewrite Zmod_odd.
  now destruct (Z.odd flags).
Qed.

Lemma slice_from_cons (b : byte) (l : bytes) : slice_from (b :: l) 1 = l.
Proof.
  unfold slice_from. rewrite clamp_nonneg by lia. rewrite len_cons.
  pose proof (len_nonneg l). now replace (Z.to_nat (Z.min 1 (1 + len l))) with 1%nat by lia.
Qed.

Lemma handle_record_packets (now : nat -> datetime) (k : nat) (r : RawRecord) :
  packets (snd (handle_record now k r init)) = record_packet now k r.
Proof.
  unfold handle_record, record_packet, record_direction. cbv zeta.
  rewrite flags_direction.
  destruct (rec_payload r) as [|tag body].
  - reflexivity.
  - rewrite len_cons. pose proof (len_nonneg body) as Hl.
    replace (1 + len body >? 0) with true by (symmetry; apply Z.gtb_lt; lia).
    rewrite bind_getitem by (rewrite len_cons; lia).
    change (nth (Z.to_nat 0) (tag :: body) x00) with tag.
    rewrite slice_from_cons.
    match goal with |- context [_process_packet ?p] =>
      destruct (_process_packet_emits p) as (d & (P & _) & Hd)
    end.
    unfold bind, append_packet, modify. rewrite Hd.
    cbn [snd app_parser packets init app]. now rewrite P.
Qed.

Lemma records_packets (now : nat -> datetime) (recs : list RawRecord) :
  Forall complete_record recs ->
  forall k,
    packets (records_events now k recs)
    = flat_map (fun kr => record_packet now (fst kr) (snd kr)) (numbered k recs).
Proof.
  induction 1 as [|r recs Hr _ IH]; intros k.
  - reflexivity.
  - cbn [records_events]. rewrite numbered_cons. cbn [flat_map fst snd].
    unfold app_parser at 1. cbn [packets]. rewrite IH.
    now rewrite record_events_handle, handle_record_packets by assumption.
Qed.

Lemma record_packets_count (now : nat -> datetime) (recs : list RawRecord) :
  forall k,
    List.length (flat_map (fun kr => record_packet now (fst kr) (snd kr))
                   (numbered k recs))
    = List.length (filter (fun r => 0 <? len (rec_payload r)) recs).
Proof.
  induction recs as [|r recs IH]; intros k.
  - reflexivity.
  - rewrite numbered_cons. cbn [flat_map fst snd filter].
    rewrite length_app, IH. unfold record_packet.
    destruct (rec_payload r) as [|tag body].
    + reflexivity.
    + rewrite len_cons. pose proof (len_nonneg body).
      replace (0 <? 1 + len body) with true by (symmetry; apply Z.ltb_lt; lia).
      reflexivity.
Qed.

(** The packet list after [parse]: what it held before, followed by one
    packet for every record in full with a payload that is not empty, in
    the order of the file; the type of the packet is the first byte of the
    payload, its body the rest, its direction "received" where the flags of
    the record are odd and "sent" where they are even.  A record with an
    empty payload leaves no packet. *)
Theorem packets_of_capture (now : nat -> datetime) (header : bytes)
    (recs : list RawRecord) (tail : bytes) (st : Parser) :
  len header = 16 -> firstn 8 header = BTSNOOP_MAGIC ->
  Forall complete_record recs -> truncated tail ->
  packets (snd (parse now (header ++ flat_map record_bytes recs ++ tail) st))
  = packets st
    ++ flat_map (fun kr => record_packet now (fst kr) (snd kr)) (numbered 0 recs)
  /\ List.length
       (packets (snd (parse now (header ++ flat_map record_bytes recs ++ tail) st)))
     = (List.length (packets st)
        + List.length (filter (fun r => (0 <? len (rec_payload r))%Z) recs))%nat.
Proof.
  intros H16 Hm Hr Ht.
  destruct (valid_header_app header (flat_map record_bytes recs ++ tail) H16 Hm)
    as (V & Hf & Hs).
  rewrite (parse_valid now _ recs tail st V Hs Hr Ht).
  cbn [snd app_parser packets printed app].
  rewrite records_packets by assumption.
  split; [reflexivity|]. now rewrite length_app, record_packets_count.
Qed.

Lemma packets_of_capture_witness :
  packets
    (snd (parse sample_now
            (sample_header
               ++ flat_map record_bytes [sample_connection_record; sample_far_record]
               ++ sample_cut_tail) init))
  = packets init
    ++ flat_map (fun kr => record_packet sample_now (fst kr) (snd kr))
         (numbered 0 [sample_connection_record; sample_far_record]).
Proof.
  apply (packets_of_capture sample_now sample_header
           [sample_connection_record; sample_far_record] sample_cut_tail init).
  - reflexivity.
  - reflexivity.
  - repeat constructor.
  - right. vm_compute. reflexivity.
Defined.

(** ** [parse] and what the parser held before *)

(** [parse] only appends: how it ends and what it appends are the same
    whatever the parser holds when it is called, so a second call on the
    same parser leaves the events of the file twice. *)
Theorem parse_appends (now : nat -> datetime) (file : bytes) (st : Parser) :
  parse now file st
  = (fst (parse now file init), app_parser st (snd (parse now file init))).
Proof.
  destruct (parse_outcome now file st) as [(Hs & E)|[(Hl & Hm & E)|(V & _)]].
  - rewrite E, (parse_too_small now file init Hs). cbn [fst snd].
    now rewrite app_parser_init_r.
  - rewrite E, (parse_bad_magic now file init Hl Hm). cbn [fst snd].
    now rewrite app_parser_init_r.
  - destruct (records_decomposition (skipn 16 file)) as (recs & tail & Hb & Hr & Ht).
    rewrite (parse_valid now file recs tail st V Hb Hr Ht).
    rewrite (parse_valid now file recs tail init V Hb Hr Ht). cbn [fst snd].
    now rewrite app_parser_init_l.
Qed.

(** ** The warnings about the file header *)

(** What [parse] prints on a file with a header it accepts: a warning with
    the version of the header where that is not 1, then a warning with its
    link type where that is not 1002, and nothing else, whatever the records
    hold; so it prints nothing exactly when the version is 1 and the link
    type 1002. *)
Theorem parse_prints_header_warnings (now : nat -> datetime) (header : bytes)
    (recs : list RawRecord) (tail : bytes) (st : Parser) :
  len header = 16 -> firstn 8 header = BTSNOOP_MAGIC ->
  Forall complete_record recs -> truncated tail ->
  stdout (snd (parse now (header ++ flat_map record_bytes recs ++ tail) st))
  = stdout st
    ++ (if be_uint (slice header 8 12) =? 1 then []
        else [("Warning: Unexpected version " ++ fmt_int (be_uint (slice header 8 12))
                 ++ ", expected 1")%string])
    ++ (if be_uint (slice header 12 16) =? 1002 then []
        else [("Warning: Unexpected datalink type "
                 ++ fmt_int (be_uint (slice header 12 16))
                 ++ ", expected 1002")%string])
  /\ (stdout (snd (parse now (header ++ flat_map record_bytes recs ++ tail) st))
      = stdout st
      <-> be_uint (slice header 8 12) = 1 /\ be_uint (slice header 12 16) = 1002).
Proof.
  intros H16 Hm Hr Ht.
  destruct (valid_header_app header (flat_map record_bytes recs ++ tail) H16 Hm)
    as (V & Hf & Hs).
  rewrite (parse_valid now _ recs tail st V Hs Hr Ht), Hf.
  cbn [snd app_parser stdout printed].
  rewrite (proj1 (records_events_ok now recs Hr 0)), app_nil_r.
  unfold header_warnings, BTSNOOP_VERSION, DATALINK_HCI.
  change (fmt_int 1) with "1". change (fmt_int 1002) with "1002".
  destruct (be_uint (slice header 8 12) =? 1) eqn:Ev;
    destruct (be_uint (slice header 12 16) =? 1002) eqn:Ed; cbn [negb app];
    (split; [reflexivity|]); cmp_to_prop.
  - rewrite app_nil_r. split; [intros _; now split|reflexivity].
  - split; [intros H|intros (_ & H); contradiction].
    apply (f_equal (@List.length string)) in H. rewrite length_app in H.
    simpl in H. lia.
  - split; [intros H|intros (H & _); contradiction].
    apply (f_equal (@List.length string)) in H. rewrite length_app in H.
    simpl in H. lia.
  - split; [intros H|intros (H & _); contradiction].
    apply (f_equal (@List.length string)) in H. rewrite length_app in H.
    simpl in H. lia.
Qed.

Lemma parse_prints_header_warnings_witness :
  stdout (snd (parse sample_now
                 (sample_odd_header ++ flat_map record_bytes [sample_connection_record]
                    ++ sample_cut_tail) init))
  = ["Warning: Unexpected version 7, expected 1";
     "Warning: Unexpected datalink type 5, expected 1002"].
Proof.
  refine (eq_trans
    (proj1 (parse_prints_header_warnings sample_now sample_odd_header
              [sample_connection_record] sample_cut_tail init _ _ _ _)) _).
  - reflexivity.
  - reflexivity.
  - repeat constructor.
  - right. vm_compute. reflexivity.
  - reflexivity.
Defined.

(** ** The advertisements of a report *)

Lemma adv_report_loop_walk (pkt : BtsnoopPacket) (params : bytes) (n : nat) :
  forall offset st, 0 <= offset ->
  adv_report_loop pkt params n offset st
  = (Ok tt,
     app_parser st
       (only_advertisements (walk_reports (pkt_timestamp pkt) params n offset))).
Proof.
  induction n as [|n IH]; intros offset st Hoff.
  - cbn [adv_report_loop walk_reports]. unfold ret. fold init.
    change (only_advertisements []) with init. now rewrite app_parser_init_r.
  - cbn [walk_reports].
    pose proof (u8_range (nth (Z.to_nat (offset + 8)) params x00)) as Hdl.
    destruct (offset + 9 <=? len params) eqn:E9; cbn [andb].
    + apply Z.leb_le in E9.
      destruct (offset + 9 + u8 (nth (Z.to_nat (offset + 8)) params x00)
                <=? len params) eqn:Ed.
      * apply Z.leb_le in Ed. rewrite adv_report_loop_step by assumption.
        unfold bind. rewrite append_advertisement_appends, IH by lia.
        now rewrite app_parser_assoc.
      * apply Z.leb_gt in Ed. rewrite adv_report_loop_cut by assumption.
        unfold ret. change (only_advertisements []) with init.
        now rewrite app_parser_init_r.
    + apply Z.leb_gt in E9. rewrite adv_report_loop_short by assumption.
      unfold ret. change (only_advertisements []) with init.
      now rewrite app_parser_init_r.
Qed.

Lemma walk_reports_length (t : datetime) (params : bytes) (n : nat) :
  forall offset, (List.length (walk_reports t params n offset) <= n)%nat.
Proof.
  induction n as [|n IH]; intros offset; cbn [walk_reports].
  - reflexivity.
  - destruct (_ && _); cbn [List.length]; [specialize (IH
      (offset + 9 + u8 (nth (Z.to_nat (offset + 8)) params x00) + 1)); lia | lia].
Qed.

Lemma walk_reports_fit (t : datetime) (params : bytes) (n : nat) :
  forall offset,
    subrecords_fit params n offset ->
    List.length (walk_reports t params n offset) = n.
Proof.
  induction n as [|n IH]; intros offset H; cbn [walk_reports].
  - reflexivity.
  - destruct H as (H9 & Hd & Hrest).
    replace (offset + 9 <=? len params) with true by (symmetry; apply Z.leb_le; lia).
    replace (_ <=? len params) with true by (symmetry; apply Z.leb_le; lia).
    cbn [andb List.length]. now rewrite IH.
Qed.

Lemma walk_reports_data (t : datetime) (params : bytes) (n : nat) :
  forall offset, 0 <= offset ->
    Forall (fun a => len (adv_data a) <= 255 /\ adv_timestamp a = t)
           (walk_reports t params n offset).
Proof.
  induction n as [|n IH]; intros offset Hoff; cbn [walk_reports].
  - constructor.
  - pose proof (u8_range (nth (Z.to_nat (offset + 8)) params x00)) as Hdl.
    destruct (_ && _); [|constructor].
    constructor; [|apply IH; lia].
    unfold report_at. cbn [adv_data adv_timestamp]. split; [|reflexivity].
    rewrite len_slice by lia. lia.
Qed.

(** The advertisements of an advertising report: the decoder returns and
    appends the advertisements of the sub-records, one after the other from
    offset 2, up to the first whose prefix or data do not fit; they are never
    more than the count byte says, and exactly as many where the prefix and
    the data of every declared sub-record fit; each holds at most 255 bytes
    of data and the timestamp of the packet. *)
Theorem adv_report_count (pkt : BtsnoopPacket) (params : bytes) (count : byte)
    (st : Parser) :
  nth_error params 0 = Some x02 -> nth_error params 1 = Some count ->
  exists l,
    _process_le_meta_event pkt params st = (Ok tt, app_parser st (only_advertisements l))
    /\ l = walk_reports (pkt_timestamp pkt) params (Z.to_nat (u8 count)) 2
    /\ (List.length l <= Z.to_nat (u8 count))%nat
    /\ (subrecords_fit params (Z.to_nat (u8 count)) 2 ->
        List.length l = Z.to_nat (u8 count))
    /\ Forall (fun a => len (adv_data a) <= 255
                        /\ adv_timestamp a = pkt_timestamp pkt) l.
Proof.
  intros H0 H1. eexists. split; [|split; [reflexivity|]].
  - rewrite (le_meta_adv_report pkt params count H0 H1).
    apply adv_report_loop_walk. lia.
  - split; [apply walk_reports_length|].
    split; [apply walk_reports_fit|]. apply walk_reports_data. lia.
Qed.

Lemma adv_report_count_witness :
  exists l,
    _process_le_meta_event (sample_packet []) sample_two_reports_params init
    = (Ok tt, app_parser init (only_advertisements l))
    /\ (List.length l <= Z.to_nat (u8 x02))%nat.
Proof.
  destruct (adv_report_count (sample_packet []) sample_two_reports_params x02 init)
    as (l & H & _ & Hl & _); [reflexivity | reflexivity |].
  exists l. split; assumption.
Defined.

(** ** What each kind of packet gives rise to *)

Ltac kind_nothing := apply emits_ret; exists NoEvent; split; [reflexivity|exact I].

Ltac kind_connection :=
  match goal with |- Emits (append_connection ?c) _ =>
    apply emits_append_connection; exists (OneConnection c);
    split; reflexivity
  end.

Ltac kind_disconnection :=
  match goal with |- Emits (append_disconnection ?e) _ =>
    apply emits_append_disconnection; exists (OneDisconnection e);
    split; [reflexivity|exact I]
  end.

Lemma emits_kind_weaken (c : M unit) (K K' : emitted -> Prop) :
  EmitsKind c K -> (forall ev, K ev -> K' ev) -> EmitsKind c K'.
Proof.
  intros H HK. eapply emits_weaken; [exact H|].
  intros d (ev & E & Hev). exists ev. auto.
Qed.

Lemma _process_le_meta_event_kind (pkt : BtsnoopPacket) (params : bytes) :
  EmitsKind (_process_le_meta_event pkt params) (event_kinds (pkt_direction pkt)).
Proof.
  unfold EmitsKind, _process_le_meta_event.
  run_step; [kind_nothing|]. run_step.
  run_step; [run_step; [|kind_nothing]|].
  { do 4 run_step. kind_connection. }
  run_step; [run_step; [|kind_nothing]|].
  { do 4 run_step. kind_connection. }
  run_step; [|kind_nothing].
  run_step; [kind_nothing|]. run_step.
  pose proof (u8_range (nth (Z.to_nat 1) params x00)) as Hc.
  eexists. split; [|intros st; apply adv_report_loop_walk; lia].
  eexists (Advertisements _). split; [reflexivity|]. cbn [event_kinds].
  etransitivity; [apply walk_reports_length|lia].
Qed.

Lemma _process_hci_event_kind (pkt : BtsnoopPacket) :
  EmitsKind (_process_hci_event pkt) (event_kinds (pkt_direction pkt)).
Proof.
  unfold EmitsKind, _process_hci_event.
  run_step; [kind_nothing|]. do 2 run_step.
  pose proof (u8_range (nth (Z.to_nat 1) (pkt_data pkt) x00)) as Hpl.
  set (param_len := u8 (nth (Z.to_nat 1) (pkt_data pkt) x00)) in *.
  run_step; [run_step; [|kind_nothing]|].
  { run_step. kind_connection. }
  run_step; [run_step; [|kind_nothing]|].
  { do 2 run_step. kind_connection. }
  run_step; [run_step; [|kind_nothing]|].
  { do 3 run_step. kind_disconnection. }
  run_step; [|kind_nothing].
  apply _process_le_meta_event_kind.
Qed.

Lemma _process_hci_command_kind (pkt : BtsnoopPacket) :
  EmitsKind (_process_hci_command pkt) (command_kinds (pkt_direction pkt)).
Proof.
  unfold EmitsKind, _process_hci_command.
  run_step; [kind_nothing|]. do 2 run_step.
  pose proof (u8_range (nth (Z.to_nat 2) (pkt_data pkt) x00)) as Hpl.
  set (param_len := u8 (nth (Z.to_nat 2) (pkt_data pkt) x00)) in *.
  run_step; [run_step; [|kind_nothing]|].
  { kind_connection. }
  run_step; [run_step; [|kind_nothing]|].
  { kind_connection. }
  run_step; [run_step; [|kind_nothing]|kind_nothing].
  do 2 run_step. kind_disconnection.
Qed.

Lemma _process_att_kind (pkt : BtsnoopPacket) (att_data : bytes) :
  EmitsKind (_process_att pkt att_data) (acl_kinds (pkt_direction pkt)).
Proof.
  unfold EmitsKind, _process_att.
  run_step; [kind_nothing|]. run_step.
  destruct (dict_lookup ATT_OPCODES _) as [operation|]; [|kind_nothing].
  run_step.
  - apply andb_prop in Heqb0. destruct Heqb0 as [_ H3].
    rewrite (bind_unpack_le_H att_data 1 3) by side. rewrite !bind_ret.
    apply emits_append_gatt_operation. eexists (OneGattOperation _).
    split; reflexivity.
  - rewrite bind_ret. apply emits_append_gatt_operation.
    eexists (OneGattOperation _). split; reflexivity.
Qed.

Lemma _process_acl_data_kind (pkt : BtsnoopPacket) :
  EmitsKind (_process_acl_data pkt) (acl_kinds (pkt_direction pkt)).
Proof.
  unfold EmitsKind, _process_acl_data.
  run_step; [kind_nothing|]. run_step.
  match goal with |- context [slice _ 4 (4 + ?h)] =>
    pose proof (le_uint16_range (nth (Z.to_nat 2) (pkt_data pkt) x00)
                                (nth (Z.to_nat 2 + 1) (pkt_data pkt) x00)) as Hacl;
    set (acl_len := h) in *
  end.
  run_step; [kind_nothing|].
  do 2 run_step.
  run_step; [|kind_nothing].
  apply _process_att_kind.
Qed.

Lemma _process_packet_kind (pkt : BtsnoopPacket) :
  EmitsKind (_process_packet pkt) (kind_allowed pkt).
Proof.
  unfold _process_packet.
  destruct (pkt_packet_type pkt =? HCI_EVENT) eqn:Ee.
  { apply Z.eqb_eq in Ee.
    eapply emits_kind_weaken; [apply _process_hci_event_kind|].
    intros [ | c | e | l | g ] K; cbn in *; auto; contradiction. }
  destruct (pkt_packet_type pkt =? HCI_COMMAND) eqn:Ec.
  { apply Z.eqb_eq in Ec.
    eapply emits_kind_weaken; [apply _process_hci_command_kind|].
    intros [ | c | e | l | g ] K; cbn in *; auto; contradiction. }
  destruct (pkt_packet_type pkt =? HCI_ACL_DATA) eqn:Ea.
  { apply Z.eqb_eq in Ea.
    eapply emits_kind_weaken; [apply _process_acl_data_kind|].
    intros [ | c | e | l | g ] K; cbn in *; auto; contradiction. }
  unfold EmitsKind. kind_nothing.
Qed.

(** Every packet gives rise to nothing, to one connection, to one
    disconnection, to at most 255 advertisements or to one GATT operation,
    and to nothing besides: the decoder returns and appends just that.
    Connections and disconnections come from events and commands only,
    advertisements from events only, GATT operations from ACL data only;
    a connection and a GATT operation carry the direction of the packet. *)
Theorem packet_event_kinds (pkt : BtsnoopPacket) :
  exists ev,
    kind_allowed pkt ev
    /\ forall st, _process_packet pkt st = (Ok tt, app_parser st (parser_of ev)).
Proof.
  destruct (_process_packet_kind pkt) as (d & (ev & Hd & K) & Hrun).
  exists ev. split; [exact K|].
  intros st. rewrite Hrun. now rewrite Hd.
Qed.

(** ** What a record gives rise to *)

Lemma handle_record_kind (now : nat -> datetime) (k : nat) (r : RawRecord) :
  exists ev,
    snd (handle_record now k r init)
    = app_parser (mkParser (record_packet now k r) [] [] [] [] []) (parser_of ev)
    /\ match ev with
       | NoEvent => True
       | OneConnection c => conn_direction c = record_direction (rec_header r)
       | OneDisconnection _ => True
       | Advertisements l => (List.length l <= 255)%nat
       | OneGattOperation g => gatt_direction g = record_direction (rec_header r)
       end.
Proof.
  unfold handle_record, record_packet, record_direction. cbv zeta.
  rewrite flags_direction.
  destruct (rec_payload r) as [|tag body].
  - exists NoEvent. split; [reflexivity|exact I].
  - rewrite len_cons. pose proof (len_nonneg body) as Hl.
    replace (1 + len body >? 0) with true by (symmetry; apply Z.gtb_lt; lia).
    rewrite bind_getitem by (rewrite len_cons; lia).
    change (nth (Z.to_nat 0) (tag :: body) x00) with tag.
    rewrite slice_from_cons.
    match goal with |- context [_process_packet ?p] =>
      destruct (_process_packet_kind p) as (d & (ev & -> & K) & Hev)
    end.
    exists ev. unfold bind, append_packet, modify. rewrite Hev.
    split; [reflexivity|].
    destruct ev; cbn [kind_allowed pkt_direction] in K; try exact I; tauto.
Qed.

(** What a record in full gives rise to: its connections and its GATT
    operations carry the direction of the record, "received" where the
    flags of the header are odd and "sent" where they are even; and it
    gives rise to at most one connection, disconnection or GATT operation
    in all, and to at most 255 advertisements. *)
Theorem record_events_direction (now : nat -> datetime) (k : nat) (r : RawRecord) :
  complete_record r ->
  (forall c, In c (connections (record_events now k r)) ->
             conn_direction c = record_direction (rec_header r))
  /\ (forall g, In g (gatt_operations (record_events now k r)) ->
                gatt_direction g = record_direction (rec_header r))
  /\ (List.length (connections (record_events now k r))
      + List.length (disconnections (record_events now k r))
      + List.length (gatt_operations (record_events now k r)) <= 1)%nat
  /\ (List.length (advertisements (record_events now k r)) <= 255)%nat.
Proof.
  intros Hc. rewrite record_events_handle by assumption.
  destruct (handle_record_kind now k r) as (ev & -> & K).
  destruct ev as [ | c | e | l | g ];
    cbn [app_parser parser_of init only_connection only_disconnection
         only_advertisements connections disconnections advertisements
         gatt_operations app List.length In];
    repeat split; try lia; try tauto.
  - intros c' [<-|[]]. exact K.
  - intros g' [<-|[]]. exact K.
Qed.

Lemma record_events_direction_witness :
  complete_record sample_connection_record
  /\ forall c, In c (connections (record_events sample_now 0 sample_connection_record)) ->
               conn_direction c = record_direction (rec_header sample_connection_record).
Proof.
  assert (H : complete_record sample_connection_record) by (split; reflexivity).
  split; [exact H|].
  exact (proj1 (record_events_direction sample_now 0 sample_connection_record H)).
Defined.

(** Of the header of a record, [parse] uses the included length, bit 0 of
    the flags and the timestamp, and nothing else: two records in full with
    the same payload, the same timestamp field and flags of the same parity
    give rise to the same packet and the same events, whatever their
    original length, their drop count and the other bits of their flags. *)
Theorem record_header_fields_used (now : nat -> datetime) (k : nat)
    (r r' : RawRecord) :
  complete_record r -> complete_record r' ->
  rec_payload r = rec_payload r' ->
  header_ts (rec_header r) = header_ts (rec_header r') ->
  Z.odd (header_flags (rec_header r)) = Z.odd (header_flags (rec_header r')) ->
  record_events now k r = record_events now k r'.
Proof.
  intros Hc Hc' Hp Ht Hf. rewrite !record_events_handle by assumption.
  unfold handle_record. cbv zeta. rewrite !flags_direction.
  now rewrite Hp, Ht, Hf.
Qed.

Lemma record_header_fields_used_witness :
  record_events sample_now 0 sample_disconnection_record
  = record_events sample_now 0
      (mkRawRecord
         ([xff; xff; xff; xff; x00; x00; x00; x07; xab; xcd; xef; x03;
           x12; x34; x56; x78] ++ sample_ts)
         (x04 :: sample_disconnection_body)).
Proof.
  apply record_header_fields_used.
  - split; reflexivity.
  - split; reflexivity.
  - reflexivity.
  - reflexivity.
  - reflexivity.
Defined.

Lemma records_events_clock (now now' : nat -> datetime) (recs : list RawRecord) :
  Forall (fun r => complete_record r /\ header_ts (rec_header r) <= DATETIME_MAX) recs ->
  forall k, records_events now k recs = records_events now' k recs.
Proof.
  induction 1 as [|r recs (Hc & Ht) _ IH]; intros k.
  - reflexivity.
  - cbn [records_events]. rewrite IH.
    assert (E : record_events now k r = record_events now' k r); [|now rewrite E].
    rewrite !record_events_handle by assumption.
    unfold handle_record. cbv zeta.
    pose proof (be_uint_nonneg (slice (rec_header r) 16 24)) as Hn.
    fold (header_ts (rec_header r)) in Hn.
    rewrite !record_timestamp_spec by assumption.
    replace (header_ts (rec_header r) <=? DATETIME_MAX) with true
      by (symmetry; apply Z.leb_le; assumption).
    cbv iota. reflexivity.
Qed.

(** The wall clock matters only for timestamps beyond the dates that
    [datetime] holds: on a file all of whose records in full have an offset
    of at most 315537897599999999 microseconds, [parse] ends the same way
    and leaves the same parser whatever the clock reads. *)
Theorem parse_independent_of_clock (now now' : nat -> datetime) (header : bytes)
    (recs : list RawRecord) (tail : bytes) (st : Parser) :
  len header = 16 -> firstn 8 header = BTSNOOP_MAGIC ->
  Forall (fun r => complete_record r /\ header_ts (rec_header r) <= DATETIME_MAX) recs ->
  truncated tail ->
  parse now (header ++ flat_map record_bytes recs ++ tail) st
  = parse now' (header ++ flat_map record_bytes recs ++ tail) st.
Proof.
  intros H16 Hm Hr Ht.
  assert (Hc : Forall complete_record recs)
    by (eapply Forall_impl; [|exact Hr]; now intros r (H & _)).
  destruct (valid_header_app header (flat_map record_bytes recs ++ tail) H16 Hm)
    as (V & Hf & Hs).
  rewrite (parse_valid now _ recs tail st V Hs Hc Ht).
  rewrite (parse_valid now' _ recs tail st V Hs Hc Ht).
  now rewrite (records_events_clock now now' recs Hr).
Qed.

Lemma parse_independent_of_clock_witness :
  parse sample_now
    (sample_header
       ++ flat_map record_bytes [sample_connection_record; sample_disconnection_record]
       ++ sample_cut_tail) init
  = parse (fun k => Z.of_nat k)
      (sample_header
         ++ flat_map record_bytes [sample_connection_record; sample_disconnection_record]
         ++ sample_cut_tail) init.
Proof.
  apply parse_independent_of_clock.
  - reflexivity.
  - reflexivity.
  - constructor; [split; [split; reflexivity | vm_compute; discriminate]|].
    constructor; [split; [split; reflexivity | vm_compute; discriminate]|].
    constructor.
  - right. vm_compute. reflexivity.
Defined.

(** ** What is ignored *)

Lemma emits_nothing (c : M unit) :
  Emits c (fun d => d = init) -> forall st, c st = (Ok tt, st).
Proof.
  intros (d & -> & H) st. now rewrite H, app_parser_init_r.
Qed.

Lemma nth_error_at (l : bytes) (i : nat) :
  Z.of_nat i < len l -> nth_error l i = Some (nth i l x00).
Proof.
  intros H. apply nth_error_nth'. unfold len in H. lia.
Qed.

Lemma dict_lookup_none {V : Type} (d : list (Z * V)) (key : Z) :
  ~ In key (map fst d) -> dict_lookup d key = None.
Proof.
  induction d as [|[k v] d IH]; intros H; cbn [dict_lookup]; [reflexivity|].
  cbn [map fst In] in H.
  destruct (k =? key) eqn:E; [apply Z.eqb_eq in E; tauto|].
  apply IH. tauto.
Qed.

Ltac nothing := apply emits_ret; reflexivity.

(** Unknown tags are ignored at every level: the decoder returns and leaves
    the parser as it was for a packet type other than 1, 2 and 4 (so for
    SCO data, type 3), for an event code other than 3, 4, 5 and 0x3E, for a
    meta subevent other than 1, 2 and 0x0A (so for a connection update, 3,
    and an extended advertising report, 0x0D), for a command opcode other
    than 0x0405, 0x0406 and 0x200D, and for an ATT opcode that is not one
    of the thirteen of the table. *)
Theorem unknown_tags_ignored (pkt : BtsnoopPacket) (params : bytes) (st : Parser) :
  (pkt_packet_type pkt <> 4 -> pkt_packet_type pkt <> 1 -> pkt_packet_type pkt <> 2 ->
   _process_packet pkt st = (Ok tt, st))
  /\ ((forall code, nth_error (pkt_data pkt) 0 = Some code ->
         ~ In (u8 code) [3; 4; 5; 0x3E]) ->
      _process_hci_event pkt st = (Ok tt, st))
  /\ ((forall sub, nth_error params 0 = Some sub -> ~ In (u8 sub) [1; 2; 0x0A]) ->
      _process_le_meta_event pkt params st = (Ok tt, st))
  /\ ((forall lo hi, nth_error (pkt_data pkt) 0 = Some lo ->
                     nth_error (pkt_data pkt) 1 = Some hi ->
                     ~ In (le_uint16 lo hi) [0x0405; 0x0406; 0x200D]) ->
      _process_hci_command pkt st = (Ok tt, st))
  /\ ((forall op, nth_error params 0 = Some op ->
         ~ In (u8 op) [0x0A; 0x0B; 0x08; 0x09; 0x10; 0x11; 0x12; 0x13; 0x52;
                        0x16; 0x17; 0x18; 0x19]) ->
      _process_att pkt params st = (Ok tt, st)).
Proof.
  split; [|split; [|split; [|split]]].
  - intros H4 H1 H2. unfold _process_packet.
    replace (pkt_packet_type pkt =? HCI_EVENT) with false
      by (symmetry; now apply Z.eqb_neq).
    replace (pkt_packet_type pkt =? HCI_COMMAND) with false
      by (symmetry; now apply Z.eqb_neq).
    replace (pkt_packet_type pkt =? HCI_ACL_DATA) with false
      by (symmetry; now apply Z.eqb_neq).
    reflexivity.
  - intros H. apply emits_nothing. unfold _process_hci_event.
    run_step; [nothing|]. do 2 run_step. cmp_to_prop.
    specialize (H _ (nth_error_at (pkt_data pkt) 0 ltac:(lia))).
    nat_lits. cbn [In] in H.
    unfold EVT_CONNECTION_REQUEST, EVT_CONNECTION_COMPLETE,
      EVT_DISCONNECTION_COMPLETE, EVT_LE_META.
    repeat (run_step; [cmp_to_prop; exfalso; lia|]). nothing.
  - intros H. apply emits_nothing. unfold _process_le_meta_event.
    run_step; [nothing|]. run_step. cmp_to_prop.
    specialize (H _ (nth_error_at params 0 ltac:(lia))).
    nat_lits. cbn [In] in H.
    unfold LE_CONNECTION_COMPLETE, LE_ENHANCED_CONNECTION_COMPLETE, LE_ADV_REPORT.
    repeat (run_step; [cmp_to_prop; exfalso; lia|]). nothing.
  - intros H. apply emits_nothing. unfold _process_hci_command.
    run_step; [nothing|]. do 2 run_step. cmp_to_prop.
    specialize (H _ _ (nth_error_at (pkt_data pkt) 0 ltac:(lia))
                      (nth_error_at (pkt_data pkt) 1 ltac:(lia))).
    nat_lits. cbn [In] in H. change (0 + 1)%nat with 1%nat.
    unfold CMD_CREATE_CONNECTION, CMD_LE_CREATE_CONNECTION, CMD_DISCONNECT.
    repeat (run_step; [cmp_to_prop; exfalso; lia|]). nothing.
  - intros H. apply emits_nothing. unfold _process_att.
    run_step; [nothing|]. run_step. cmp_to_prop.
    specialize (H _ (nth_error_at params 0 ltac:(lia))). nat_lits.
    rewrite dict_lookup_none by exact H. nothing.
Qed.

Lemma unknown_tags_ignored_witness :
  _process_packet (mkBtsnoopPacket 0 "received" HCI_SCO_DATA [x01; x02; x03]) init
  = (Ok tt, init).
Proof.
  apply (proj1 (unknown_tags_ignored
                  (mkBtsnoopPacket 0 "received" HCI_SCO_DATA [x01; x02; x03]) [] init));
    vm_compute; discriminate.
Defined.

(** ** Parameter blocks that are too short *)

Lemma event_params_len (body : bytes) :
  2 <= len body ->
  len (slice body 2 (2 + u8 (nth 1 body x00))) = event_params_available body.
Proof.
  intros H. pose proof (u8_range (nth 1 body x00)).
  unfold event_params_available. rewrite len_slice by lia. lia.
Qed.

Lemma command_params_len (body : bytes) :
  3 <= len body ->
  len (slice body 3 (3 + u8 (nth 2 body x00))) = command_params_available body.
Proof.
  intros H. pose proof (u8_range (nth 2 body x00)).
  unfold command_params_available. rewrite len_slice by lia. lia.
Qed.

(** An event whose parameters are too few is dropped: the decoder returns
    and leaves the parser as it was when the body has fewer than 2 bytes,
    and when the parameters that are there to decode (as many as the length
    byte declares, or as many as follow it where they are fewer) are fewer
    than 10 for a connection request, 11 for a connection complete, 4 for a
    disconnection complete, and for a meta event fewer than 1, than 19 for
    an LE connection complete, than 31 for an enhanced one, than 2 for an
    advertising report. *)
Theorem short_event_dropped (pkt : BtsnoopPacket) (st : Parser) :
  (len (pkt_data pkt) < 2
   \/ (u8 (nth 0 (pkt_data pkt) x00) = 4 /\ event_params_available (pkt_data pkt) < 10)
   \/ (u8 (nth 0 (pkt_data pkt) x00) = 3 /\ event_params_available (pkt_data pkt) < 11)
   \/ (u8 (nth 0 (pkt_data pkt) x00) = 5 /\ event_params_available (pkt_data pkt) < 4)
   \/ (u8 (nth 0 (pkt_data pkt) x00) = 0x3E
       /\ (event_params_available (pkt_data pkt) < 1
           \/ (u8 (nth 2 (pkt_data pkt) x00) = 1
               /\ event_params_available (pkt_data pkt) < 19)
           \/ (u8 (nth 2 (pkt_data pkt) x00) = 0x0A
               /\ event_params_available (pkt_data pkt) < 31)
           \/ (u8 (nth 2 (pkt_data pkt) x00) = 2
               /\ event_params_available (pkt_data pkt) < 2)))) ->
  _process_hci_event pkt st = (Ok tt, st).
Proof.
  intros H. apply emits_nothing. unfold _process_hci_event.
  run_step; [nothing|]. do 2 run_step. cmp_to_prop. nat_lits.
  pose proof (event_params_len (pkt_data pkt) Heqb) as Hlen.
  pose proof (u8_range (nth 1 (pkt_data pkt) x00)) as Hpl.
  set (params := slice (pkt_data pkt) 2 (2 + u8 (nth 1 (pkt_data pkt) x00))) in *.
  unfold EVT_CONNECTION_REQUEST, EVT_CONNECTION_COMPLETE,
    EVT_DISCONNECTION_COMPLETE, EVT_LE_META.
  run_step; [run_step; [cmp_to_prop; exfalso; lia|nothing]|].
  run_step; [run_step; [cmp_to_prop; exfalso; lia|nothing]|].
  run_step; [run_step; [cmp_to_prop; exfalso; lia|nothing]|].
  run_step; [|nothing].
  unfold _process_le_meta_event.
  run_step; [nothing|]. cmp_to_prop.
  rewrite (bind_getitem params 0) by lia. nat_lits.
  assert (Hsub : nth 0 params x00 = nth 2 (pkt_data pkt) x00).
  { unfold params. rewrite (nth_slice (pkt_data pkt) 2 _ 0) by (unfold event_params_available in *; lia).
    reflexivity. }
  rewrite Hsub.
  unfold LE_CONNECTION_COMPLETE, LE_ENHANCED_CONNECTION_COMPLETE, LE_ADV_REPORT.
  run_step; [run_step; [cmp_to_prop; exfalso; lia|nothing]|].
  run_step; [run_step; [cmp_to_prop; exfalso; lia|nothing]|].
  run_step; [|nothing].
  run_step; [nothing|]. cmp_to_prop. exfalso. lia.
Qed.

Lemma short_event_dropped_witness :
  _process_hci_event
    (mkBtsnoopPacket 0 "received" HCI_EVENT
       [x04; x0a; x01; x02; x03; x04; x05; x06; x00; x00; x00]) init
  = (Ok tt, init).
Proof.
  apply short_event_dropped. right. left. vm_compute. split; reflexivity.
Defined.

(** A command whose parameters are too few is dropped: the decoder returns
    and leaves the parser as it was when the body has fewer than 3 bytes,
    and when the parameters that are there to decode are fewer than 6 for a
    create connection, 8 for an LE create connection, 3 for a disconnect. *)
Theorem short_command_dropped (pkt : BtsnoopPacket) (st : Parser) :
  (len (pkt_data pkt) < 3
   \/ (le_uint16 (nth 0 (pkt_data pkt) x00) (nth 1 (pkt_data pkt) x00) = 0x0405
       /\ command_params_available (pkt_data pkt) < 6)
   \/ (le_uint16 (nth 0 (pkt_data pkt) x00) (nth 1 (pkt_data pkt) x00) = 0x200D
       /\ command_params_available (pkt_data pkt) < 8)
   \/ (le_uint16 (nth 0 (pkt_data pkt) x00) (nth 1 (pkt_data pkt) x00) = 0x0406
       /\ command_params_available (pkt_data pkt) < 3)) ->
  _process_hci_command pkt st = (Ok tt, st).
Proof.
  intros H. apply emits_nothing. unfold _process_hci_command.
  run_step; [nothing|]. do 2 run_step. cmp_to_prop. nat_lits.
  change (0 + 1)%nat with 1%nat.
  pose proof (command_params_len (pkt_data pkt) Heqb) as Hlen.
  set (params := slice (pkt_data pkt) 3 (3 + u8 (nth 2 (pkt_data pkt) x00))) in *.
  unfold CMD_CREATE_CONNECTION, CMD_LE_CREATE_CONNECTION, CMD_DISCONNECT.
  run_step; [run_step; [cmp_to_prop; exfalso; lia|nothing]|].
  run_step; [run_step; [cmp_to_prop; exfalso; lia|nothing]|].
  run_step; [run_step; [cmp_to_prop; exfalso; lia|nothing]|nothing].
Qed.

Lemma short_command_dropped_witness :
  _process_hci_command
    (mkBtsnoopPacket 0 "sent" HCI_COMMAND [x06; x04; x03; x34; x12]) init
  = (Ok tt, init).
Proof.
  apply short_command_dropped. right. right. right. vm_compute. split; reflexivity.
Defined.

(** ** ACL data and the attribute protocol *)

Lemma has_handle_opcodes (opcode : Z) :
  att_opcode_has_handle opcode = existsb (Z.eqb opcode) [0x0A; 0x12; 0x52; 0x16].
Proof.
  unfold att_opcode_has_handle, ATT_READ_REQ, ATT_WRITE_REQ, ATT_WRITE_CMD,
    ATT_PREPARE_WRITE_REQ. cbn [existsb].
  destruct (opcode =? 0x0A), (opcode =? 0x12), (opcode =? 0x52), (opcode =? 0x16);
    reflexivity.
Qed.

(** An ATT PDU whose opcode is in the table: the decoder returns and
    appends one GATT operation with the name of the opcode, the timestamp
    and the direction of the packet and the bytes after the opcode as data;
    its handle is the little-endian 16-bit field after the opcode for a read
    request, a write request, a write command and a prepare-write request
    that two bytes at least follow, and there is no handle otherwise. *)
Theorem att_pdu_decoded (pkt : BtsnoopPacket) (op : byte) (rest : bytes)
    (name : string) (st : Parser) :
  dict_lookup ATT_OPCODES (u8 op) = Some name ->
  _process_att pkt (op :: rest) st
  = (Ok tt,
     app_parser st
       (parser_of
          (OneGattOperation
             (mkGattOperation (pkt_timestamp pkt) (pkt_direction pkt) name
                (att_handle op rest) rest)))).
Proof.
  intros Hname. unfold _process_att.
  rewrite len_cons. pose proof (len_nonneg rest) as Hl.
  replace (1 + len rest <? 1) with false by (symmetry; apply Z.ltb_ge; lia).
  rewrite bind_getitem by (rewrite len_cons; lia).
  change (nth (Z.to_nat 0) (op :: rest) x00) with op. rewrite Hname.
  rewrite slice_from_cons, has_handle_opcodes. unfold att_handle.
  assert (Happ : forall g, append_gatt_operation g st
                           = (Ok tt, app_parser st (parser_of (OneGattOperation g)))).
  { intros g. unfold append_gatt_operation, modify, app_parser. simpl.
    now rewrite !app_nil_r. }
  destruct (existsb (Z.eqb (u8 op)) [0x0A; 0x12; 0x52; 0x16]) eqn:Eh; cbn [andb].
  - destruct rest as [|lo [|hi rest']].
    + change (1 + len (@nil byte) >=? 3) with false. cbv iota. rewrite bind_ret. apply Happ.
    + change (1 + len [lo] >=? 3) with false. cbv iota. rewrite bind_ret. apply Happ.
    + rewrite !len_cons in *. pose proof (len_nonneg rest').
      replace (1 + (1 + (1 + len rest')) >=? 3) with true
        by (symmetry; apply Z.geb_le; lia).
      cbv iota.
      rewrite (bind_unpack_le_H (op :: lo :: hi :: rest') 1 3)
        by (rewrite ?len_cons; lia).
      rewrite !bind_ret. apply Happ.
  - rewrite bind_ret. destruct rest as [|lo [|hi rest']]; apply Happ.
Qed.

Lemma att_pdu_decoded_witness :
  _process_att (sample_packet []) (x12 :: [x2a; x00; x01]) init
  = (Ok tt,
     app_parser init
       (parser_of
          (OneGattOperation
             (mkGattOperation 0 "received" "Write Request"
                (att_handle x12 [x2a; x00; x01]) [x2a; x00; x01])))).
Proof.
  apply (att_pdu_decoded (sample_packet []) x12 [x2a; x00; x01] "Write Request" init).
  reflexivity.
Defined.

Lemma slice_clip {A : Type} (l : list A) (c d d' : Z) :
  0 <= c -> len l <= d -> len l <= d' -> slice l c d = slice l c d'.
Proof.
  intros Hc Hd Hd'. unfold slice. pose proof (len_nonneg l).
  rewrite !clamp_nonneg by lia.
  now rewrite (Z.min_r d (len l)), (Z.min_r d' (len l)) by lia.
Qed.

(** The ATT PDU of an ACL packet.  The decoder returns and leaves the parser
    as it was when the body has fewer than 8 bytes, when the ACL length
    (bytes 2-3) is below 4, and when the channel (bytes 6-7) is not 4.
    Otherwise it decodes as an ATT PDU the bytes of the body from offset 8
    on, clipped to the L2CAP length (bytes 4-5), to the ACL length and to
    what the body holds. *)
Theorem acl_att_pdu (pkt : BtsnoopPacket) (st : Parser) :
  (len (pkt_data pkt) < 8 -> _process_acl_data pkt st = (Ok tt, st))
  /\ (8 <= len (pkt_data pkt) -> acl_length (pkt_data pkt) < 4 ->
      _process_acl_data pkt st = (Ok tt, st))
  /\ (8 <= len (pkt_data pkt) -> l2cap_cid (pkt_data pkt) <> 4 ->
      _process_acl_data pkt st = (Ok tt, st))
  /\ (8 <= len (pkt_data pkt) -> 4 <= acl_length (pkt_data pkt) ->
      l2cap_cid (pkt_data pkt) = 4 ->
      _process_acl_data pkt st
      = _process_att pkt
          (slice (pkt_data pkt) 8
             (Z.min (8 + l2cap_length (pkt_data pkt)) (4 + acl_length (pkt_data pkt))))
          st).
Proof.
  assert (Hshort : len (pkt_data pkt) < 8 -> _process_acl_data pkt st = (Ok tt, st)).
  { intros H. apply emits_nothing. unfold _process_acl_data.
    run_step; [nothing|]. run_step.
    run_step; [nothing|]. cmp_to_prop. exfalso.
    match goal with H : 4 <= len (slice _ 4 ?b) |- _ =>
      destruct (Z_lt_ge_dec b 0) as [Hn|Hn];
      [unfold slice in H; rewrite (clamp_nonneg 4) in H by lia;
       unfold clamp in H;
       replace (b <? 0) with true in H by (symmetry; apply Z.ltb_lt; lia);
       rewrite len_firstn, len_skipn in H; lia
      |rewrite len_slice in H by lia; lia]
    end. }
  split; [exact Hshort|].
  pose proof (le_uint16_range (nth 2 (pkt_data pkt) x00) (nth 3 (pkt_data pkt) x00))
    as Hacl.
  pose proof (le_uint16_range (nth 4 (pkt_data pkt) x00) (nth 5 (pkt_data pkt) x00))
    as Hl2.
  fold (acl_length (pkt_data pkt)) in Hacl. fold (l2cap_length (pkt_data pkt)) in Hl2.
  assert (Hrun : 8 <= len (pkt_data pkt) -> 4 <= acl_length (pkt_data pkt) ->
    _process_acl_data pkt
    = if (l2cap_cid (pkt_data pkt) =? L2CAP_CID_ATT)
         && (len (slice (slice (pkt_data pkt) 4 (4 + acl_length (pkt_data pkt)))
                    4 (4 + l2cap_length (pkt_data pkt))) >? 0)
      then _process_att pkt
             (slice (slice (pkt_data pkt) 4 (4 + acl_length (pkt_data pkt)))
                4 (4 + l2cap_length (pkt_data pkt)))
      else ret tt).
  { intros H8 H4. unfold _process_acl_data.
    replace (len (pkt_data pkt) <? 4) with false by (symmetry; apply Z.ltb_ge; lia).
    rewrite (bind_unpack_le_H (pkt_data pkt) 2 4) by lia. nat_lits.
    change (2 + 1)%nat with 3%nat. fold (acl_length (pkt_data pkt)).
    set (acl_data := slice (pkt_data pkt) 4 (4 + acl_length (pkt_data pkt))).
    assert (Hla : len acl_data = Z.min (4 + acl_length (pkt_data pkt)) (len (pkt_data pkt)) - 4)
      by (unfold acl_data; rewrite len_slice; lia).
    replace (len acl_data <? 4) with false by (symmetry; apply Z.ltb_ge; lia).
    rewrite (bind_unpack_le_H acl_data 0 2) by lia.
    rewrite (bind_unpack_le_H acl_data 2 4) by lia. nat_lits.
    assert (E0 : nth 0 acl_data x00 = nth 4 (pkt_data pkt) x00)
      by (unfold acl_data; now rewrite (nth_slice (pkt_data pkt) 4 _ 0) by lia).
    assert (E1 : nth (0 + 1) acl_data x00 = nth 5 (pkt_data pkt) x00)
      by (unfold acl_data; now rewrite (nth_slice (pkt_data pkt) 4 _ (0 + 1)) by lia).
    assert (E2 : nth 2 acl_data x00 = nth 6 (pkt_data pkt) x00)
      by (unfold acl_data; now rewrite (nth_slice (pkt_data pkt) 4 _ 2) by lia).
    assert (E3 : nth (2 + 1) acl_data x00 = nth 7 (pkt_data pkt) x00)
      by (unfold acl_data; now rewrite (nth_slice (pkt_data pkt) 4 _ (2 + 1)) by lia).
    rewrite E0, E1, E2, E3. unfold l2cap_cid, l2cap_length.
    reflexivity. }
  split; [|split].
  - intros H8 H4. apply emits_nothing. unfold _process_acl_data.
    run_step; [nothing|]. run_step. nat_lits. change (2 + 1)%nat with 3%nat.
    fold (acl_length (pkt_data pkt)).
    run_step; [nothing|]. cmp_to_prop. exfalso.
    rewrite len_slice in * by lia. lia.
  - intros H8 Hcid.
    destruct (Z_lt_ge_dec (acl_length (pkt_data pkt)) 4) as [Hs|Hge].
    + apply emits_nothing. unfold _process_acl_data.
      run_step; [nothing|]. run_step. nat_lits. change (2 + 1)%nat with 3%nat.
      fold (acl_length (pkt_data pkt)).
      run_step; [nothing|]. cmp_to_prop. exfalso.
      rewrite len_slice in * by lia. lia.
    + rewrite Hrun by lia.
      replace (l2cap_cid (pkt_data pkt) =? L2CAP_CID_ATT) with false
        by (symmetry; apply Z.eqb_neq; exact Hcid).
      reflexivity.
  - intros H8 H4 Hcid. rewrite Hrun by lia.
    replace (l2cap_cid (pkt_data pkt) =? L2CAP_CID_ATT) with true
      by (symmetry; apply Z.eqb_eq; exact Hcid).
    cbn [andb].
    assert (E : slice (slice (pkt_data pkt) 4 (4 + acl_length (pkt_data pkt))) 4
                  (4 + l2cap_length (pkt_data pkt))
                = slice (pkt_data pkt) 8
                    (Z.min (8 + l2cap_length (pkt_data pkt))
                           (4 + acl_length (pkt_data pkt)))).
    { destruct (Z_le_gt_dec (8 + l2cap_length (pkt_data pkt))
                            (4 + acl_length (pkt_data pkt))) as [Hle|Hgt].
      - rewrite Z.min_l by lia. rewrite slice_slice by lia. f_equal; lia.
      - rewrite Z.min_r by lia.
        rewrite (slice_clip _ 4 (4 + l2cap_length (pkt_data pkt))
                   (acl_length (pkt_data pkt)))
          by (rewrite ?len_slice by lia; lia).
        rewrite slice_slice by lia. f_equal; lia. }
    rewrite E.
    destruct (len (slice (pkt_data pkt) 8
                     (Z.min (8 + l2cap_length (pkt_data pkt))
                            (4 + acl_length (pkt_data pkt)))) >? 0) eqn:Ee.
    + reflexivity.
    + rewrite Z.gtb_ltb in Ee. apply Z.ltb_ge in Ee. unfold _process_att.
      now replace (len _ <? 1) with true by (symmetry; apply Z.ltb_lt; lia).
Qed.

Lemma acl_att_pdu_witness :
  _process_acl_data
    (mkBtsnoopPacket 0 "sent" HCI_ACL_DATA
       [x40; x00; x07; x00; x03; x00; x04; x00; x0a; x2a; x00]) init
  = _process_att
      (mkBtsnoopPacket 0 "sent" HCI_ACL_DATA
         [x40; x00; x07; x00; x03; x00; x04; x00; x0a; x2a; x00])
      (slice [x40; x00; x07; x00; x03; x00; x04; x00; x0a; x2a; x00] 8
         (Z.min (8 + l2cap_length [x40; x00; x07; x00; x03; x00; x04; x00; x0a; x2a; x00])
                (4 + acl_length [x40; x00; x07; x00; x03; x00; x04; x00; x0a; x2a; x00])))
      init.
Proof.
  apply (proj2 (proj2 (proj2 (acl_att_pdu
           (mkBtsnoopPacket 0 "sent" HCI_ACL_DATA
              [x40; x00; x07; x00; x03; x00; x04; x00; x0a; x2a; x00]) init)))).
  - vm_compute. discriminate.
  - vm_compute. discriminate.
  - reflexivity.
Defined.

(** ** Connections *)

Lemma slice_window6 (pre : bytes) (b0 b1 b2 b3 b4 b5 : byte) (post : bytes)
    (i j : Z) :
  i = len pre -> j = i + 6 ->
  slice (pre ++ b0 :: b1 :: b2 :: b3 :: b4 :: b5 :: post) i j
  = [b0; b1; b2; b3; b4; b5].
Proof.
  intros -> ->. unfold slice. pose proof (len_nonneg pre). pose proof (len_nonneg post).
  rewrite !clamp_nonneg by lia. rewrite len_app, !len_cons.
  rewrite (Z.min_l (len pre)), (Z.min_l (len pre + 6)) by lia.
  replace (Z.to_nat (len pre + 6 - len pre)) with 6%nat by lia.
  unfold len. rewrite Nat2Z.id, skipn_app, Nat.sub_diag, skipn_all. reflexivity.
Qed.

(** A connection-complete event: code 3, parameter length, status, two
    bytes of handle, the six bytes of the address, the link type, the
    encryption byte.  The decoder returns and appends one connection whose
    address is the rendering of the six bytes, whose link type is "SCO"
    for a link-type byte 0 and "ACL" otherwise, and whose event type gives
    the status in decimal. *)
Theorem connection_complete_decoded (t : datetime) (dir : string) (ptype : Z)
    (plen status h0 h1 b0 b1 b2 b3 b4 b5 link enc : byte) (rest : bytes)
    (st : Parser) :
  11 <= u8 plen ->
  _process_hci_event
    (mkBtsnoopPacket t dir ptype
       (x03 :: plen :: status :: h0 :: h1 :: b0 :: b1 :: b2 :: b3 :: b4 :: b5
            :: link :: enc :: rest)) st
  = (Ok tt,
     app_parser st
       (only_connection
          (mkConnectionRequest t dir (render_address b0 b1 b2 b3 b4 b5)
             (if u8 link =? 0 then "SCO" else "ACL")
             ("complete (status=" ++ fmt_int (u8 status) ++ ")")%string))).
Proof.
  intros Hp. pose proof (u8_range plen) as Hr. pose proof (len_nonneg rest) as Hl.
  unfold _process_hci_event. cbn [pkt_data pkt_timestamp pkt_direction].
  set (data := x03 :: plen :: status :: h0 :: h1 :: b0 :: b1 :: b2 :: b3 :: b4 :: b5
                   :: link :: enc :: rest).
  assert (Hd : len data = 13 + len rest) by (unfold data; rewrite !len_cons; lia).
  replace (len data <? 2) with false by (symmetry; apply Z.ltb_ge; lia).
  rewrite !bind_getitem by lia. nat_lits.
  change (nth 0 data x00) with x03. change (nth 1 data x00) with plen.
  change (u8 x03 =? EVT_CONNECTION_REQUEST) with false.
  change (u8 x03 =? EVT_CONNECTION_COMPLETE) with true.
  cbv iota.
  set (params := slice data 2 (2 + u8 plen)).
  assert (Hlp : len params = Z.min (2 + u8 plen) (len data) - 2)
    by (unfold params; rewrite len_slice; lia).
  replace (len params >=? 11) with true by (symmetry; apply Z.geb_le; lia).
  rewrite (bind_getitem params 0) by lia.
  rewrite (bind_getitem params 9) by lia. nat_lits.
  unfold params.
  rewrite (nth_slice data 2 (2 + u8 plen) 0) by lia.
  rewrite (nth_slice data 2 (2 + u8 plen) 9) by lia.
  rewrite (slice_slice data 2 (2 + u8 plen) 3 9) by lia.
  nat_lits. cbn [Nat.add nth data].
  replace (slice data (2 + 3) (2 + 9)) with [b0; b1; b2; b3; b4; b5]
    by (symmetry; apply (slice_window6 [x03; plen; status; h0; h1]); reflexivity).
  rewrite format_bd_addr_six. apply append_connection_appends.
Qed.

Lemma connection_complete_decoded_witness :
  _process_hci_event
    (mkBtsnoopPacket 0 "received" HCI_EVENT
       (x03 :: x0b :: x00 :: x40 :: x00 :: x01 :: x02 :: x03 :: x04 :: x05 :: x06
            :: x01 :: x00 :: [])) init
  = (Ok tt,
     app_parser init
       (only_connection
          (mkConnectionRequest 0 "received" (render_address x01 x02 x03 x04 x05 x06)
             (if u8 x01 =? 0 then "SCO" else "ACL")
             ("complete (status=" ++ fmt_int (u8 x00) ++ ")")%string))).
Proof.
  apply connection_complete_decoded. vm_compute. discriminate.
Defined.

(** The two commands that open a connection.  A create-connection command
    (opcode 0x0405) with 6 parameter bytes at least gives a connection of
    link type "ACL" to the address rendered from parameter bytes 0 to 5; an
    LE create-connection command (opcode 0x200D) with 8 parameter bytes at
    least gives one of link type "LE" to the address rendered from parameter
    bytes 2 to 7. *)
Theorem create_connection_decoded (t : datetime) (dir : string) (ptype : Z)
    (plen p0 p1 b0 b1 b2 b3 b4 b5 : byte) (rest : bytes) (st : Parser) :
  (6 <= u8 plen ->
   _process_hci_command
     (mkBtsnoopPacket t dir ptype
        (x05 :: x04 :: plen :: b0 :: b1 :: b2 :: b3 :: b4 :: b5 :: rest)) st
   = (Ok tt,
      app_parser st
        (only_connection
           (mkConnectionRequest t dir (render_address b0 b1 b2 b3 b4 b5)
              "ACL" "create_connection_cmd"))))
  /\ (8 <= u8 plen ->
      _process_hci_command
        (mkBtsnoopPacket t dir ptype
           (x0d :: x20 :: plen :: p0 :: p1 :: b0 :: b1 :: b2 :: b3 :: b4 :: b5 :: rest)) st
      = (Ok tt,
         app_parser st
           (only_connection
              (mkConnectionRequest t dir (render_address b0 b1 b2 b3 b4 b5)
                 "LE" "le_create_connection_cmd")))).
Proof.
  pose proof (u8_range plen) as Hr. pose proof (len_nonneg rest) as Hl. split; intros Hp.
  - unfold _process_hci_command. cbn [pkt_data pkt_timestamp pkt_direction].
    set (data := x05 :: x04 :: plen :: b0 :: b1 :: b2 :: b3 :: b4 :: b5 :: rest).
    assert (Hd : len data = 9 + len rest) by (unfold data; rewrite !len_cons; lia).
    replace (len data <? 3) with false by (symmetry; apply Z.ltb_ge; lia).
    rewrite (bind_unpack_le_H data 0 2) by lia.
    rewrite (bind_getitem data 2) by lia. nat_lits.
    change (nth 0 data x00) with x05. change (nth (0 + 1) data x00) with x04.
    change (nth 2 data x00) with plen.
    change (le_uint16 x05 x04 =? CMD_CREATE_CONNECTION) with true. cbv iota.
    set (params := slice data 3 (3 + u8 plen)).
    assert (Hlp : len params = Z.min (3 + u8 plen) (len data) - 3)
      by (unfold params; rewrite len_slice; lia).
    replace (len params >=? 6) with true by (symmetry; apply Z.geb_le; lia).
    unfold params. rewrite (slice_slice data 3 (3 + u8 plen) 0 6) by lia.
    replace (slice data (3 + 0) (3 + 6)) with [b0; b1; b2; b3; b4; b5]
      by (symmetry; apply (slice_window6 [x05; x04; plen]); reflexivity).
    rewrite format_bd_addr_six. apply append_connection_appends.
  - unfold _process_hci_command. cbn [pkt_data pkt_timestamp pkt_direction].
    set (data := x0d :: x20 :: plen :: p0 :: p1 :: b0 :: b1 :: b2 :: b3 :: b4 :: b5 :: rest).
    assert (Hd : len data = 11 + len rest) by (unfold data; rewrite !len_cons; lia).
    replace (len data <? 3) with false by (symmetry; apply Z.ltb_ge; lia).
    rewrite (bind_unpack_le_H data 0 2) by lia.
    rewrite (bind_getitem data 2) by lia. nat_lits.
    change (nth 0 data x00) with x0d. change (nth (0 + 1) data x00) with x20.
    change (nth 2 data x00) with plen.
    change (le_uint16 x0d x20 =? CMD_CREATE_CONNECTION) with false.
    change (le_uint16 x0d x20 =? CMD_LE_CREATE_CONNECTION) with true. cbv iota.
    set (params := slice data 3 (3 + u8 plen)).
    assert (Hlp : len params = Z.min (3 + u8 plen) (len data) - 3)
      by (unfold params; rewrite len_slice; lia).
    replace (len params >=? 8) with true by (symmetry; apply Z.geb_le; lia).
    unfold params. rewrite (slice_slice data 3 (3 + u8 plen) 2 8) by lia.
    replace (slice data (3 + 2) (3 + 8)) with [b0; b1; b2; b3; b4; b5]
      by (symmetry; apply (slice_window6 [x0d; x20; plen; p0; p1]); reflexivity).
    rewrite format_bd_addr_six. apply append_connection_appends.
Qed.

Lemma create_connection_decoded_witness :
  _process_hci_command
    (mkBtsnoopPacket 0 "sent" HCI_COMMAND
       (x05 :: x04 :: x0d :: x01 :: x02 :: x03 :: x04 :: x05 :: x06 :: [x18; xcc]))
    init
  = (Ok tt,
     app_parser init
       (only_connection
          (mkConnectionRequest 0 "sent" (render_address x01 x02 x03 x04 x05 x06)
             "ACL" "create_connection_cmd"))).
Proof.
  apply (proj1 (create_connection_decoded 0 "sent" HCI_COMMAND x0d x00 x00
                  x01 x02 x03 x04 x05 x06 [x18; xcc] init)).
  vm_compute. discriminate.
Defined.

Lemma le_meta_connection_params (plen sub status hlo hhi role atype
    b0 b1 b2 b3 b4 b5 : byte) (rest : bytes) (need : Z) :
  need <= u8 plen -> need <= 12 + len rest -> 12 <= need ->
  let data := x3e :: plen :: sub :: status :: hlo :: hhi :: role :: atype
                  :: b0 :: b1 :: b2 :: b3 :: b4 :: b5 :: rest in
  let params := slice data 2 (2 + u8 plen) in
  need <= len params
  /\ nth 0 params x00 = sub /\ nth 1 params x00 = status
  /\ nth 2 params x00 = hlo /\ nth 3 params x00 = hhi
  /\ nth 4 params x00 = role /\ nth 5 params x00 = atype
  /\ slice params 6 12 = [b0; b1; b2; b3; b4; b5].
Proof.
  intros Hp Hr Hn data params.
  pose proof (u8_range plen) as Hu. pose proof (len_nonneg rest) as Hl.
  assert (Hd : len data = 14 + len rest) by (unfold data; rewrite !len_cons; lia).
  assert (Hlp : len params = Z.min (2 + u8 plen) (len data) - 2)
    by (unfold params; rewrite len_slice; lia).
  split; [lia|]. unfold params.
  rewrite (nth_slice data 2 _ 0), (nth_slice data 2 _ 1), (nth_slice data 2 _ 2),
    (nth_slice data 2 _ 3), (nth_slice data 2 _ 4), (nth_slice data 2 _ 5) by lia.
  repeat (split; [reflexivity|]).
  rewrite (slice_slice data 2 (2 + u8 plen) 6 12) by lia.
  apply (slice_window6 [x3e; plen; sub; status; hlo; hhi; role; atype]); reflexivity.
Qed.

(** The two LE connection-complete subevents of a meta event (code 0x3E):
    subevent 1 with 19 parameter bytes at least, subevent 0x0A with 31.  The
    parameters are the subevent, the status, the two bytes of the handle,
    the role, the address kind and the six bytes of the address.  The
    decoder returns and appends one connection whose address is the
    rendering of the six bytes; its link type names the role ("Master" for
    0, "Slave" otherwise) and the address kind (from the table, or
    "Unknown(N)" in decimal); its event type gives the status in decimal and
    the handle, masked to 12 bits, as four hexadecimal digits. *)
Theorem le_connection_complete_decoded (t : datetime) (dir : string) (ptype : Z)
    (plen status hlo hhi role atype b0 b1 b2 b3 b4 b5 : byte) (rest : bytes)
    (st : Parser) :
  (19 <= u8 plen -> 7 <= len rest ->
   _process_hci_event
     (mkBtsnoopPacket t dir ptype
        (x3e :: plen :: x01 :: status :: hlo :: hhi :: role :: atype
             :: b0 :: b1 :: b2 :: b3 :: b4 :: b5 :: rest)) st
   = (Ok tt,
      app_parser st
        (only_connection
           (mkConnectionRequest t dir (render_address b0 b1 b2 b3 b4 b5)
              ("LE (" ++ (if (u8 role =? 0)%Z then "Master" else "Slave") ++ ", "
                 ++ dict_get ADDR_TYPES (u8 atype)
                      ("Unknown(" ++ fmt_int (u8 atype) ++ ")") ++ ")")%string
              ("le_connection_complete (status=" ++ fmt_int (u8 status)
                 ++ ", handle=0x" ++ fmt_04X (Z.land (le_uint16 hlo hhi) 0x0FFF)
                 ++ ")")%string))))
  /\ (31 <= u8 plen -> 19 <= len rest ->
      _process_hci_event
        (mkBtsnoopPacket t dir ptype
           (x3e :: plen :: x0a :: status :: hlo :: hhi :: role :: atype
                :: b0 :: b1 :: b2 :: b3 :: b4 :: b5 :: rest)) st
      = (Ok tt,
         app_parser st
           (only_connection
              (mkConnectionRequest t dir (render_address b0 b1 b2 b3 b4 b5)
                 ("LE Enhanced (" ++ (if (u8 role =? 0)%Z then "Master" else "Slave")
                    ++ ", "
                    ++ dict_get ADDR_TYPES (u8 atype)
                         ("Unknown(" ++ fmt_int (u8 atype) ++ ")") ++ ")")%string
                 ("le_enhanced_connection_complete (status=" ++ fmt_int (u8 status)
                    ++ ", handle=0x" ++ fmt_04X (Z.land (le_uint16 hlo hhi) 0x0FFF)
                    ++ ")")%string)))).
Proof.
  pose proof (u8_range plen) as Hr. pose proof (len_nonneg rest) as Hl.
  split; intros Hp Hrest.
  - destruct (le_meta_connection_params plen x01 status hlo hhi role atype
                b0 b1 b2 b3 b4 b5 rest 19 Hp ltac:(lia) ltac:(lia))
      as (Hlen & E0 & E1 & E2 & E3 & E4 & E5 & E6).
    unfold _process_hci_event. cbn [pkt_data pkt_timestamp pkt_direction].
    set (data := x3e :: plen :: x01 :: status :: hlo :: hhi :: role :: atype
                     :: b0 :: b1 :: b2 :: b3 :: b4 :: b5 :: rest) in *.
    assert (Hd : len data = 14 + len rest) by (unfold data; rewrite !len_cons; lia).
    replace (len data <? 2) with false by (symmetry; apply Z.ltb_ge; lia).
    rewrite !bind_getitem by lia. nat_lits.
    change (nth 0 data x00) with x3e. change (nth 1 data x00) with plen.
    change (u8 x3e =? EVT_CONNECTION_REQUEST) with false.
    change (u8 x3e =? EVT_CONNECTION_COMPLETE) with false.
    change (u8 x3e =? EVT_DISCONNECTION_COMPLETE) with false.
    change (u8 x3e =? EVT_LE_META) with true. cbv iota.
    set (params := slice data 2 (2 + u8 plen)) in *.
    unfold _process_le_meta_event.
    replace (len params <? 1) with false by (symmetry; apply Z.ltb_ge; lia).
    rewrite (bind_getitem params 0) by lia. nat_lits. rewrite E0.
    change (u8 x01 =? LE_CONNECTION_COMPLETE) with true. cbv iota.
    replace (len params >=? 19) with true by (symmetry; apply Z.geb_le; lia).
    rewrite (bind_getitem params 1) by lia.
    rewrite (bind_unpack_le_H params 2 4) by lia.
    rewrite (bind_getitem params 4) by lia.
    rewrite (bind_getitem params 5) by lia. nat_lits. change (2 + 1)%nat with 3%nat.
    change (Z.to_nat 4) with 4%nat. change (Z.to_nat 5) with 5%nat.
    rewrite E1, E2, E3, E4, E5, E6, format_bd_addr_six.
    apply append_connection_appends.
  - destruct (le_meta_connection_params plen x0a status hlo hhi role atype
                b0 b1 b2 b3 b4 b5 rest 31 Hp ltac:(lia) ltac:(lia))
      as (Hlen & E0 & E1 & E2 & E3 & E4 & E5 & E6).
    unfold _process_hci_event. cbn [pkt_data pkt_timestamp pkt_direction].
    set (data := x3e :: plen :: x0a :: status :: hlo :: hhi :: role :: atype
                     :: b0 :: b1 :: b2 :: b3 :: b4 :: b5 :: rest) in *.
    assert (Hd : len data = 14 + len rest) by (unfold data; rewrite !len_cons; lia).
    replace (len data <? 2) with false by (symmetry; apply Z.ltb_ge; lia).
    rewrite !bind_getitem by lia. nat_lits.
    change (nth 0 data x00) with x3e. change (nth 1 data x00) with plen.
    change (u8 x3e =? EVT_CONNECTION_REQUEST) with false.
    change (u8 x3e =? EVT_CONNECTION_COMPLETE) with false.
    change (u8 x3e =? EVT_DISCONNECTION_COMPLETE) with false.
    change (u8 x3e =? EVT_LE_META) with true. cbv iota.
    set (params := slice data 2 (2 + u8 plen)) in *.
    unfold _process_le_meta_event.
    replace (len params <? 1) with false by (symmetry; apply Z.ltb_ge; lia).
    rewrite (bind_getitem params 0) by lia. nat_lits. rewrite E0.
    change (u8 x0a =? LE_CONNECTION_COMPLETE) with false.
    change (u8 x0a =? LE_ENHANCED_CONNECTION_COMPLETE) with true. cbv iota.
    replace (len params >=? 31) with true by (symmetry; apply Z.geb_le; lia).
    rewrite (bind_getitem params 1) by lia.
    rewrite (bind_unpack_le_H params 2 4) by lia.
    rewrite (bind_getitem params 4) by lia.
    rewrite (bind_getitem params 5) by lia. nat_lits. change (2 + 1)%nat with 3%nat.
    change (Z.to_nat 4) with 4%nat. change (Z.to_nat 5) with 5%nat.
    rewrite E1, E2, E3, E4, E5, E6, format_bd_addr_six.
    apply append_connection_appends.
Qed.

Lemma le_connection_complete_decoded_witness :
  exists c,
    _process_hci_event
      (mkBtsnoopPacket 0 "received" HCI_EVENT
         (x3e :: x13 :: x01 :: x00 :: x40 :: xf0 :: x01 :: x07
              :: x01 :: x02 :: x03 :: x04 :: x05 :: x06
              :: [x00; x00; x00; x00; x00; x00; x00])) init
    = (Ok tt, app_parser init (only_connection c))
    /\ conn_bd_addr c = render_address x01 x02 x03 x04 x05 x06.
Proof.
  eexists. split.
  - apply (proj1 (le_connection_complete_decoded 0 "received" HCI_EVENT
                    x13 x00 x40 xf0 x01 x07 x01 x02 x03 x04 x05 x06
                    [x00; x00; x00; x00; x00; x00; x00] init)).
    + vm_compute. discriminate.
    + vm_compute. discriminate.
  - reflexivity.
Defined.

(** ** The display form of an address *)

Lemma hex2_value_two_hex (b : byte) : hex2_value (two_hex_digits b) = u8 b.
Proof. destruct b; reflexivity. Qed.

Lemma u8_inj (b b' : byte) : u8 b = u8 b' -> b = b'.
Proof.
  unfold u8. intros H. apply N2Z.inj in H.
  pose proof (Byte.of_to_N b) as E. rewrite H, Byte.of_to_N in E. congruence.
Qed.

Lemma two_hex_digits_inj (b b' : byte) :
  two_hex_digits b = two_hex_digits b' -> b = b'.
Proof.
  intros H. apply u8_inj. now rewrite <- !hex2_value_two_hex, H.
Qed.

(** The display form of an address has 17 characters, and it tells the
    address: two lists of six bytes with the same display form are the same
    list. *)
Theorem format_bd_addr_faithful (b0 b1 b2 b3 b4 b5 c0 c1 c2 c3 c4 c5 : byte) :
  String.length (format_bd_addr [b0; b1; b2; b3; b4; b5]) = 17%nat
  /\ (format_bd_addr [b0; b1; b2; b3; b4; b5] = format_bd_addr [c0; c1; c2; c3; c4; c5] ->
      [b0; b1; b2; b3; b4; b5] = [c0; c1; c2; c3; c4; c5]).
Proof.
  rewrite !format_bd_addr_six. unfold render_address.
  split.
  - unfold two_hex_digits. reflexivity.
  - intros H.
    assert (P : forall x y (s s' : string),
              (two_hex_digits x ++ s)%string = (two_hex_digits y ++ s')%string ->
              x = y /\ s = s').
    { intros x y s s' E. unfold two_hex_digits in E. cbn [append] in E.
      injection E as E1 E2 E3. split; [|exact E3].
      apply two_hex_digits_inj. unfold two_hex_digits. now rewrite E1, E2. }
    assert (Q : forall s s' : string, (":" ++ s)%string = (":" ++ s')%string -> s = s').
    { intros s s' E. cbn [append] in E. now injection E. }
    apply P in H. destruct H as (-> & H). apply Q in H.
    apply P in H. destruct H as (-> & H). apply Q in H.
    apply P in H. destruct H as (-> & H). apply Q in H.
    apply P in H. destruct H as (-> & H). apply Q in H.
    apply P in H. destruct H as (-> & H). apply Q in H.
    apply two_hex_digits_inj in H. now rewrite H.
Qed.

Lemma format_bd_addr_faithful_witness :
  [x01; x02; x03; x04; x05; x06] = [x01; x02; x03; x04; x05; x06].
Proof.
  apply (proj2 (format_bd_addr_faithful x01 x02 x03 x04 x05 x06
                  x01 x02 x03 x04 x05 x06)).
  reflexivity.
Defined.

(** * The reads and the memory they ask for *)



















(** ** A capture that is cut short *)




(** ** Exceptions *)


